(** * Azure Batch samples: pools-and-resource-files and job-scheduler

A shallow embedding of the two sample scripts
[Python/Batch/sample2_pools_and_resourcefiles.py] and
[Python/Batch/sample4_job_scheduler.py].

The scripts are glue code over two remote services.  Every remote
operation (and every helper of [common.helpers] that performs remote
operations) is a [call] answered by a [Service]: it either returns a
value or raises, and it may change the state of the remote world.  A
run of a script yields its outcome, the final world and the trace of
everything it did, in order. *)

From Stdlib Require Import ZArith List Lia Ascii String.
From stdpp Require Import gmap strings list pretty.

Open Scope Z_scope.
Open Scope string_scope.
Open Scope list_scope.

(** ** Python values used by the samples *)

Module Py.

(** [datetime.datetime] (naive, UTC) as microseconds since the epoch of
    the type, and [datetime.timedelta] as microseconds. *)
Definition datetime : Type := Z.
Definition timedelta : Type := Z.

(** [datetime.timedelta(hours=h)] and [datetime.timedelta(minutes=m)]. *)
Definition timedelta_hours (h : Z) : timedelta := h * 3600 * 1000000.
Definition timedelta_minutes (m : Z) : timedelta := m * 60 * 1000000.

(** [BatchErrorDetail]: one entry of [err.error.values]. *)
Record BatchErrorDetail := { key : string; value : string }.

(** [BatchError]: what [err.error] of a batch error holds when the
    response of the service could be read as one; [values] may be left
    unset ([None]). *)
Record BatchError := { values : option (list BatchErrorDetail) }.

(** The exception classes that the samples name, and the ones their
    library calls raise.  [BatchErrorException] carries [err.error],
    which is unset ([None]) when the response could not be read as a
    batch error. *)
Inductive exn : Type :=
| ResourceExistsError
| ResourceNotFoundError
| HttpResponseError (message : string)
| BatchErrorException (error : option BatchError)
| NoSectionError (section : string)
| NoOptionError (option section : string)
| InterpolationError (message : string)
| ValueError (message : string)
| TypeError (message : string)
| AttributeError (message : string)
| TimeoutError (message : string)
| RuntimeError (message : string).

(** [isinstance(e, ResourceExistsError)] and its siblings: what an
    [except] clause of that class catches. *)
Definition is_ResourceExistsError (e : exn) : bool :=
  match e with ResourceExistsError => true | _ => false end.
Definition is_ResourceNotFoundError (e : exn) : bool :=
  match e with ResourceNotFoundError => true | _ => false end.
Definition is_BatchErrorException (e : exn) : bool :=
  match e with BatchErrorException _ => true | _ => false end.

(** The result of evaluating an expression or a statement. *)
Inductive outcome (A : Type) : Type :=
| Ok (a : A)
| Raise (e : exn).
Arguments Ok {A} a.
Arguments Raise {A} e.

Definition raised {A} (r : outcome A) : bool :=
  match r with Ok _ => false | Raise _ => true end.

(** What [print] is given. *)
Inductive printable : Type :=
| PStr (s : string)
| PDatetime (t : datetime)
| PDetail (d : BatchErrorDetail).

End Py.
Export Py.

(** ** configparser.ConfigParser, as far as the samples use it *)

Module ConfigParser.

(** A [ConfigParser] object is handed to [execute_sample] ready-made.
    The samples call three of its methods, each with a section and an
    option, and each returns a value or raises:
    [config.get(section, option)], [config.getboolean(section, option)]
    and [config.getint(section, option)].  The object is these three
    methods; how it was filled, and how the library looks an option up,
    interpolates its value and converts it, is left to the object. *)
Record t := {
  get : string -> string -> outcome string;
  getboolean : string -> string -> outcome bool;
  getint : string -> string -> outcome Z
}.

End ConfigParser.

(** ** azure.batch.models: the parameter objects the samples build

Each class is a record with the fields the samples set; a field the
SDK leaves optional is an [option]. *)

Module batchmodels.

Module ImageReference.
Record t := { publisher : string; offer : string; sku : string }.
End ImageReference.

Module VirtualMachineConfiguration.
Record t := {
  image_reference : ImageReference.t;
  node_agent_sku_id : string
}.
End VirtualMachineConfiguration.

Module ResourceFile.
Record t := { file_path : string; http_url : string }.
End ResourceFile.

Module AutoUserSpecification.
Record t := { elevation_level : string }.
End AutoUserSpecification.

Module UserIdentity.
Record t := { auto_user : AutoUserSpecification.t }.
End UserIdentity.

Module StartTask.
Record t := {
  command_line : string;
  resource_files : list ResourceFile.t;
  wait_for_success : option bool;
  user_identity : option UserIdentity.t
}.
End StartTask.

Module PoolAddParameter.
Record t := {
  id : string;
  virtual_machine_configuration : VirtualMachineConfiguration.t;
  vm_size : string;
  target_dedicated_nodes : Z;
  start_task : StartTask.t
}.
End PoolAddParameter.

Module PoolSpecification.
Record t := {
  vm_size : string;
  target_dedicated_nodes : Z;
  virtual_machine_configuration : VirtualMachineConfiguration.t;
  start_task : StartTask.t
}.
End PoolSpecification.

Inductive PoolLifetimeOption := job_schedule | job.

Module AutoPoolSpecification.
Record t := {
  auto_pool_id_prefix : string;
  pool : PoolSpecification.t;
  keep_alive : bool;
  pool_lifetime_option : PoolLifetimeOption
}.
End AutoPoolSpecification.

Module PoolInformation.
Record t := {
  pool_id : option string;
  auto_pool_specification : option AutoPoolSpecification.t
}.
End PoolInformation.

Module JobAddParameter.
Record t := { id : string; pool_info : PoolInformation.t }.
End JobAddParameter.

Module TaskAddParameter.
Record t := {
  id : string;
  command_line : string;
  resource_files : list ResourceFile.t
}.
End TaskAddParameter.

Module CloudTask.
Record t := { id : string }.
End CloudTask.

Inductive OnAllTasksComplete := no_action | terminate_job.

Module JobManagerTask.
Record t := {
  id : string;
  command_line : string;
  resource_files : list ResourceFile.t
}.
End JobManagerTask.

Module JobSpecification.
Record t := {
  pool_info : PoolInformation.t;
  on_all_tasks_complete : OnAllTasksComplete;
  job_manager_task : JobManagerTask.t
}.
End JobSpecification.

Module Schedule.
Record t := {
  do_not_run_after : datetime;
  recurrence_interval : timedelta
}.
End Schedule.

Module JobScheduleAddParameter.
Record t := {
  id : string;
  schedule : Schedule.t;
  job_specification : JobSpecification.t
}.
End JobScheduleAddParameter.

End batchmodels.

(** ** The clients *)

(** [azure.batch.batch_auth.SharedKeyCredentials]. *)
Module SharedKeyCredentials.
Record t := { account_name : string; key : string }.
End SharedKeyCredentials.

(** [azure.batch.BatchServiceClient]; [retries] is what the script has
    assigned to [config.retry_policy.retries], [None] as long as the
    client keeps the default of the library. *)
Module BatchServiceClient.
Record t := {
  credentials : SharedKeyCredentials.t;
  batch_url : string;
  retries : option Z
}.
(** [BatchServiceClient(credentials, batch_url=batch_url)]. *)
Definition new (credentials : SharedKeyCredentials.t) (batch_url : string) : t :=
  {| credentials := credentials; batch_url := batch_url; retries := None |}.
(** [client.config.retry_policy.retries = n]. *)
Definition set_retries (c : t) (n : Z) : t :=
  {| credentials := credentials c; batch_url := batch_url c; retries := Some n |}.
End BatchServiceClient.

(** [azure.storage.blob.BlobServiceClient]. *)
Module BlobServiceClient.
Record t := { account_url : string; credential : string }.
End BlobServiceClient.

(** ** Remote operations

One constructor per operation the samples invoke on a client or
through [common.helpers] (whose code is not part of the two scripts);
the client is the first argument, as it is the receiver in the source. *)

Inductive call : Type :=
(* blob_service_client.create_container(name) *)
| create_container (blob_service_client : BlobServiceClient.t) (name : string)
(* blob_service_client.delete_container(name) *)
| delete_container (blob_service_client : BlobServiceClient.t) (name : string)
(* common.helpers.upload_blob_and_create_sas(client, container, blob, file, expiry) *)
| upload_blob_and_create_sas (blob_service_client : BlobServiceClient.t)
    (container_name blob_name file_name : string) (expiry : datetime)
(* common.helpers.select_latest_verified_vm_image_with_node_agent_sku *)
| select_latest_verified_vm_image_with_node_agent_sku
    (batch_client : BatchServiceClient.t) (publisher offer sku_starts_with : string)
(* common.helpers.create_pool_if_not_exist(batch_client, pool) *)
| create_pool_if_not_exist (batch_client : BatchServiceClient.t)
    (pool : batchmodels.PoolAddParameter.t)
(* common.helpers.generate_unique_resource_name(prefix) *)
| generate_unique_resource_name (resource_prefix : string)
(* common.helpers.wait_for_tasks_to_complete(batch_client, job_id, timeout) *)
| wait_for_tasks_to_complete (batch_client : BatchServiceClient.t)
    (job_id : string) (timeout : timedelta)
(* common.helpers.wait_for_job_under_job_schedule(batch_client, id, timeout) *)
| wait_for_job_under_job_schedule (batch_client : BatchServiceClient.t)
    (job_schedule_id : string) (timeout : timedelta)
(* common.helpers.wait_for_job_schedule_to_complete(batch_client, id, timeout) *)
| wait_for_job_schedule_to_complete (batch_client : BatchServiceClient.t)
    (job_schedule_id : string) (timeout : datetime)
(* common.helpers.print_task_output(batch_client, job_id, task_ids) *)
| print_task_output (batch_client : BatchServiceClient.t)
    (job_id : string) (task_ids : list string)
(* batch_client.job.add(job) *)
| job_add (batch_client : BatchServiceClient.t) (job : batchmodels.JobAddParameter.t)
(* batch_client.job.delete(job_id) *)
| job_delete (batch_client : BatchServiceClient.t) (job_id : string)
(* batch_client.task.add(job_id=..., task=...) *)
| task_add (batch_client : BatchServiceClient.t) (job_id : string)
    (task : batchmodels.TaskAddParameter.t)
(* batch_client.task.list(job_id), iterated to the end *)
| task_list (batch_client : BatchServiceClient.t) (job_id : string)
(* batch_client.pool.delete(pool_id) *)
| pool_delete (batch_client : BatchServiceClient.t) (pool_id : string)
(* batch_client.job_schedule.add(cloud_job_schedule=...) *)
| job_schedule_add (batch_client : BatchServiceClient.t)
    (cloud_job_schedule : batchmodels.JobScheduleAddParameter.t)
(* batch_client.job_schedule.delete(job_schedule_id) *)
| job_schedule_delete (batch_client : BatchServiceClient.t) (job_schedule_id : string).

(** The type of what a call returns when it does not raise. *)
Definition ret (c : call) : Type :=
  match c with
  | upload_blob_and_create_sas _ _ _ _ _ => string
  | select_latest_verified_vm_image_with_node_agent_sku _ _ _ _ =>
      (string * batchmodels.ImageReference.t)%type
  | generate_unique_resource_name _ => string
  | wait_for_job_under_job_schedule _ _ _ => string
  | task_list _ _ => list batchmodels.CloudTask.t
  | _ => unit
  end.

(** What a run leaves in its trace. *)
Inductive event : Type :=
| ECall (c : call) (r : outcome (ret c))
| EUtcNow (t : datetime)
| EPrint (args : list printable)
| EPrintConfiguration (config : ConfigParser.t).

(** The remote world: how it answers a call, and what the clock reads
    ([datetime.datetime.utcnow()], which may advance the world). *)
Class Service (W : Type) := {
  sdk : forall c : call, W -> outcome (ret c) * W;
  clock : W -> datetime * W
}.

(** [common.helpers.wrap_commands_in_shell(ostype, commands)], a pure
    string function of the helpers module, which the scripts only call. *)
Class Helpers := {
  wrap_commands_in_shell : string -> list string -> string
}.

(** ** Programs: outcome, final world and trace *)

Definition M (W A : Type) : Type := W -> outcome A * W * list event.

Section Monad.
Context {W : Type} `{Service W}.

Definition pure {A} (a : A) : M W A := fun w => (Ok a, w, []).

Definition raise {A} (e : exn) : M W A := fun w => (Raise e, w, []).

Definition bind {A B} (m : M W A) (k : A -> M W B) : M W B :=
  fun w =>
    match m w with
    | (Ok a, w1, t1) =>
        match k a w1 with
        | (r, w2, t2) => (r, w2, t1 ++ t2)
        end
    | (Raise e, w1, t1) => (Raise e, w1, t1)
    end.

(** A value computed without the world, or the exception it raised. *)
Definition lift {A} (r : outcome A) : M W A := fun w => (r, w, []).

(** A remote call: ask the service, record the call and its result. *)
Definition invoke (c : call) : M W (ret c) :=
  fun w => match sdk c w with (r, w1) => (r, w1, [ECall c r]) end.

(** [datetime.datetime.utcnow()]. *)
Definition utcnow : M W datetime :=
  fun w => match clock w with (t, w1) => (Ok t, w1, [EUtcNow t]) end.

(** [print(args...)]. *)
Definition print (args : list printable) : M W unit :=
  fun w => (Ok tt, w, [EPrint args]).

(** [common.helpers.print_configuration(config)]: echoes the settings. *)
Definition print_configuration (config : ConfigParser.t) : M W unit :=
  fun w => (Ok tt, w, [EPrintConfiguration config]).

(** [try: body / except <class>: handler]. *)
Definition try_except {A} (body : M W A) (catches : exn -> bool)
    (handler : exn -> M W A) : M W A :=
  fun w =>
    match body w with
    | (Ok a, w1, t1) => (Ok a, w1, t1)
    | (Raise e, w1, t1) =>
        if catches e then
          match handler e w1 with
          | (r, w2, t2) => (r, w2, t1 ++ t2)
          end
        else (Raise e, w1, t1)
    end.

(** [try: body / finally: cleanup]: the cleanup always runs; if it
    raises, its exception replaces the outcome of the body. *)
Definition try_finally {A} (body : M W A) (cleanup : M W unit) : M W A :=
  fun w =>
    match body w with
    | (r, w1, t1) =>
        match cleanup w1 with
        | (Ok _, w2, t2) => (r, w2, t1 ++ t2)
        | (Raise e, w2, t2) => (Raise e, w2, t1 ++ t2)
        end
    end.

(** [if cond: body]. *)
Definition when (cond : bool) (body : M W unit) : M W unit :=
  if cond then body else pure tt.

(** [for x in xs: body(x)]. *)
Fixpoint for_each {A} (xs : list A) (body : A -> M W unit) : M W unit :=
  match xs with
  | [] => pure tt
  | x :: xs' => bind (body x) (fun _ => for_each xs' body)
  end.

Definition result_of {A} (x : outcome A * W * list event) : outcome A := x.1.1.
Definition world_of {A} (x : outcome A * W * list event) : W := x.1.2.
Definition trace_of {A} (x : outcome A * W * list event) : list event := x.2.

End Monad.

Notation "x <- m ;; k" := (bind m (fun x => k))
  (at level 62, m at next level, right associativity).
Notation "m ;;; k" := (bind m (fun _ => k))
  (at level 62, right associativity).

(** [os.path.join(a, b)] for relative [b] (POSIX separator). *)
Definition os_path_join (a b : string) : string := a +:+ "/" +:+ b.

(** ** sample2_pools_and_resourcefiles.py *)

Module sample2.
Section Sample.
Context {W : Type} `{Service W}.
Import batchmodels.

Definition _CONTAINER_NAME : string := "poolsandresourcefiles".
Definition _SIMPLE_TASK_NAME : string := "simple_task.py".
Definition _SIMPLE_TASK_PATH : string := os_path_join "resources" "simple_task.py".

(** Lines 49-95. *)
Definition create_pool
    (batch_client : BatchServiceClient.t)
    (blob_service_client : BlobServiceClient.t)
    (pool_id vm_size : string) (vm_count : Z) : M W unit :=
  image <- invoke (select_latest_verified_vm_image_with_node_agent_sku
                     batch_client "canonical" "ubuntuserver" "18.04") ;;
  let sku_to_use := image.1 in
  let image_ref_to_use := image.2 in
  try_except
    (invoke (create_container blob_service_client _CONTAINER_NAME))
    is_ResourceExistsError
    (fun _ => pure tt) ;;;
  now <- utcnow ;;
  sas_url <- invoke (upload_blob_and_create_sas
                       blob_service_client
                       _CONTAINER_NAME
                       _SIMPLE_TASK_NAME
                       _SIMPLE_TASK_PATH
                       (now + timedelta_hours 1)) ;;
  let pool := {|
    PoolAddParameter.id := pool_id;
    PoolAddParameter.virtual_machine_configuration := {|
      VirtualMachineConfiguration.image_reference := image_ref_to_use;
      VirtualMachineConfiguration.node_agent_sku_id := sku_to_use |};
    PoolAddParameter.vm_size := vm_size;
    PoolAddParameter.target_dedicated_nodes := vm_count;
    PoolAddParameter.start_task := {|
      StartTask.command_line := "python " +:+ _SIMPLE_TASK_NAME;
      StartTask.resource_files := [ {|
        ResourceFile.file_path := _SIMPLE_TASK_NAME;
        ResourceFile.http_url := sas_url |} ];
      StartTask.wait_for_success := None;
      StartTask.user_identity := None |} |} in
  invoke (create_pool_if_not_exist batch_client pool).

(** Lines 98-136. *)
Definition submit_job_and_add_task
    (batch_client : BatchServiceClient.t)
    (blob_service_client : BlobServiceClient.t)
    (job_id pool_id : string) : M W unit :=
  let job := {|
    JobAddParameter.id := job_id;
    JobAddParameter.pool_info := {|
      PoolInformation.pool_id := Some pool_id;
      PoolInformation.auto_pool_specification := None |} |} in
  invoke (job_add batch_client job) ;;;
  try_except
    (invoke (create_container blob_service_client _CONTAINER_NAME))
    is_ResourceExistsError
    (fun _ => pure tt) ;;;
  now <- utcnow ;;
  sas_url <- invoke (upload_blob_and_create_sas
                       blob_service_client
                       _CONTAINER_NAME
                       _SIMPLE_TASK_NAME
                       _SIMPLE_TASK_PATH
                       (now + timedelta_hours 1)) ;;
  let task := {|
    TaskAddParameter.id := "MyPythonTask";
    TaskAddParameter.command_line := "python " +:+ _SIMPLE_TASK_NAME;
    TaskAddParameter.resource_files := [ {|
      ResourceFile.file_path := _SIMPLE_TASK_NAME;
      ResourceFile.http_url := sas_url |} ] |} in
  invoke (task_add batch_client (JobAddParameter.id job) task).

(** The staging step, as [create_pool] (lines 68-78) and
    [submit_job_and_add_task] (lines 117-127) both spell it out. *)
Definition staging (blob_service_client : BlobServiceClient.t) : M W string :=
  try_except
    (invoke (create_container blob_service_client _CONTAINER_NAME))
    is_ResourceExistsError
    (fun _ => pure tt) ;;;
  now <- utcnow ;;
  invoke (upload_blob_and_create_sas
            blob_service_client
            _CONTAINER_NAME
            _SIMPLE_TASK_NAME
            _SIMPLE_TASK_PATH
            (now + timedelta_hours 1)).

(** The local variables of [execute_sample] that its [try] statement
    reads. *)
Record locals := {
  batch_client : BatchServiceClient.t;
  blob_service_client : BlobServiceClient.t;
  job_id : string;
  pool_id : string;
  pool_vm_size : string;
  pool_vm_count : Z;
  should_delete_container : bool;
  should_delete_job : bool;
  should_delete_pool : bool
}.

(** Lines 145-191: everything [execute_sample] does before its [try]. *)
Definition setup (global_config sample_config : ConfigParser.t) : M W locals :=
  batch_account_key <- lift (ConfigParser.get global_config "Batch" "batchaccountkey") ;;
  batch_account_name <- lift (ConfigParser.get global_config "Batch" "batchaccountname") ;;
  batch_service_url <- lift (ConfigParser.get global_config "Batch" "batchserviceurl") ;;
  storage_account_url <- lift (ConfigParser.get global_config "Storage" "storageaccounturl") ;;
  storage_account_key <- lift (ConfigParser.get global_config "Storage" "storageaccountkey") ;;
  should_delete_container <-
    lift (ConfigParser.getboolean sample_config "DEFAULT" "shoulddeletecontainer") ;;
  should_delete_job <-
    lift (ConfigParser.getboolean sample_config "DEFAULT" "shoulddeletejob") ;;
  should_delete_pool <-
    lift (ConfigParser.getboolean sample_config "DEFAULT" "shoulddeletepool") ;;
  pool_vm_size <- lift (ConfigParser.get sample_config "DEFAULT" "poolvmsize") ;;
  pool_vm_count <- lift (ConfigParser.getint sample_config "DEFAULT" "poolvmcount") ;;
  print_configuration global_config ;;;
  print_configuration sample_config ;;;
  let credentials := {|
    SharedKeyCredentials.account_name := batch_account_name;
    SharedKeyCredentials.key := batch_account_key |} in
  let batch_client := BatchServiceClient.new credentials batch_service_url in
  let batch_client := BatchServiceClient.set_retries batch_client 5 in
  let storage_account_url := "https://perssto.blob.core.windows.net" in
  let blob_service_client := {|
    BlobServiceClient.account_url := storage_account_url;
    BlobServiceClient.credential := storage_account_key |} in
  job_id <- invoke (generate_unique_resource_name "PoolsAndResourceFilesJob") ;;
  let pool_id := "PoolsAndResourceFilesPool" in
  pure {|
    batch_client := batch_client;
    blob_service_client := blob_service_client;
    job_id := job_id;
    pool_id := pool_id;
    pool_vm_size := pool_vm_size;
    pool_vm_count := pool_vm_count;
    should_delete_container := should_delete_container;
    should_delete_job := should_delete_job;
    should_delete_pool := should_delete_pool |}.

(** Lines 193-213: the body of the [try]. *)
Definition workflow (l : locals) : M W unit :=
  create_pool
    (batch_client l)
    (blob_service_client l)
    (pool_id l)
    (pool_vm_size l)
    (pool_vm_count l) ;;;
  submit_job_and_add_task
    (batch_client l)
    (blob_service_client l)
    (job_id l) (pool_id l) ;;;
  invoke (wait_for_tasks_to_complete
            (batch_client l)
            (job_id l)
            (timedelta_minutes 25)) ;;;
  tasks <- invoke (task_list (batch_client l) (job_id l)) ;;
  let task_ids := map CloudTask.id tasks in
  invoke (print_task_output (batch_client l) (job_id l) task_ids).

(** Lines 215-223: the [finally] block. *)
Definition cleanup (l : locals) : M W unit :=
  when (should_delete_container l)
    (invoke (delete_container (blob_service_client l) _CONTAINER_NAME)) ;;;
  when (should_delete_job l)
    (print [PStr "Deleting job: "; PStr (job_id l)] ;;;
     invoke (job_delete (batch_client l) (job_id l))) ;;;
  when (should_delete_pool l)
    (print [PStr "Deleting pool: "; PStr (pool_id l)] ;;;
     invoke (pool_delete (batch_client l) (pool_id l))).

(** Lines 139-223. *)
Definition execute_sample (global_config sample_config : ConfigParser.t) : M W unit :=
  l <- setup global_config sample_config ;;
  try_finally (workflow l) (cleanup l).

End Sample.
End sample2.

(** ** sample4_job_scheduler.py *)

Module sample4.
Section Sample.
Context {W : Type} `{Service W} `{Helpers}.
Import batchmodels.

(** [_START_TIME = datetime.datetime.utcnow()] is evaluated once, when
    the module is loaded: a parameter of everything below. *)
Variable _START_TIME : datetime.

Definition _CONTAINER_NAME : string := "jobscheduler".
Definition _SIMPLE_TASK_NAME : string := "simple_task.py".
Definition _SIMPLE_TASK_PATH : string := os_path_join "resources" "simple_task.py".
Definition _PYTHON_DOWNLOAD : string :=
  "https://www.python.org/ftp/python/3.7.3/python-3.7.3-amd64.exe".
Definition _PYTHON_INSTALL : string :=
  ".\python373.exe /passive InstallAllUsers=1 PrependPath=1 Include_test=0".
Definition _USER_ELEVATION_LEVEL : string := "admin".
Definition _END_TIME : datetime := _START_TIME + timedelta_minutes 30.

(** Lines 58-138. *)
Definition create_job_schedule
    (batch_client : BatchServiceClient.t)
    (job_schedule_id vm_size : string) (vm_count : Z)
    (blob_service_client : BlobServiceClient.t) : M W unit :=
  let vm_config := {|
    VirtualMachineConfiguration.image_reference := {|
      ImageReference.publisher := "microsoftwindowsserver";
      ImageReference.offer := "windowsserver";
      ImageReference.sku := "2019-datacenter-core" |};
    VirtualMachineConfiguration.node_agent_sku_id := "batch.node.windows amd64" |} in
  let user_id := {|
    UserIdentity.auto_user := {|
      AutoUserSpecification.elevation_level := _USER_ELEVATION_LEVEL |} |} in
  let python_download := {|
    ResourceFile.http_url := _PYTHON_DOWNLOAD;
    ResourceFile.file_path := "python373.exe" |} in
  let pool_info := {|
    PoolInformation.pool_id := None;
    PoolInformation.auto_pool_specification := Some {|
      AutoPoolSpecification.auto_pool_id_prefix := "JobScheduler";
      AutoPoolSpecification.pool := {|
        PoolSpecification.vm_size := vm_size;
        PoolSpecification.target_dedicated_nodes := vm_count;
        PoolSpecification.virtual_machine_configuration := vm_config;
        PoolSpecification.start_task := {|
          StartTask.command_line :=
            wrap_commands_in_shell "windows" [_PYTHON_INSTALL];
          StartTask.resource_files := [python_download];
          StartTask.wait_for_success := Some true;
          StartTask.user_identity := Some user_id |} |};
      AutoPoolSpecification.keep_alive := false;
      AutoPoolSpecification.pool_lifetime_option := job |} |} in
  now <- utcnow ;;
  sas_url <- invoke (upload_blob_and_create_sas
                       blob_service_client
                       _CONTAINER_NAME
                       _SIMPLE_TASK_NAME
                       _SIMPLE_TASK_PATH
                       (now + timedelta_minutes 30)) ;;
  let job_spec := {|
    JobSpecification.pool_info := pool_info;
    JobSpecification.on_all_tasks_complete := terminate_job;
    JobSpecification.job_manager_task := {|
      JobManagerTask.id := "JobManagerTask";
      JobManagerTask.command_line :=
        wrap_commands_in_shell "windows" ["python " +:+ _SIMPLE_TASK_NAME];
      JobManagerTask.resource_files := [ {|
        ResourceFile.file_path := _SIMPLE_TASK_NAME;
        ResourceFile.http_url := sas_url |} ] |} |} in
  now' <- utcnow ;;
  let do_not_run_after := now' + timedelta_minutes 30 in
  let schedule := {|
    Schedule.do_not_run_after := do_not_run_after;
    Schedule.recurrence_interval := timedelta_minutes 10 |} in
  let scheduled_job := {|
    JobScheduleAddParameter.id := job_schedule_id;
    JobScheduleAddParameter.schedule := schedule;
    JobScheduleAddParameter.job_specification := job_spec |} in
  invoke (job_schedule_add batch_client scheduled_job).

(** The local variables of [execute_sample] that its [try] statement
    reads. *)
Record locals := {
  batch_client : BatchServiceClient.t;
  blob_service_client : BlobServiceClient.t;
  job_schedule_id : string;
  pool_vm_size : string;
  pool_vm_count : Z;
  should_delete_container : bool;
  should_delete_job_schedule : bool
}.

(** Lines 149-189: everything [execute_sample] does before its [try]. *)
Definition setup (global_config sample_config : ConfigParser.t) : M W locals :=
  batch_account_key <- lift (ConfigParser.get global_config "Batch" "batchaccountkey") ;;
  batch_account_name <- lift (ConfigParser.get global_config "Batch" "batchaccountname") ;;
  batch_service_url <- lift (ConfigParser.get global_config "Batch" "batchserviceurl") ;;
  storage_account_key <- lift (ConfigParser.get global_config "Storage" "storageaccountkey") ;;
  storage_account_url <- lift (ConfigParser.get global_config "Storage" "storageaccounturl") ;;
  should_delete_container <-
    lift (ConfigParser.getboolean sample_config "DEFAULT" "shoulddeletecontainer") ;;
  should_delete_job_schedule <-
    lift (ConfigParser.getboolean sample_config "DEFAULT" "shoulddeletejobschedule") ;;
  pool_vm_size <- lift (ConfigParser.get sample_config "DEFAULT" "poolvmsize") ;;
  pool_vm_count <- lift (ConfigParser.getint sample_config "DEFAULT" "poolvmcount") ;;
  print_configuration global_config ;;;
  print_configuration sample_config ;;;
  let credentials := {|
    SharedKeyCredentials.account_name := batch_account_name;
    SharedKeyCredentials.key := batch_account_key |} in
  let batch_client := BatchServiceClient.new credentials batch_service_url in
  let storage_account_url := "https://perssto.blob.core.windows.net" in
  let blob_service_client := {|
    BlobServiceClient.account_url := storage_account_url;
    BlobServiceClient.credential := storage_account_key |} in
  let batch_client := BatchServiceClient.set_retries batch_client 5 in
  job_schedule_id <- invoke (generate_unique_resource_name "JobScheduler") ;;
  pure {|
    batch_client := batch_client;
    blob_service_client := blob_service_client;
    job_schedule_id := job_schedule_id;
    pool_vm_size := pool_vm_size;
    pool_vm_count := pool_vm_count;
    should_delete_container := should_delete_container;
    should_delete_job_schedule := should_delete_job_schedule |}.

(** Lines 192-223: the body of the [try]. *)
Definition workflow (l : locals) : M W unit :=
  create_job_schedule
    (batch_client l)
    (job_schedule_id l)
    (pool_vm_size l)
    (pool_vm_count l)
    (blob_service_client l) ;;;
  print [PStr "Start time: "; PDatetime _START_TIME] ;;;
  print [PStr "Delete time: "; PDatetime _END_TIME] ;;;
  recent_job <- invoke (wait_for_job_under_job_schedule
                          (batch_client l)
                          (job_schedule_id l)
                          (timedelta_minutes 5)) ;;
  invoke (wait_for_tasks_to_complete
            (batch_client l)
            recent_job
            (timedelta_minutes 25)) ;;;
  tasks <- invoke (task_list (batch_client l) recent_job) ;;
  let task_ids := map CloudTask.id tasks in
  invoke (print_task_output (batch_client l) recent_job task_ids) ;;;
  invoke (wait_for_job_schedule_to_complete
            (batch_client l)
            (job_schedule_id l)
            (_END_TIME + timedelta_minutes 10)).

(** Lines 225-227: [except batchmodels.BatchErrorException as err], the
    handler [for value in err.error.values: print(...)].  When
    [err.error] is unset the attribute access raises [AttributeError];
    when [err.error.values] is unset the iteration raises [TypeError]. *)
Definition on_batch_error (err : exn) : M W unit :=
  match err with
  | BatchErrorException (Some error) =>
      match values error with
      | Some values =>
          for_each values
            (fun value => print [PStr "BatchErrorException: "; PDetail value])
      | None => raise (TypeError "'NoneType' object is not iterable")
      end
  | BatchErrorException None =>
      raise (AttributeError "'NoneType' object has no attribute 'values'")
  | _ => pure tt
  end.

(** Lines 229-237: the [finally] block. *)
Definition cleanup (l : locals) : M W unit :=
  when (should_delete_job_schedule l)
    (print [PStr "Deleting job schedule: "; PStr (job_schedule_id l)] ;;;
     invoke (job_schedule_delete (batch_client l) (job_schedule_id l))) ;;;
  when (should_delete_container l)
    (try_except
       (invoke (delete_container (blob_service_client l) _CONTAINER_NAME))
       is_ResourceNotFoundError
       (fun _ => pure tt)).

(** Lines 141-237. *)
Definition execute_sample (global_config sample_config : ConfigParser.t) : M W unit :=
  l <- setup global_config sample_config ;;
  try_finally
    (try_except (workflow l) is_BatchErrorException on_batch_error)
    (cleanup l).

End Sample.
End sample4.

(** ** A reference service

A small simulation of the two remote services, used to run the
samples on concrete inputs: containers, pools, jobs and job schedules
are sets of names, the clock advances by one second per reading, and
[faults] makes chosen calls raise. *)

Module Sim.

Record world := {
  now : datetime;
  containers : gset string;
  pools : gset string;
  jobs : gset string;
  job_schedules : gset string
}.

Definition set_containers (w : world) (s : gset string) : world :=
  {| now := now w; containers := s; pools := pools w; jobs := jobs w;
     job_schedules := job_schedules w |}.
Definition set_pools (w : world) (s : gset string) : world :=
  {| now := now w; containers := containers w; pools := s; jobs := jobs w;
     job_schedules := job_schedules w |}.
Definition set_jobs (w : world) (s : gset string) : world :=
  {| now := now w; containers := containers w; pools := pools w; jobs := s;
     job_schedules := job_schedules w |}.
Definition set_job_schedules (w : world) (s : gset string) : world :=
  {| now := now w; containers := containers w; pools := pools w; jobs := jobs w;
     job_schedules := s |}.
Definition set_now (w : world) (t : datetime) : world :=
  {| now := t; containers := containers w; pools := pools w; jobs := jobs w;
     job_schedules := job_schedules w |}.

(** A batch error whose values are the given ones. *)
Definition batch_error (details : list BatchErrorDetail) : exn :=
  BatchErrorException (Some {| values := Some details |}).

Definition not_found : exn :=
  batch_error [ {| key := "code"; value := "NotFound" |} ].
Definition already_exists : exn :=
  batch_error [ {| key := "code"; value := "Exists" |} ].

(** The service when nothing goes wrong beyond what its state dictates. *)
Definition nominal (c : call) (w : world) : outcome (ret c) * world :=
  match c as c0 return outcome (ret c0) * world with
  | create_container _ name =>
      if decide (name ∈ containers w) then (Raise ResourceExistsError, w)
      else (Ok tt, set_containers w ({[ name ]} ∪ containers w))
  | delete_container _ name =>
      if decide (name ∈ containers w)
      then (Ok tt, set_containers w (containers w ∖ {[ name ]}))
      else (Raise ResourceNotFoundError, w)
  | upload_blob_and_create_sas cl container blob _ _ =>
      if decide (container ∈ containers w)
      then (Ok (BlobServiceClient.account_url cl +:+ "/" +:+ container
                +:+ "/" +:+ blob +:+ "?sig"), w)
      else (Raise ResourceNotFoundError, w)
  | select_latest_verified_vm_image_with_node_agent_sku _ publisher offer sku =>
      (Ok ("batch.node.ubuntu 18.04",
           {| batchmodels.ImageReference.publisher := publisher;
              batchmodels.ImageReference.offer := offer;
              batchmodels.ImageReference.sku := sku +:+ "-lts" |}), w)
  | create_pool_if_not_exist _ pool =>
      (Ok tt, set_pools w ({[ batchmodels.PoolAddParameter.id pool ]} ∪ pools w))
  | generate_unique_resource_name prefix =>
      (Ok (prefix +:+ "-" +:+ pretty (now w)), w)
  | wait_for_tasks_to_complete _ job_id _ =>
      if decide (job_id ∈ jobs w) then (Ok tt, w) else (Raise not_found, w)
  | wait_for_job_under_job_schedule _ id _ =>
      if decide (id ∈ job_schedules w)
      then (Ok (id +:+ ":job-1"), set_jobs w ({[ id +:+ ":job-1" ]} ∪ jobs w))
      else (Raise not_found, w)
  | wait_for_job_schedule_to_complete _ id _ =>
      if decide (id ∈ job_schedules w) then (Ok tt, w) else (Raise not_found, w)
  | print_task_output _ _ _ => (Ok tt, w)
  | job_add _ job =>
      if decide (batchmodels.JobAddParameter.id job ∈ jobs w)
      then (Raise already_exists, w)
      else (Ok tt, set_jobs w ({[ batchmodels.JobAddParameter.id job ]} ∪ jobs w))
  | job_delete _ job_id =>
      if decide (job_id ∈ jobs w)
      then (Ok tt, set_jobs w (jobs w ∖ {[ job_id ]}))
      else (Raise not_found, w)
  | task_add _ job_id _ =>
      if decide (job_id ∈ jobs w) then (Ok tt, w) else (Raise not_found, w)
  | task_list _ job_id =>
      if decide (job_id ∈ jobs w)
      then (Ok [ {| batchmodels.CloudTask.id := "MyPythonTask" |} ], w)
      else (Raise not_found, w)
  | pool_delete _ pool_id =>
      if decide (pool_id ∈ pools w)
      then (Ok tt, set_pools w (pools w ∖ {[ pool_id ]}))
      else (Raise not_found, w)
  | job_schedule_add _ p =>
      if decide (batchmodels.JobScheduleAddParameter.id p ∈ job_schedules w)
      then (Raise already_exists, w)
      else (Ok tt, set_job_schedules w
                     ({[ batchmodels.JobScheduleAddParameter.id p ]} ∪ job_schedules w))
  | job_schedule_delete _ id =>
      if decide (id ∈ job_schedules w)
      then (Ok tt, set_job_schedules w (job_schedules w ∖ {[ id ]}))
      else (Raise not_found, w)
  end.

(** The service with injected faults: a call for which [faults] names
    an exception raises it and leaves the world as it is. *)
Definition service (faults : call -> option exn) : Service world := {|
  sdk c w :=
    match faults c with
    | Some e => (Raise e, w)
    | None => nominal c w
    end;
  clock w := (now w, set_now w (now w + 1000000))
|}.

Definition no_faults : call -> option exn := fun _ => None.

(** [job.add] is refused. *)
Definition faults_job_add : call -> option exn :=
  fun c => match c with
           | job_add _ _ => Some already_exists
           | _ => None
           end.

(** No job shows up under the schedule: the service answers the
    lookup with a batch error. *)
Definition faults_wait_for_job : call -> option exn :=
  fun c => match c with
           | wait_for_job_under_job_schedule _ _ _ =>
               Some (batch_error
                       [ {| key := "code"; value := "OperationTimedOut" |};
                         {| key := "message"; value := "no job" |} ])
           | _ => None
           end.


(** The upload of the resource file fails. *)
Definition faults_upload : call -> option exn :=
  fun c => match c with
           | upload_blob_and_create_sas _ _ _ _ _ =>
               Some (HttpResponseError "upload failed")
           | _ => None
           end.

(** The creation of a container fails for a reason other than the
    container being there. *)
Definition faults_create_container : call -> option exn :=
  fun c => match c with
           | create_container _ _ => Some (HttpResponseError "creation failed")
           | _ => None
           end.

(** The image lookup fails. *)
Definition faults_select_image : call -> option exn :=
  fun c => match c with
           | select_latest_verified_vm_image_with_node_agent_sku _ _ _ _ =>
               Some (RuntimeError "no verified image")
           | _ => None
           end.

(** [common.helpers.wrap_commands_in_shell], for the one operating
    system the samples pass. *)
Definition helpers : Helpers := {|
  wrap_commands_in_shell ostype commands :=
    "cmd.exe /c " +:+ String.concat "&" commands
|}.

Definition initial : world := {|
  now := 0; containers := ∅; pools := ∅; jobs := ∅; job_schedules := ∅
|}.

(** The same empty world at a later time. *)
Definition initial_at (t : datetime) : world := set_now initial t.

(** A world in which the container [name] is already there. *)
Definition with_container (name : string) (t : datetime) : world := {|
  now := t; containers := {[ name ]}; pools := ∅; jobs := ∅; job_schedules := ∅
|}.

(** *** Reference configurations

A configuration object that answers from the entries of the [DEFAULT]
section and those of the named sections, as a parser does for plain
entries (values without [%], which need no interpolation; flags in one
of the spellings of [BOOLEAN_STATES]; counts in a few decimal digits):
[get] gives the entry of the section, else the one of [DEFAULT];
[getboolean] and [getint] convert what [get] gives. *)

(** [str.lower()] on ASCII letters. *)
Definition lower_ascii (c : ascii) : ascii :=
  match c with
  | "A" => "a" | "B" => "b" | "C" => "c" | "D" => "d" | "E" => "e" | "F" => "f"
  | "G" => "g" | "H" => "h" | "I" => "i" | "J" => "j" | "K" => "k" | "L" => "l"
  | "M" => "m" | "N" => "n" | "O" => "o" | "P" => "p" | "Q" => "q" | "R" => "r"
  | "S" => "s" | "T" => "t" | "U" => "u" | "V" => "v" | "W" => "w" | "X" => "x"
  | "Y" => "y" | "Z" => "z"
  | _ => c
  end%char.

Fixpoint lower (s : string) : string :=
  match s with
  | EmptyString => EmptyString
  | String c s' => String (lower_ascii c) (lower s')
  end.

(** The entries of a section; the named sections are a list of them. *)
Definition entries : Type := list (string * string).

Fixpoint entry (name : string) (d : entries) : option string :=
  match d with
  | [] => None
  | (k, v) :: d' => if String.eqb name k then Some v else entry name d'
  end.

Fixpoint section_entries (section : string) (s : list (string * entries))
    : option entries :=
  match s with
  | [] => None
  | (name, d) :: s' =>
      if String.eqb section name then Some d else section_entries section s'
  end.

Definition get_entry (defaults : entries) (sections : list (string * entries))
    (section option : string) : outcome string :=
  match section_entries section sections with
  | Some d =>
      match entry (lower option) d with
      | Some v => Ok v
      | None =>
          match entry (lower option) defaults with
          | Some v => Ok v
          | None => Raise (NoOptionError (lower option) section)
          end
      end
  | None =>
      if String.eqb section "DEFAULT" then
        match entry (lower option) defaults with
        | Some v => Ok v
        | None => Raise (NoOptionError (lower option) section)
        end
      else Raise (NoSectionError section)
  end.

(** [RawConfigParser.BOOLEAN_STATES]. *)
Definition BOOLEAN_STATES (v : string) : option bool :=
  if String.eqb v "1" || String.eqb v "yes" || String.eqb v "true"
     || String.eqb v "on" then Some true
  else if String.eqb v "0" || String.eqb v "no" || String.eqb v "false"
          || String.eqb v "off" then Some false
  else None.

Definition to_boolean (r : outcome string) : outcome bool :=
  match r with
  | Raise e => Raise e
  | Ok v =>
      match BOOLEAN_STATES (lower v) with
      | Some b => Ok b
      | None => Raise (ValueError ("Not a boolean: " +:+ v))
      end
  end.

(** A count written in decimal digits with an optional sign. *)
Fixpoint position (c : ascii) (alphabet : string) (n : Z) : option Z :=
  match alphabet with
  | EmptyString => None
  | String d alphabet' =>
      if Ascii.eqb c d then Some n else position c alphabet' (n + 1)
  end.

Definition digit (c : ascii) : option Z := position c "0123456789" 0.

Fixpoint digits (acc : Z) (s : string) : option Z :=
  match s with
  | EmptyString => Some acc
  | String c s' =>
      match digit c with
      | Some d => digits (10 * acc + d) s'
      | None => None
      end
  end.

Definition decimal (s : string) : option Z :=
  match s with
  | EmptyString => None
  | String "-"%char (String _ _ as s') => option_map Z.opp (digits 0 s')
  | String "+"%char (String _ _ as s') => digits 0 s'
  | _ => digits 0 s
  end.

Definition to_int (r : outcome string) : outcome Z :=
  match r with
  | Raise e => Raise e
  | Ok v =>
      match decimal v with
      | Some n => Ok n
      | None =>
          Raise (ValueError ("invalid literal for int() with base 10: '" +:+ v +:+ "'"))
      end
  end.

Definition config (defaults : entries) (sections : list (string * entries))
    : ConfigParser.t := {|
  ConfigParser.get := get_entry defaults sections;
  ConfigParser.getboolean section option :=
    to_boolean (get_entry defaults sections section option);
  ConfigParser.getint section option :=
    to_int (get_entry defaults sections section option)
|}.

(** The shared configuration and the per-sample ones. *)
Definition global_config (storage_account_url : string) : ConfigParser.t :=
  config []
    [ ("Batch", [ ("batchaccountkey", "k1");
                  ("batchaccountname", "acct");
                  ("batchserviceurl", "https://acct.region.batch.azure.com") ]);
      ("Storage", [ ("storageaccounturl", storage_account_url);
                    ("storageaccountkey", "k2") ]) ].

Definition sample2_config (container job pool : string) : ConfigParser.t :=
  config
    [ ("shoulddeletecontainer", container);
      ("shoulddeletejob", job);
      ("shoulddeletepool", pool);
      ("poolvmsize", "standard_d1_v2");
      ("poolvmcount", "1") ]
    [].

Definition sample4_config (container schedule : string) : ConfigParser.t :=
  config
    [ ("shoulddeletecontainer", container);
      ("shoulddeletejobschedule", schedule);
      ("poolvmsize", "standard_d1_v2");
      ("poolvmcount", "1") ]
    [].

End Sim.


(** ** Properties of runs and traces *)

(** The call an event records, if it records one. *)
Definition call_of (ev : event) : option call :=
  match ev with ECall c _ => Some c | _ => None end.

(** The event records a call that raised. *)
Definition raised_in (ev : event) : option (call * exn) :=
  match ev with ECall c (Raise e) => Some (c, e) | _ => None end.

Definition is_print_configuration (ev : event) : bool :=
  match ev with EPrintConfiguration _ => true | _ => false end.

Definition is_pool_delete (c : call) : bool :=
  match c with pool_delete _ _ => true | _ => false end.

Definition is_wait (c : call) : bool :=
  match c with
  | wait_for_tasks_to_complete _ _ _
  | wait_for_job_under_job_schedule _ _ _
  | wait_for_job_schedule_to_complete _ _ _ => true
  | _ => false
  end.

Definition is_task_add (c : call) : bool :=
  match c with task_add _ _ _ => true | _ => false end.

(** The blob client a call goes through, if it is a storage call. *)
Definition blob_client_of (c : call) : option BlobServiceClient.t :=
  match c with
  | create_container cl _ | delete_container cl _
  | upload_blob_and_create_sas cl _ _ _ _ => Some cl
  | _ => None
  end.

(** [attempted c tr]: the trace records call [c], whatever it answered. *)
Definition attempted (c : call) (tr : list event) : Prop :=
  exists r, In (ECall c r) tr.

(** [failed c tr]: the trace records call [c] raising. *)
Definition failed (c : call) (tr : list event) : Prop :=
  exists e, In (ECall c (Raise e)) tr.

(** The expiry of every signed URL requested in the trace. *)
Definition sas_expiries (tr : list event) : list datetime :=
  omap (fun ev => match ev with
                  | ECall (upload_blob_and_create_sas _ _ _ _ expiry) _ => Some expiry
                  | _ => None
                  end) tr.

(** The clock readings in the trace. *)
Definition clock_readings (tr : list event) : list datetime :=
  omap (fun ev => match ev with EUtcNow t => Some t | _ => None end) tr.



(** Every signed URL in the trace expires [offset] after a clock reading,
    one of [known] or one of the same trace. *)
Definition expiries_with (known : list datetime) (offset : timedelta)
    (tr : list event) : Prop :=
  forall expiry, In expiry (sas_expiries tr) ->
    exists t, In t (known ++ clock_readings tr) /\ expiry = t + offset.

(** Every signed URL in the trace expires [offset] after a clock reading
    of the same trace. *)
Definition expiries_at (offset : timedelta) (tr : list event) : Prop :=
  expiries_with [] offset tr.



(** A property of traces that holds of the empty trace and of the
    concatenation of two traces that have it. *)
Record additive (Q : list event -> Prop) : Prop := {
  additive_nil : Q [];
  additive_app : forall t1 t2, Q t1 -> Q t2 -> Q (t1 ++ t2)
}.

(** [respects Q I m]: from any world where [I] holds, [m] ends in a
    world where [I] holds and leaves a trace that has [Q]. *)
Definition respects {W A} (Q : list event -> Prop) (I : W -> Prop) (m : M W A) : Prop :=
  forall w, I w -> I (world_of (m w)) /\ Q (trace_of (m w)).

(** No event of the trace is a pool deletion. *)
Definition no_pool_delete : list event -> Prop :=
  Forall (fun ev => forall c, call_of ev = Some c -> is_pool_delete c = false).

(** Some event of the trace is a call that [p] accepts. *)
Definition has_call (p : call -> bool) (tr : list event) : bool :=
  existsb (fun ev => match call_of ev with Some c => p c | None => false end) tr.

(** Some call of the trace raised an exception that [p] accepts. *)
Definition has_raised (p : call -> exn -> bool) (tr : list event) : bool :=
  existsb (fun ev => match raised_in ev with Some (c, e) => p c e | None => false end) tr.

(** The trace without the echo of the settings. *)
Definition without_settings_echo (tr : list event) : list event :=
  filter (fun ev => is_print_configuration ev = false) tr.

(** The options other than [storageaccounturl] that the samples read
    from the shared configuration. *)
Definition other_shared_options : list (string * string) :=
  [ ("Batch", "batchaccountkey"); ("Batch", "batchaccountname");
    ("Batch", "batchserviceurl"); ("Storage", "storageaccountkey") ].

(** Two shared configurations that both give a value for
    [storageaccounturl] of section [Storage], and the same answer for
    every other option the samples read from them. *)
Definition differ_only_in_storage_url (c1 c2 : ConfigParser.t) : Prop :=
  (forall section option,
      In (section, option) other_shared_options ->
      ConfigParser.get c1 section option = ConfigParser.get c2 section option)
  /\ (exists v1, ConfigParser.get c1 "Storage" "storageaccounturl" = Ok v1)
  /\ (exists v2, ConfigParser.get c2 "Storage" "storageaccounturl" = Ok v2).

(** Every storage call of the trace goes through a client built on [url]. *)
Definition storage_calls_use (url : string) : list event -> Prop :=
  Forall (fun ev => forall c cl, call_of ev = Some c -> blob_client_of c = Some cl ->
                                 BlobServiceClient.account_url cl = url).

(** The identifier an event submits a job, a pool or a job schedule under. *)
Definition job_id_submitted (ev : event) : option string :=
  match ev with
  | ECall (job_add _ job) _ => Some (batchmodels.JobAddParameter.id job)
  | _ => None
  end.

Definition pool_id_submitted (ev : event) : option string :=
  match ev with
  | ECall (create_pool_if_not_exist _ pool) _ =>
      Some (batchmodels.PoolAddParameter.id pool)
  | _ => None
  end.

Definition schedule_id_submitted (ev : event) : option string :=
  match ev with
  | ECall (job_schedule_add _ p) _ => Some (batchmodels.JobScheduleAddParameter.id p)
  | _ => None
  end.

(** The name an event records as generated from [prefix] by
    [generate_unique_resource_name]. *)
Definition name_generated (prefix : string) (ev : event) : option string :=
  match ev with
  | ECall c r =>
      match c as c0 return outcome (ret c0) -> option string with
      | generate_unique_resource_name p =>
          fun r0 => match r0 with
                    | Ok name => if String.eqb p prefix then Some name else None
                    | Raise _ => None
                    end
      | _ => fun _ => None
      end r
  | _ => None
  end.

(** No event of the trace is a wait. *)
Definition no_wait : list event -> Prop :=
  Forall (fun ev => forall c, call_of ev = Some c -> is_wait c = false).

Section StagingRuns.
Context {W : Type} `{Service W}.

(** Container creation left the container in place: it returned, or it
    raised "already exists". *)
Definition container_ready (r : outcome unit) : bool :=
  match r with
  | Ok _ => true
  | Raise e => is_ResourceExistsError e
  end.

(** The run of a staging step of the direct-mode sample whose container
    creation answered [r0] and left the world [w1], when the container
    is ready: read the clock, upload with an expiry one hour later, and
    end as the upload ends. *)
Definition staged_upload (blob_service_client : BlobServiceClient.t)
    (r0 : outcome unit) (w1 : W) : outcome string * W * list event :=
  let t := (clock w1).1 in
  let upload :=
    upload_blob_and_create_sas blob_service_client
      sample2._CONTAINER_NAME sample2._SIMPLE_TASK_NAME sample2._SIMPLE_TASK_PATH
      (t + timedelta_hours 1) in
  ((sdk upload (clock w1).2).1,
   (sdk upload (clock w1).2).2,
   [ECall (create_container blob_service_client sample2._CONTAINER_NAME) r0;
    EUtcNow t;
    ECall upload (sdk upload (clock w1).2).1]).

End StagingRuns.

(** ** Further observations on traces *)

(** The kind of a remote operation, whatever its arguments. *)
Inductive operation : Type :=
| OpCreateContainer | OpDeleteContainer | OpUpload | OpSelectImage
| OpCreatePool | OpGenerateName | OpWaitTasks | OpWaitJob | OpWaitSchedule
| OpPrintOutput | OpJobAdd | OpJobDelete | OpTaskAdd | OpTaskList
| OpPoolDelete | OpScheduleAdd | OpScheduleDelete.

Definition operation_of (c : call) : operation :=
  match c with
  | create_container _ _ => OpCreateContainer
  | delete_container _ _ => OpDeleteContainer
  | upload_blob_and_create_sas _ _ _ _ _ => OpUpload
  | select_latest_verified_vm_image_with_node_agent_sku _ _ _ _ => OpSelectImage
  | create_pool_if_not_exist _ _ => OpCreatePool
  | generate_unique_resource_name _ => OpGenerateName
  | wait_for_tasks_to_complete _ _ _ => OpWaitTasks
  | wait_for_job_under_job_schedule _ _ _ => OpWaitJob
  | wait_for_job_schedule_to_complete _ _ _ => OpWaitSchedule
  | print_task_output _ _ _ => OpPrintOutput
  | job_add _ _ => OpJobAdd
  | job_delete _ _ => OpJobDelete
  | task_add _ _ _ => OpTaskAdd
  | task_list _ _ => OpTaskList
  | pool_delete _ _ => OpPoolDelete
  | job_schedule_add _ _ => OpScheduleAdd
  | job_schedule_delete _ _ => OpScheduleDelete
  end.

(** The remote operations of a trace, in order. *)
Definition operations (tr : list event) : list operation :=
  omap (fun ev => option_map operation_of (call_of ev)) tr.

(** The remote operations of the [try] body of the direct-mode sample when
    none of them fails. *)
Definition sample2_operations : list operation :=
  [OpSelectImage; OpCreateContainer; OpUpload; OpCreatePool;
   OpJobAdd; OpCreateContainer; OpUpload; OpTaskAdd;
   OpWaitTasks; OpTaskList; OpPrintOutput].

(** The remote operations of the [try] body of the scheduled-mode sample
    when none of them fails. *)
Definition sample4_operations : list operation :=
  [OpUpload; OpScheduleAdd; OpWaitJob; OpWaitTasks; OpTaskList; OpPrintOutput;
   OpWaitSchedule].

Definition is_deletion (c : call) : bool :=
  match c with
  | delete_container _ _ | job_delete _ _ | pool_delete _ _
  | job_schedule_delete _ _ => true
  | _ => false
  end.

Definition is_create_container (c : call) : bool :=
  match c with create_container _ _ => true | _ => false end.

Definition is_delete_container (c : call) : bool :=
  match c with delete_container _ _ => true | _ => false end.

Definition is_job_delete (c : call) : bool :=
  match c with job_delete _ _ => true | _ => false end.

Definition is_job_schedule_delete (c : call) : bool :=
  match c with job_schedule_delete _ _ => true | _ => false end.

(** The batch client a call goes through, if it is a batch call. *)
Definition batch_client_of (c : call) : option BatchServiceClient.t :=
  match c with
  | select_latest_verified_vm_image_with_node_agent_sku bc _ _ _
  | create_pool_if_not_exist bc _
  | wait_for_tasks_to_complete bc _ _
  | wait_for_job_under_job_schedule bc _ _
  | wait_for_job_schedule_to_complete bc _ _
  | print_task_output bc _ _
  | job_add bc _ | job_delete bc _ | task_add bc _ _ | task_list bc _
  | pool_delete bc _ | job_schedule_add bc _ | job_schedule_delete bc _ => Some bc
  | _ => None
  end.

(** The job a call is about. *)
Definition job_referred (c : call) : option string :=
  match c with
  | job_add _ job => Some (batchmodels.JobAddParameter.id job)
  | task_add _ job_id _ | wait_for_tasks_to_complete _ job_id _
  | task_list _ job_id | print_task_output _ job_id _
  | job_delete _ job_id => Some job_id
  | _ => None
  end.

(** The pool a call is about. *)
Definition pool_referred (c : call) : option string :=
  match c with
  | create_pool_if_not_exist _ pool => Some (batchmodels.PoolAddParameter.id pool)
  | job_add _ job =>
      batchmodels.PoolInformation.pool_id (batchmodels.JobAddParameter.pool_info job)
  | pool_delete _ pool_id => Some pool_id
  | _ => None
  end.

(** The job schedule a call is about. *)
Definition schedule_referred (c : call) : option string :=
  match c with
  | job_schedule_add _ p => Some (batchmodels.JobScheduleAddParameter.id p)
  | wait_for_job_under_job_schedule _ id _
  | wait_for_job_schedule_to_complete _ id _
  | job_schedule_delete _ id => Some id
  | _ => None
  end.

(** The container, and for an upload the blob and the local file, a call
    is about. *)
Definition container_referred (c : call) : option string :=
  match c with
  | create_container _ name | delete_container _ name
  | upload_blob_and_create_sas _ name _ _ _ => Some name
  | _ => None
  end.

(** What a successful call of the event returned, by kind of call. *)
Definition sas_returned (ev : event) : option string :=
  match ev with
  | ECall c r =>
      match c as c0 return outcome (ret c0) -> option string with
      | upload_blob_and_create_sas _ _ _ _ _ =>
          fun r0 => match r0 with Ok url => Some url | Raise _ => None end
      | _ => fun _ => None
      end r
  | _ => None
  end.

Definition image_selected (ev : event)
    : option (string * batchmodels.ImageReference.t) :=
  match ev with
  | ECall c r =>
      match c as c0
            return outcome (ret c0) -> option (string * batchmodels.ImageReference.t)
      with
      | select_latest_verified_vm_image_with_node_agent_sku _ _ _ _ =>
          fun r0 => match r0 with Ok x => Some x | Raise _ => None end
      | _ => fun _ => None
      end r
  | _ => None
  end.

Definition job_materialized (ev : event) : option string :=
  match ev with
  | ECall c r =>
      match c as c0 return outcome (ret c0) -> option string with
      | wait_for_job_under_job_schedule _ _ _ =>
          fun r0 => match r0 with Ok job => Some job | Raise _ => None end
      | _ => fun _ => None
      end r
  | _ => None
  end.

(** The job and the task ids of a successful [task.list]. *)
Definition tasks_listed (ev : event) : option (string * list string) :=
  match ev with
  | ECall c r =>
      match c as c0 return outcome (ret c0) -> option (string * list string) with
      | task_list _ job_id =>
          fun r0 => match r0 with
                    | Ok tasks => Some (job_id, map batchmodels.CloudTask.id tasks)
                    | Raise _ => None
                    end
      | _ => fun _ => None
      end r
  | _ => None
  end.

(** The job and the task ids handed to [print_task_output]. *)
Definition output_requested (ev : event) : option (string * list string) :=
  match ev with
  | ECall (print_task_output _ job_id task_ids) _ => Some (job_id, task_ids)
  | _ => None
  end.

(** The job whose tasks a call waits for, lists or prints. *)
Definition tasks_of_job (ev : event) : option string :=
  match ev with
  | ECall (wait_for_tasks_to_complete _ job_id _) _
  | ECall (task_list _ job_id) _
  | ECall (print_task_output _ job_id _) _ => Some job_id
  | _ => None
  end.

Definition pool_submitted (ev : event) : option batchmodels.PoolAddParameter.t :=
  match ev with
  | ECall (create_pool_if_not_exist _ pool) _ => Some pool
  | _ => None
  end.

Definition task_submitted (ev : event)
    : option (string * batchmodels.TaskAddParameter.t) :=
  match ev with
  | ECall (task_add _ job_id task) _ => Some (job_id, task)
  | _ => None
  end.

Definition schedule_submitted (ev : event)
    : option batchmodels.JobScheduleAddParameter.t :=
  match ev with
  | ECall (job_schedule_add _ p) _ => Some p
  | _ => None
  end.

(** Every call of the trace satisfies [p]. *)
Definition calls_all (p : call -> Prop) : list event -> Prop :=
  Forall (fun ev => forall c, call_of ev = Some c -> p c).

(** The deletions of the [finally] block of the direct-mode sample that
    the three flags ask for, in the order of the block. *)
Definition sample2_cleanup_operations (container job pool : bool) : list operation :=
  (if container then [OpDeleteContainer] else [])
  ++ (if job then [OpJobDelete] else [])
  ++ (if pool then [OpPoolDelete] else []).

(** The deletions of the [finally] block of the scheduled-mode sample that
    the two flags ask for, in the order of the block. *)
Definition sample4_cleanup_operations (schedule container : bool) : list operation :=
  (if schedule then [OpScheduleDelete] else [])
  ++ (if container then [OpDeleteContainer] else []).

(** A reference service that cannot generate a name. *)
Definition sim_faults_generate : call -> option exn :=
  fun c => match c with
           | generate_unique_resource_name _ => Some (RuntimeError "no name")
           | _ => None
           end.

(** What the configuration says of the client of a call. *)
Definition configured_client (global_config : ConfigParser.t) (c : call) : Prop :=
  (forall bc, batch_client_of c = Some bc ->
      BatchServiceClient.retries bc = Some 5
      /\ ConfigParser.get global_config "Batch" "batchserviceurl"
         = Ok (BatchServiceClient.batch_url bc)
      /\ ConfigParser.get global_config "Batch" "batchaccountname"
         = Ok (SharedKeyCredentials.account_name (BatchServiceClient.credentials bc))
      /\ ConfigParser.get global_config "Batch" "batchaccountkey"
         = Ok (SharedKeyCredentials.key (BatchServiceClient.credentials bc)))
  /\ (forall cl, blob_client_of c = Some cl ->
      ConfigParser.get global_config "Storage" "storageaccountkey"
      = Ok (BlobServiceClient.credential cl)).

(** What a call of the event refers to, through [f]. *)
Definition refers (f : call -> option string) (ev : event) : option string :=
  match call_of ev with
  | Some c => f c
  | None => None
  end.

(** The exception a read ended with, if it raised. *)
Definition error_of {A} (r : outcome A) : option exn :=
  match r with Ok _ => None | Raise e => Some e end.

(** The first exception of a sequence of reads, if one of them raised. *)
Fixpoint first_error (reads : list (option exn)) : option exn :=
  match reads with
  | [] => None
  | Some e :: _ => Some e
  | None :: reads' => first_error reads'
  end.

(** The reads of the configuration at the head of [execute_sample] of the
    direct-mode sample (lines 146-167), in the order of the source. *)
Definition sample2_reads (global_config sample_config : ConfigParser.t)
    : list (option exn) :=
  [ error_of (ConfigParser.get global_config "Batch" "batchaccountkey");
    error_of (ConfigParser.get global_config "Batch" "batchaccountname");
    error_of (ConfigParser.get global_config "Batch" "batchserviceurl");
    error_of (ConfigParser.get global_config "Storage" "storageaccounturl");
    error_of (ConfigParser.get global_config "Storage" "storageaccountkey");
    error_of (ConfigParser.getboolean sample_config "DEFAULT" "shoulddeletecontainer");
    error_of (ConfigParser.getboolean sample_config "DEFAULT" "shoulddeletejob");
    error_of (ConfigParser.getboolean sample_config "DEFAULT" "shoulddeletepool");
    error_of (ConfigParser.get sample_config "DEFAULT" "poolvmsize");
    error_of (ConfigParser.getint sample_config "DEFAULT" "poolvmcount") ].

(** The same for the scheduled-mode sample (lines 150-168). *)
Definition sample4_reads (global_config sample_config : ConfigParser.t)
    : list (option exn) :=
  [ error_of (ConfigParser.get global_config "Batch" "batchaccountkey");
    error_of (ConfigParser.get global_config "Batch" "batchaccountname");
    error_of (ConfigParser.get global_config "Batch" "batchserviceurl");
    error_of (ConfigParser.get global_config "Storage" "storageaccountkey");
    error_of (ConfigParser.get global_config "Storage" "storageaccounturl");
    error_of (ConfigParser.getboolean sample_config "DEFAULT" "shoulddeletecontainer");
    error_of (ConfigParser.getboolean sample_config "DEFAULT"
                "shoulddeletejobschedule");
    error_of (ConfigParser.get sample_config "DEFAULT" "poolvmsize");
    error_of (ConfigParser.getint sample_config "DEFAULT" "poolvmcount") ].

(** The calls of a trace that raised, with what they raised, in order; a
    container creation answered with "already exists" is left out. *)
Definition failures (tr : list event) : list (call * exn) :=
  omap (fun ev => match raised_in ev with
                  | Some (create_container _ _, ResourceExistsError) => None
                  | other => other
                  end) tr.

(** * Laws of the program combinators *)

Section Laws.
Context {W : Type} `{Service W}.

Lemma bind_ok {A B} (m : M W A) (k : A -> M W B) w a w1 t1 :
  m w = (Ok a, w1, t1) ->
  bind m k w = (result_of (k a w1), world_of (k a w1), t1 ++ trace_of (k a w1)).
Proof.
  intros E. unfold bind. rewrite E.
  destruct (k a w1) as [[r w2] t2]. reflexivity.
Qed.

Lemma bind_raise {A B} (m : M W A) (k : A -> M W B) w e w1 t1 :
  m w = (Raise e, w1, t1) -> bind m k w = (Raise e, w1, t1).
Proof. intros E. unfold bind. now rewrite E. Qed.

Lemma bind_assoc {A B C} (m : M W A) (f : A -> M W B) (g : B -> M W C) w :
  bind (bind m f) g w = bind m (fun a => bind (f a) g) w.
Proof.
  unfold bind. destruct (m w) as [[[a|e] w1] t1]; [|reflexivity].
  destruct (f a w1) as [[[b|e] w2] t2]; [|reflexivity].
  destruct (g b w2) as [[r w3] t3]. now rewrite app_assoc.
Qed.

Lemma bind_ext {A B} (m : M W A) (k1 k2 : A -> M W B) w :
  (forall a w', k1 a w' = k2 a w') -> bind m k1 w = bind m k2 w.
Proof.
  intros E. unfold bind. destruct (m w) as [[[a|e] w1] t1]; [|reflexivity].
  now rewrite E.
Qed.

Lemma try_finally_run {A} (body : M W A) (cleanup : M W unit) w :
  try_finally body cleanup w =
    (match result_of (cleanup (world_of (body w))) with
     | Ok _ => result_of (body w)
     | Raise e => Raise e
     end,
     world_of (cleanup (world_of (body w))),
     trace_of (body w) ++ trace_of (cleanup (world_of (body w)))).
Proof.
  unfold try_finally. destruct (body w) as [[r w1] t1]. cbn.
  destruct (cleanup w1) as [[[[]|e] w2] t2]; reflexivity.
Qed.

Lemma try_except_ok {A} (body : M W A) catches handler w a w1 t1 :
  body w = (Ok a, w1, t1) -> try_except body catches handler w = (Ok a, w1, t1).
Proof. intros E. unfold try_except. now rewrite E. Qed.

Lemma try_except_caught {A} (body : M W A) catches handler w e w1 t1 :
  body w = (Raise e, w1, t1) -> catches e = true ->
  try_except body catches handler w =
    (result_of (handler e w1), world_of (handler e w1), t1 ++ trace_of (handler e w1)).
Proof.
  intros E C. unfold try_except. rewrite E, C.
  destruct (handler e w1) as [[r w2] t2]. reflexivity.
Qed.

Lemma try_except_uncaught {A} (body : M W A) catches handler w e w1 t1 :
  body w = (Raise e, w1, t1) -> catches e = false ->
  try_except body catches handler w = (Raise e, w1, t1).
Proof. intros E C. unfold try_except. now rewrite E, C. Qed.

Lemma invoke_run (c : call) w :
  invoke c w = ((sdk c w).1, (sdk c w).2, [ECall c (sdk c w).1]).
Proof. unfold invoke. destruct (sdk c w) as [r w1]. reflexivity. Qed.

Lemma utcnow_run w :
  utcnow w = (Ok (clock w).1, (clock w).2, [EUtcNow (clock w).1]).
Proof. unfold utcnow. destruct (clock w) as [t w1]. reflexivity. Qed.

(** ** Invariants of worlds and traces, combinator by combinator *)

Section Respects.
Variable Q : list event -> Prop.
Variable I : W -> Prop.
Hypothesis Q_additive : additive Q.

Lemma respects_pure {A} (a : A) : respects Q I (pure a).
Proof. intros w Hw. split; [exact Hw | apply Q_additive]. Qed.

Lemma respects_raise {A} e : respects Q I (@raise W A e).
Proof. intros w Hw. split; [exact Hw | apply Q_additive]. Qed.

Lemma respects_lift {A} (r : outcome A) : respects Q I (lift r).
Proof. intros w Hw. split; [exact Hw | apply Q_additive]. Qed.

Lemma respects_invoke (c : call) :
  (forall w, I w -> I (sdk c w).2) -> (forall r, Q [ECall c r]) ->
  respects Q I (invoke c).
Proof.
  intros HI HQ w Hw. rewrite invoke_run. split; [apply HI, Hw | apply HQ].
Qed.

Lemma respects_utcnow :
  (forall w, I w -> I (clock w).2) -> (forall t, Q [EUtcNow t]) ->
  respects Q I utcnow.
Proof.
  intros HI HQ w Hw. rewrite utcnow_run. split; [apply HI, Hw | apply HQ].
Qed.

Lemma respects_print args : Q [EPrint args] -> respects Q I (print args).
Proof. intros HQ w Hw. split; [exact Hw | exact HQ]. Qed.

Lemma respects_print_configuration c :
  Q [EPrintConfiguration c] -> respects Q I (print_configuration c).
Proof. intros HQ w Hw. split; [exact Hw | exact HQ]. Qed.

Lemma respects_bind {A B} (m : M W A) (k : A -> M W B) :
  respects Q I m -> (forall a, respects Q I (k a)) -> respects Q I (bind m k).
Proof.
  intros Hm Hk w Hw. destruct (Hm w Hw) as [Hw1 Ht1].
  destruct (m w) as [[[a|e] w1] t1] eqn:E.
  - rewrite (bind_ok _ _ _ _ _ _ E). cbn in Hw1, Ht1.
    destruct (Hk a w1 Hw1) as [Hw2 Ht2].
    split; [exact Hw2 | now apply Q_additive].
  - rewrite (bind_raise _ _ _ _ _ _ E). now split.
Qed.

(** A value read without the world is known to the continuation. *)
Lemma respects_bind_lift {A B} (r : outcome A) (k : A -> M W B) :
  (forall a, r = Ok a -> respects Q I (k a)) -> respects Q I (bind (lift r) k).
Proof.
  intros Hk w Hw. destruct r as [a|e].
  - rewrite (bind_ok _ _ w a w []) by reflexivity.
    destruct (Hk a eq_refl w Hw) as [Hw2 Ht2]. now split.
  - rewrite (bind_raise _ _ w e w []) by reflexivity.
    split; [exact Hw | apply Q_additive].
Qed.

(** The continuation may rely on how its argument was produced. *)
Lemma respects_bind_inv {A B} (m : M W A) (k : A -> M W B) :
  respects Q I m ->
  (forall a, (exists w w1 t1, m w = (Ok a, w1, t1)) -> respects Q I (k a)) ->
  respects Q I (bind m k).
Proof.
  intros Hm Hk w Hw. destruct (Hm w Hw) as [Hw1 Ht1].
  destruct (m w) as [[[a|e] w1] t1] eqn:E.
  - rewrite (bind_ok _ _ _ _ _ _ E). cbn in Hw1, Ht1.
    destruct (Hk a (ex_intro _ w (ex_intro _ w1 (ex_intro _ t1 E))) w1 Hw1)
      as [Hw2 Ht2].
    split; [exact Hw2 | now apply Q_additive].
  - rewrite (bind_raise _ _ _ _ _ _ E). now split.
Qed.

Lemma respects_try_except {A} (body : M W A) catches handler :
  respects Q I body -> (forall e, respects Q I (handler e)) ->
  respects Q I (try_except body catches handler).
Proof.
  intros Hb Hh w Hw. destruct (Hb w Hw) as [Hw1 Ht1].
  destruct (body w) as [[[a|e] w1] t1] eqn:E.
  - rewrite (try_except_ok _ _ _ _ _ _ _ E). now split.
  - destruct (catches e) eqn:C.
    + rewrite (try_except_caught _ _ _ _ _ _ _ E C). cbn in Hw1, Ht1.
      destruct (Hh e w1 Hw1) as [Hw2 Ht2].
      split; [exact Hw2 | now apply Q_additive].
    + rewrite (try_except_uncaught _ _ _ _ _ _ _ E C). now split.
Qed.

Lemma respects_try_finally {A} (body : M W A) cleanup :
  respects Q I body -> respects Q I cleanup ->
  respects Q I (try_finally body cleanup).
Proof.
  intros Hb Hc w Hw. rewrite try_finally_run.
  destruct (Hb w Hw) as [Hw1 Ht1]. destruct (Hc _ Hw1) as [Hw2 Ht2].
  split; [exact Hw2 | now apply Q_additive].
Qed.

Lemma respects_when (cond : bool) body :
  (cond = true -> respects Q I body) -> respects Q I (when cond body).
Proof.
  intros Hb. destruct cond; cbn; [now apply Hb | apply respects_pure].
Qed.

Lemma respects_for_each {A} (xs : list A) body :
  (forall x, respects Q I (body x)) -> respects Q I (for_each xs body).
Proof.
  intros Hb. induction xs as [|x xs IH]; cbn.
  - apply respects_pure.
  - apply respects_bind; [apply Hb | intros _; exact IH].
Qed.

End Respects.

Lemma additive_Forall (P : event -> Prop) : additive (Forall P).
Proof.
  split; [constructor | intros t1 t2 H1 H2; apply Forall_app; now split].
Qed.

Lemma additive_True : additive (fun _ => True).
Proof. now split. Qed.

End Laws.

Create HintDb additive.

#[export] Hint Resolve additive_Forall additive_True : additive.

(** One step of decomposing a goal [respects Q I m] along the structure
    of [m]. *)
Ltac respects_step :=
  cbv zeta;
  lazymatch goal with
  | |- respects ?Q ?I (bind (lift _) _) =>
      apply (respects_bind_lift Q I ltac:(auto with additive)); intros ? ?
  | |- respects ?Q ?I (bind _ _) =>
      apply (respects_bind Q I ltac:(auto with additive)); [| intros ?]
  | |- respects ?Q ?I (try_except _ _ _) =>
      apply (respects_try_except Q I ltac:(auto with additive)); [| intros ?]
  | |- respects ?Q ?I (try_finally _ _) =>
      apply (respects_try_finally Q I ltac:(auto with additive))
  | |- respects ?Q ?I (when _ _) =>
      apply (respects_when Q I ltac:(auto with additive)); intros ?
  | |- respects ?Q ?I (for_each _ _) =>
      apply (respects_for_each Q I ltac:(auto with additive)); intros ?
  | |- respects ?Q ?I (pure _) => apply (respects_pure Q I ltac:(auto with additive))
  | |- respects ?Q ?I (raise _) => apply (respects_raise Q I ltac:(auto with additive))
  | |- respects ?Q ?I (lift _) => apply (respects_lift Q I ltac:(auto with additive))
  | |- respects ?Q ?I (print ?a) => apply (respects_print Q I a)
  | |- respects ?Q ?I (print_configuration ?c) =>
      apply (respects_print_configuration Q I c)
  | |- respects ?Q ?I utcnow => apply (respects_utcnow Q I)
  | |- respects ?Q ?I (invoke ?c) => apply (respects_invoke Q I c)
  | |- respects ?Q ?I (match ?e with BatchErrorException _ => _ | _ => _ end) =>
      destruct e as [| | |[[[?|]]|]| | | | | | | |]; cbn [values]
  end.

(** Decompose a goal [respects Q I m] along the structure of [m], leaving
    one goal per call, clock reading and print. *)
Ltac respects_auto := repeat respects_step.

(** Close the goals [respects_auto] leaves for a property [Forall P] of the
    trace whose [P] is decided by the shape of the event. *)
Ltac by_shape :=
  intros; repeat constructor; cbn; try (intros ? [= <-]); try (intros ? [=]);
  try reflexivity; try congruence.

(** * The direct-mode sample *)

Section Sample2Facts.
Context {W : Type} `{Service W}.
Import sample2.

(** What [setup] leaves in the local variables when it returns. *)
Lemma sample2_setup_inv global_config sample_config (w : W) l w1 t1 :
  setup global_config sample_config w = (Ok l, w1, t1) ->
  ConfigParser.getboolean sample_config "DEFAULT" "shoulddeletecontainer"
    = Ok (should_delete_container l)
  /\ ConfigParser.getboolean sample_config "DEFAULT" "shoulddeletejob"
    = Ok (should_delete_job l)
  /\ ConfigParser.getboolean sample_config "DEFAULT" "shoulddeletepool"
    = Ok (should_delete_pool l)
  /\ pool_id l = "PoolsAndResourceFilesPool"
  /\ BlobServiceClient.account_url (blob_service_client l)
    = "https://perssto.blob.core.windows.net"
  /\ sdk (generate_unique_resource_name "PoolsAndResourceFilesJob") w
    = (Ok (job_id l), w1)
  /\ t1 = [EPrintConfiguration global_config; EPrintConfiguration sample_config;
           ECall (generate_unique_resource_name "PoolsAndResourceFilesJob")
             (Ok (job_id l))].
Proof.
  unfold setup, bind, lift, print_configuration, invoke, pure.
  repeat match goal with
         | |- context [match ConfigParser.get ?c ?s ?o with _ => _ end] =>
             destruct (ConfigParser.get c s o) eqn:?; [|discriminate]
         | |- context [match ConfigParser.getboolean ?c ?s ?o with _ => _ end] =>
             destruct (ConfigParser.getboolean c s o) eqn:?; [|discriminate]
         | |- context [match ConfigParser.getint ?c ?s ?o with _ => _ end] =>
             destruct (ConfigParser.getint c s o) eqn:?; [|discriminate]
         end.
  destruct (sdk _ w) as [[name|e] w'] eqn:E; [|discriminate].
  intros [= <- <- <-]. cbn. repeat split; reflexivity.
Qed.

End Sample2Facts.

Section Sample2Pool.
Context {W : Type} `{Service W}.
Import sample2.

Variable pool_exists : W -> Prop.
Hypothesis only_deletion_removes :
  forall c w, is_pool_delete c = false -> pool_exists w -> pool_exists (sdk c w).2.
Hypothesis clock_keeps : forall w, pool_exists w -> pool_exists (clock w).2.

Lemma sample2_cleanup_keeps_pool l :
  should_delete_pool l = false ->
  respects no_pool_delete pool_exists (cleanup l).
Proof.
  intros Hflag. unfold cleanup, no_pool_delete. respects_auto.
  all: try (intros; apply only_deletion_removes; [reflexivity | assumption]).
  all: by_shape.
Qed.

Lemma sample2_submit_keeps_pool bc cl j p :
  respects no_pool_delete pool_exists (submit_job_and_add_task bc cl j p).
Proof.
  unfold submit_job_and_add_task, no_pool_delete. respects_auto.
  all: try (intros; apply only_deletion_removes; [reflexivity | assumption]).
  all: try (intros; apply clock_keeps; assumption).
  all: by_shape.
Qed.

Lemma sample2_create_pool_keeps_pool bc cl p sz n :
  respects no_pool_delete pool_exists (create_pool bc cl p sz n).
Proof.
  unfold create_pool, no_pool_delete. respects_auto.
  all: try (intros; apply only_deletion_removes; [reflexivity | assumption]).
  all: try (intros; apply clock_keeps; assumption).
  all: by_shape.
Qed.

(** The part of the [try] body that follows [create_pool]. *)
Lemma sample2_after_create_pool_keeps_pool l :
  respects no_pool_delete pool_exists
    (submit_job_and_add_task (batch_client l) (blob_service_client l)
       (job_id l) (pool_id l) ;;;
     invoke (wait_for_tasks_to_complete (batch_client l) (job_id l)
               (timedelta_minutes 25)) ;;;
     tasks <- invoke (task_list (batch_client l) (job_id l)) ;;
     invoke (print_task_output (batch_client l) (job_id l)
               (map batchmodels.CloudTask.id tasks))).
Proof.
  pose proof (additive_Forall
    (fun ev => forall c, call_of ev = Some c -> is_pool_delete c = false)) as Hadd.
  apply (respects_bind _ _ Hadd); [apply sample2_submit_keeps_pool | intros _].
  unfold no_pool_delete. respects_auto.
  all: try (intros; apply only_deletion_removes; [reflexivity | assumption]).
  all: by_shape.
Qed.

End Sample2Pool.

Section Sample2PoolClaim.
Context {W : Type} `{Service W}.
Import sample2.

(** C7.  With [shoulddeletepool] read as false, no run of the
    direct-mode [execute_sample] invokes [pool.delete], whatever the
    remote services answer and on whichever path the run ends.  Hence,
    for a service in which only [pool.delete] removes a pool, a pool
    that exists once [create_pool] is over still exists when
    [execute_sample] is. *)
Theorem sample2_pool_kept (global_config sample_config : ConfigParser.t) :
  ConfigParser.getboolean sample_config "DEFAULT" "shoulddeletepool" = Ok false ->
  (forall w : W,
      no_pool_delete (trace_of (execute_sample global_config sample_config w)))
  /\ (forall pool_exists : W -> Prop,
        (forall c w, is_pool_delete c = false ->
                     pool_exists w -> pool_exists (sdk c w).2) ->
        (forall w, pool_exists w -> pool_exists (clock w).2) ->
        forall w l w1 t1,
          setup global_config sample_config w = (Ok l, w1, t1) ->
          pool_exists (world_of (create_pool (batch_client l)
                                   (blob_service_client l) (pool_id l)
                                   (pool_vm_size l) (pool_vm_count l) w1)) ->
          pool_exists (world_of (execute_sample global_config sample_config w))).
Proof.
  intros Hflag.
  pose proof (additive_Forall
    (fun ev => forall c, call_of ev = Some c -> is_pool_delete c = false)) as Hadd.
  split.
  - intros w.
    enough (respects no_pool_delete (fun _ : W => True)
              (execute_sample global_config sample_config)) as R
      by exact (proj2 (R w Logic.I)).
    unfold execute_sample. apply (respects_bind_inv _ _ Hadd).
    + unfold setup, no_pool_delete. respects_auto.
      all: try (intros; exact Logic.I).
      all: by_shape.
    + intros l (w0 & w1 & t1 & E). apply sample2_setup_inv in E.
      destruct E as (_ & _ & E & _). rewrite Hflag in E. injection E as E.
      apply (respects_try_finally _ _ Hadd).
      * unfold workflow. apply (respects_bind _ _ Hadd).
        { apply sample2_create_pool_keeps_pool; auto. }
        intros _. apply sample2_after_create_pool_keeps_pool; auto.
      * apply sample2_cleanup_keeps_pool; auto.
  - intros pool_exists Hsdk Hclock w l w1 t1 E Hpool.
    pose proof (sample2_setup_inv _ _ _ _ _ _ E) as (_ & _ & F & _).
    rewrite Hflag in F. injection F as F.
    unfold execute_sample. rewrite (bind_ok _ _ _ _ _ _ E).
    unfold world_of at 1. cbn [fst snd]. fold (@world_of W unit).
    rewrite try_finally_run. unfold world_of at 1. cbn [fst snd].
    apply (sample2_cleanup_keeps_pool pool_exists Hsdk l); [congruence|].
    unfold workflow.
    destruct (create_pool (batch_client l) (blob_service_client l) (pool_id l)
                (pool_vm_size l) (pool_vm_count l) w1) as [[[[]|e] w2] t2] eqn:Ecp.
    + rewrite (bind_ok _ _ _ _ _ _ Ecp). unfold world_of at 1. cbn [fst snd].
      apply (sample2_after_create_pool_keeps_pool pool_exists Hsdk Hclock l).
      exact Hpool.
    + rewrite (bind_raise _ _ _ _ _ _ Ecp). exact Hpool.
Qed.

End Sample2PoolClaim.

(** The reference service keeps its pools unless asked to delete them. *)
Lemma sim_only_deletion_removes_pool faults (p : string) c w :
  is_pool_delete c = false ->
  p ∈ Sim.pools w -> p ∈ Sim.pools (@sdk _ (Sim.service faults) c w).2.
Proof.
  intros Hc Hp. cbn. destruct (faults c); [exact Hp|].
  destruct c; cbn in *; try discriminate; repeat case_decide; cbn; set_solver.
Qed.

Lemma sample2_pool_kept_witness :
  "PoolsAndResourceFilesPool" ∈
    Sim.pools (world_of (@sample2.execute_sample _ (Sim.service Sim.no_faults)
                           (Sim.global_config "https://configured.example")
                           (Sim.sample2_config "true" "true" "false")
                           Sim.initial)).
Proof.
  refine (proj2 (@sample2_pool_kept _ (Sim.service Sim.no_faults)
                   (Sim.global_config "https://configured.example")
                   (Sim.sample2_config "true" "true" "false") _)
            (fun w => "PoolsAndResourceFilesPool" ∈ Sim.pools w)
            (sim_only_deletion_removes_pool _ _) _ Sim.initial _ _ _ _ _).
  - vm_compute. reflexivity.
  - intros w Hw. exact Hw.
  - vm_compute. reflexivity.
  - vm_compute. reflexivity.
Defined.

(** * The scheduled-mode sample *)

Section Sample4Facts.
Context {W : Type} `{Service W} `{Helpers}.
Import sample4.

(** What [setup] leaves in the local variables when it returns. *)
Lemma sample4_setup_inv global_config sample_config (w : W) l w1 t1 :
  setup global_config sample_config w = (Ok l, w1, t1) ->
  ConfigParser.getboolean sample_config "DEFAULT" "shoulddeletecontainer"
    = Ok (should_delete_container l)
  /\ ConfigParser.getboolean sample_config "DEFAULT" "shoulddeletejobschedule"
    = Ok (should_delete_job_schedule l)
  /\ BlobServiceClient.account_url (blob_service_client l)
    = "https://perssto.blob.core.windows.net"
  /\ sdk (generate_unique_resource_name "JobScheduler") w = (Ok (job_schedule_id l), w1)
  /\ t1 = [EPrintConfiguration global_config; EPrintConfiguration sample_config;
           ECall (generate_unique_resource_name "JobScheduler")
             (Ok (job_schedule_id l))].
Proof.
  unfold setup, bind, lift, print_configuration, invoke, pure.
  repeat match goal with
         | |- context [match ConfigParser.get ?c ?s ?o with _ => _ end] =>
             destruct (ConfigParser.get c s o) eqn:?; [|discriminate]
         | |- context [match ConfigParser.getboolean ?c ?s ?o with _ => _ end] =>
             destruct (ConfigParser.getboolean c s o) eqn:?; [|discriminate]
         | |- context [match ConfigParser.getint ?c ?s ?o with _ => _ end] =>
             destruct (ConfigParser.getint c s o) eqn:?; [|discriminate]
         end.
  destruct (sdk _ w) as [[name|e] w'] eqn:E; [|discriminate].
  intros [= <- <- <-]. cbn. repeat split; reflexivity.
Qed.

End Sample4Facts.

(** * Teardown *)

(** Point at an event of an explicit trace. *)
Ltac find_in := cbn; first [left; reflexivity | right; find_in].

Section Teardown.
Context {W : Type} `{Service W} `{Helpers}.


Lemma sample2_cleanup_order (l : sample2.locals) (w : W) :
  let fin := trace_of (sample2.cleanup l w) in
  let container :=
    delete_container (sample2.blob_service_client l) sample2._CONTAINER_NAME in
  let job := job_delete (sample2.batch_client l) (sample2.job_id l) in
  let pool := pool_delete (sample2.batch_client l) (sample2.pool_id l) in
  (sample2.should_delete_container l = true -> attempted container fin)
  /\ (sample2.should_delete_job l = true ->
      ~ failed container fin -> attempted job fin)
  /\ (sample2.should_delete_pool l = true ->
      ~ failed container fin -> ~ failed job fin -> attempted pool fin).
Proof.
  unfold sample2.cleanup, when, bind, print, pure, invoke, attempted, failed.
  destruct (sample2.should_delete_container l),
           (sample2.should_delete_job l),
           (sample2.should_delete_pool l); cbn.
  all: repeat match goal with
         | |- context [sdk ?c ?w] =>
             let E := fresh "E" in destruct (sdk c w) as [[[]|?] ?] eqn:E; cbn
         end.
  all: repeat split; intros; try discriminate.
  all: try (eexists; find_in).
  all: exfalso;
    match goal with
    | N : ~ (exists e, _) |- _ => apply N; eexists; find_in
    end.
Qed.

Lemma sample4_cleanup_order (l : sample4.locals) (w : W) :
  let fin := trace_of (sample4.cleanup l w) in
  let schedule :=
    job_schedule_delete (sample4.batch_client l) (sample4.job_schedule_id l) in
  let container :=
    delete_container (sample4.blob_service_client l) sample4._CONTAINER_NAME in
  (sample4.should_delete_job_schedule l = true -> attempted schedule fin)
  /\ (sample4.should_delete_container l = true ->
      ~ failed schedule fin -> attempted container fin).
Proof.
  unfold sample4.cleanup, when, bind, try_except, print, pure, invoke,
    attempted, failed.
  destruct (sample4.should_delete_job_schedule l),
           (sample4.should_delete_container l); cbn.
  all: repeat match goal with
         | |- context [sdk ?c ?w] =>
             let E := fresh "E" in destruct (sdk c w) as [[[]|?] ?] eqn:E; cbn
         | |- context [is_ResourceNotFoundError ?e] =>
             destruct (is_ResourceNotFoundError e); cbn
         end.
  all: repeat split; intros; try discriminate.
  all: try (eexists; find_in).
  all: exfalso;
    match goal with
    | N : ~ (exists e, _) |- _ => apply N; eexists; find_in
    end.
Qed.

(** C6, amended.  Once [setup] has returned, the [finally] block of
    [execute_sample] runs after the [try] body however that body ends,
    in both samples.  Its deletions are attempted in order (container,
    job, pool in the direct-mode sample; job schedule, container in the
    scheduled-mode one): a deletion whose flag is true is attempted
    provided no earlier deletion of the block raised. *)
Theorem teardown_runs_in_order :
  (forall global_config sample_config (w : W) l w1 t1,
      sample2.setup global_config sample_config w = (Ok l, w1, t1) ->
      let body := sample2.workflow l w1 in
      let fin := trace_of (sample2.cleanup l (world_of body)) in
      let container :=
        delete_container (sample2.blob_service_client l) sample2._CONTAINER_NAME in
      let job := job_delete (sample2.batch_client l) (sample2.job_id l) in
      let pool := pool_delete (sample2.batch_client l) (sample2.pool_id l) in
      trace_of (sample2.execute_sample global_config sample_config w)
        = t1 ++ trace_of body ++ fin
      /\ (ConfigParser.getboolean sample_config "DEFAULT" "shoulddeletecontainer"
            = Ok true -> attempted container fin)
      /\ (ConfigParser.getboolean sample_config "DEFAULT" "shoulddeletejob"
            = Ok true -> ~ failed container fin -> attempted job fin)
      /\ (ConfigParser.getboolean sample_config "DEFAULT" "shoulddeletepool"
            = Ok true ->
          ~ failed container fin -> ~ failed job fin -> attempted pool fin))
  /\ (forall start_time global_config sample_config (w : W) l w1 t1,
      sample4.setup global_config sample_config w = (Ok l, w1, t1) ->
      let body :=
        try_except (sample4.workflow start_time l) is_BatchErrorException
          sample4.on_batch_error w1 in
      let fin := trace_of (sample4.cleanup l (world_of body)) in
      let schedule :=
        job_schedule_delete (sample4.batch_client l) (sample4.job_schedule_id l) in
      let container :=
        delete_container (sample4.blob_service_client l) sample4._CONTAINER_NAME in
      trace_of (sample4.execute_sample start_time global_config sample_config w)
        = t1 ++ trace_of body ++ fin
      /\ (ConfigParser.getboolean sample_config "DEFAULT" "shoulddeletejobschedule"
            = Ok true -> attempted schedule fin)
      /\ (ConfigParser.getboolean sample_config "DEFAULT" "shoulddeletecontainer"
            = Ok true -> ~ failed schedule fin -> attempted container fin)).
Proof.
  split.
  - intros g s w l w1 t1 E. cbv zeta.
    pose proof (sample2_setup_inv _ _ _ _ _ _ E) as (Fc & Fj & Fp & _).
    pose proof (sample2_cleanup_order l (world_of (sample2.workflow l w1)))
      as (Oc & Oj & Op).
    split; [|repeat split].
    + unfold sample2.execute_sample. rewrite (bind_ok _ _ _ _ _ _ E).
      unfold trace_of at 1. cbn [snd]. now rewrite try_finally_run.
    + intros F. apply Oc. congruence.
    + intros F. apply Oj. congruence.
    + intros F. apply Op. congruence.
  - intros start g s w l w1 t1 E. cbv zeta.
    pose proof (sample4_setup_inv _ _ _ _ _ _ E) as (Fc & Fs & _).
    pose proof (sample4_cleanup_order l
                  (world_of (try_except (sample4.workflow start l)
                               is_BatchErrorException sample4.on_batch_error w1)))
      as (Os & Oc).
    split; [|split].
    + unfold sample4.execute_sample. rewrite (bind_ok _ _ _ _ _ _ E).
      unfold trace_of at 1. cbn [snd]. now rewrite try_finally_run.
    + intros F. apply Os. congruence.
    + intros F. apply Oc. congruence.
Qed.

End Teardown.

(** A call that raised shows in [has_raised]. *)
Lemma failed_has_raised (p : call -> bool) (c : call) (tr : list event) :
  p c = true -> failed c tr -> has_raised (fun c' _ => p c') tr = true.
Proof.
  intros Hp [e Hin]. unfold has_raised. apply existsb_exists.
  exists (ECall c (Raise e)). split; [exact Hin | exact Hp].
Qed.


Lemma teardown_runs_in_order_witness :
  exists l w1 t1,
    @sample2.setup _ (Sim.service Sim.no_faults)
      (Sim.global_config "https://configured.example")
      (Sim.sample2_config "true" "true" "true") Sim.initial = (Ok l, w1, t1)
    /\ attempted (pool_delete (sample2.batch_client l) (sample2.pool_id l))
         (trace_of (@sample2.cleanup _ (Sim.service Sim.no_faults) l
                      (world_of (@sample2.workflow _ (Sim.service Sim.no_faults) l w1)))).
Proof.
  eexists _, _, _. split; [vm_compute; reflexivity|].
  refine (proj2 (proj2 (proj2 (proj1
            (@teardown_runs_in_order _ (Sim.service Sim.no_faults) Sim.helpers)
            (Sim.global_config "https://configured.example")
            (Sim.sample2_config "true" "true" "true") Sim.initial _ _ _ _))) _ _ _).
  - vm_compute. reflexivity.
  - vm_compute. reflexivity.
  - intros F. apply (failed_has_raised (fun _ => true)) in F; [|reflexivity].
    vm_compute in F. discriminate.
  - intros F. apply (failed_has_raised (fun _ => true)) in F; [|reflexivity].
    vm_compute in F. discriminate.
Defined.

(** C6, as stated, fails: with every flag true, a run of the direct-mode
    sample whose [job.add] is refused ends without attempting the pool
    deletion, and the pool it created is still there. *)
Lemma teardown_skips_pool_deletion :
  let run := @sample2.execute_sample _ (Sim.service Sim.faults_job_add)
               (Sim.global_config "https://configured.example")
               (Sim.sample2_config "true" "true" "true") Sim.initial in
  ConfigParser.getboolean (Sim.sample2_config "true" "true" "true")
    "DEFAULT" "shoulddeletepool" = Ok true
  /\ has_call is_pool_delete (trace_of run) = false
  /\ "PoolsAndResourceFilesPool" ∈ Sim.pools (world_of run)
  /\ result_of run = Raise Sim.not_found.
Proof. vm_compute. repeat split; reflexivity. Qed.

(** * Which errors the cleanup lets through *)

Section CleanupErrors.
Context {W : Type} `{Service W} `{Helpers}.



End CleanupErrors.



(** The direct-mode sample has no handler around its container deletion:
    when the image lookup fails, the container was never created, its
    deletion raises "not found", and that error ends the cleanup before
    the job and pool deletions and replaces the original one. *)
Example sample2_container_not_found_escapes :
  let run := @sample2.execute_sample _ (Sim.service Sim.faults_select_image)
               (Sim.global_config "https://configured.example")
               (Sim.sample2_config "true" "true" "true") Sim.initial in
  result_of run = Raise ResourceNotFoundError
  /\ has_call (fun c => match c with job_delete _ _ => true | _ => false end)
       (trace_of run) = false
  /\ has_call is_pool_delete (trace_of run) = false.
Proof. vm_compute. repeat split; reflexivity. Qed.

(** * The batch-error handler *)

Section BatchErrors.
Context {W : Type} `{Service W} `{Helpers}.

(** The handler prints each value of the error, in order, and touches
    nothing else. *)
Lemma on_batch_error_prints (values : list BatchErrorDetail) (w : W) :
  sample4.on_batch_error (BatchErrorException (Some {| values := Some values |})) w
    = (Ok tt, w,
       map (fun value => EPrint [PStr "BatchErrorException: "; PDetail value])
         values).
Proof.
  unfold sample4.on_batch_error. cbn [Py.values].
  induction values as [|v vs IH]; [reflexivity|].
  cbn [for_each map].
  rewrite (bind_ok _ _ w tt w [EPrint [PStr "BatchErrorException: "; PDetail v]])
    by reflexivity.
  now rewrite IH.
Qed.


End BatchErrors.


(** * Staging in the direct-mode sample *)

Section Staging.
Context {W : Type} `{Service W}.
Import sample2.

(** The run of the staging step, by the answer of container creation. *)
Lemma staging_run (cl : BlobServiceClient.t) (w : W) :
  let create := create_container cl _CONTAINER_NAME in
  staging cl w =
    if container_ready (sdk create w).1
    then staged_upload cl (sdk create w).1 (sdk create w).2
    else (match (sdk create w).1 with
          | Ok _ => Ok ""
          | Raise e => Raise e
          end,
          (sdk create w).2,
          [ECall create (sdk create w).1]).
Proof.
  cbv zeta. unfold staging, staged_upload, bind, try_except, invoke, utcnow, pure.
  destruct (sdk (create_container cl _CONTAINER_NAME) w) as [[[]|e] w1]; cbn.
  - destruct (clock w1) as [t w2]; cbn.
    destruct (sdk _ w2) as [r w3]; cbn. destruct r; reflexivity.
  - destruct (is_ResourceExistsError e); cbn; [|reflexivity].
    destruct (clock w1) as [t w2]; cbn.
    destruct (sdk _ w2) as [r w3]; cbn. destruct r; reflexivity.
Qed.

(** [create_pool] stages between the image lookup and the pool creation. *)
Lemma create_pool_stages bc cl p sz n :
  exists k, forall w : W,
    create_pool bc cl p sz n w =
      (image <- invoke (select_latest_verified_vm_image_with_node_agent_sku
                          bc "canonical" "ubuntuserver" "18.04") ;;
       sas_url <- staging cl ;;
       invoke (create_pool_if_not_exist bc (k image sas_url))) w.
Proof.
  eexists (fun image sas_url => _). intros w. unfold create_pool, staging.
  apply bind_ext. intros image w'. cbv zeta.
  rewrite bind_assoc. apply bind_ext. intros [] w''.
  rewrite bind_assoc. apply bind_ext. intros now w'''.
  reflexivity.
Qed.

(** [submit_job_and_add_task] stages between adding the job and adding
    the task. *)
Lemma submit_stages bc cl j p :
  exists k, forall w : W,
    submit_job_and_add_task bc cl j p w =
      (invoke (job_add bc {|
                 batchmodels.JobAddParameter.id := j;
                 batchmodels.JobAddParameter.pool_info := {|
                   batchmodels.PoolInformation.pool_id := Some p;
                   batchmodels.PoolInformation.auto_pool_specification := None |} |}) ;;;
       sas_url <- staging cl ;;
       invoke (task_add bc j (k sas_url))) w.
Proof.
  eexists (fun sas_url => _). intros w.
  unfold submit_job_and_add_task, staging. cbv zeta.
  apply bind_ext. intros [] w1.
  rewrite bind_assoc. apply bind_ext. intros [] w2.
  rewrite bind_assoc. apply bind_ext. intros now w3.
  reflexivity.
Qed.

(** What the [except] clause of the staging step catches is
    [ResourceExistsError] and nothing else. *)
Lemma is_ResourceExistsError_iff (e : exn) :
  is_ResourceExistsError e = true <-> e = ResourceExistsError.
Proof. destruct e; cbn; split; intros X; congruence. Qed.

(** C3.  Both [create_pool] and [submit_job_and_add_task] run the
    staging step.  When container creation returns, or raises
    [ResourceExistsError], the step goes on to read the clock and upload,
    and ends exactly as the upload ends: the "already exists" error is
    swallowed.  When container creation raises any other exception, the
    step ends with it at once, before any upload.  So a staging step
    that raises has either raised what container creation raised, which
    is then not [ResourceExistsError], or what the upload raised; and
    the second of two staging steps, whose container creation the
    service answers with [ResourceExistsError], does not fail on it. *)
Theorem staging_idempotent :
  (forall bc cl p sz n, exists k, forall w : W,
      create_pool bc cl p sz n w =
        (image <- invoke (select_latest_verified_vm_image_with_node_agent_sku
                            bc "canonical" "ubuntuserver" "18.04") ;;
         sas_url <- staging cl ;;
         invoke (create_pool_if_not_exist bc (k image sas_url))) w)
  /\ (forall bc cl j p, exists k, forall w : W,
      submit_job_and_add_task bc cl j p w =
        (invoke (job_add bc {|
                   batchmodels.JobAddParameter.id := j;
                   batchmodels.JobAddParameter.pool_info := {|
                     batchmodels.PoolInformation.pool_id := Some p;
                     batchmodels.PoolInformation.auto_pool_specification := None |} |}) ;;;
         sas_url <- staging cl ;;
         invoke (task_add bc j (k sas_url))) w)
  /\ (forall cl (w w1 : W) r0,
      sdk (create_container cl _CONTAINER_NAME) w = (r0, w1) ->
      r0 = Ok tt \/ r0 = Raise ResourceExistsError ->
      staging cl w = staged_upload cl r0 w1)
  /\ (forall cl (w w1 : W) e,
      sdk (create_container cl _CONTAINER_NAME) w = (Raise e, w1) ->
      e <> ResourceExistsError ->
      staging cl w
      = (Raise e, w1, [ECall (create_container cl _CONTAINER_NAME) (Raise e)]))
  /\ (forall cl (w : W) e,
      let create := create_container cl _CONTAINER_NAME in
      result_of (staging cl w) = Raise e ->
      ((sdk create w).1 = Raise e /\ e <> ResourceExistsError)
      \/ (((sdk create w).1 = Ok tt \/ (sdk create w).1 = Raise ResourceExistsError)
          /\ result_of (staged_upload cl (sdk create w).1 (sdk create w).2)
             = Raise e))
  /\ (forall cl (w : W),
      let create := create_container cl _CONTAINER_NAME in
      let first := staging cl w in
      (sdk create (world_of first)).1 = Raise ResourceExistsError ->
      staging cl (world_of first)
      = staged_upload cl (Raise ResourceExistsError) (sdk create (world_of first)).2).
Proof.
  assert (forall cl (w w1 : W) r0,
             sdk (create_container cl _CONTAINER_NAME) w = (r0, w1) ->
             r0 = Ok tt \/ r0 = Raise ResourceExistsError ->
             staging cl w = staged_upload cl r0 w1) as Hready.
  { intros cl w w1 r0 Hc Hr. rewrite staging_run. cbv zeta. rewrite Hc. cbn [fst snd].
    destruct Hr as [-> | ->]; reflexivity. }
  assert (forall cl (w w1 : W) e,
             sdk (create_container cl _CONTAINER_NAME) w = (Raise e, w1) ->
             e <> ResourceExistsError ->
             staging cl w
             = (Raise e, w1, [ECall (create_container cl _CONTAINER_NAME) (Raise e)]))
    as Hother.
  { intros cl w w1 e Hc Hne. rewrite staging_run. cbv zeta. rewrite Hc. cbn [fst snd].
    destruct (is_ResourceExistsError e) eqn:X; cbn [container_ready].
    - apply is_ResourceExistsError_iff in X. contradiction.
    - rewrite X. reflexivity. }
  split; [exact create_pool_stages|].
  split; [exact submit_stages|].
  split; [exact Hready|].
  split; [exact Hother|].
  split.
  - intros cl w e. cbv zeta.
    destruct (sdk (create_container cl _CONTAINER_NAME) w) as [r0 w1] eqn:Hc.
    cbn [fst snd].
    assert (r0 = Ok tt \/ r0 = Raise ResourceExistsError
            \/ exists e0, r0 = Raise e0 /\ e0 <> ResourceExistsError) as Hcases.
    { destruct r0 as [[]|e0]; [now left|].
      destruct (is_ResourceExistsError e0) eqn:X.
      - apply is_ResourceExistsError_iff in X. subst e0. right. now left.
      - right. right. exists e0. split; [reflexivity|].
        intros ->. discriminate X. }
    destruct Hcases as [Hr | [Hr | (e0 & -> & Hne)]].
    + rewrite (Hready _ _ _ _ Hc (or_introl Hr)). intros R. right. split; [now left|exact R].
    + rewrite (Hready _ _ _ _ Hc (or_intror Hr)). intros R. right.
      split; [now right|exact R].
    + rewrite (Hother _ _ _ _ Hc Hne). intros [= ->]. left. now split.
  - intros cl w. cbv zeta. intros Hc.
    destruct (sdk (create_container cl _CONTAINER_NAME) (world_of (staging cl w)))
      as [r0 w1] eqn:Hs.
    cbn [fst snd] in *. subst r0.
    apply (Hready _ _ _ _ Hs). now right.
Qed.

(** C10.  [submit_job_and_add_task] adds the job first.  When the job
    was added and the staging that follows raises (container creation
    with an error other than "already exists", or the upload), the
    function ends with that error in the world the failed call left:
    the job addition is not undone and [task.add] is never called. *)
Theorem submit_not_atomic bc cl j p (w w0 : W) :
  let job := {|
    batchmodels.JobAddParameter.id := j;
    batchmodels.JobAddParameter.pool_info := {|
      batchmodels.PoolInformation.pool_id := Some p;
      batchmodels.PoolInformation.auto_pool_specification := None |} |} in
  let create := create_container cl _CONTAINER_NAME in
  sdk (job_add bc job) w = (Ok tt, w0) ->
  (forall e w1,
      sdk create w0 = (Raise e, w1) ->
      is_ResourceExistsError e = false ->
      submit_job_and_add_task bc cl j p w
        = (Raise e, w1, [ECall (job_add bc job) (Ok tt); ECall create (Raise e)])
      /\ has_call is_task_add
           [ECall (job_add bc job) (Ok tt); ECall create (Raise e)] = false)
  /\ (forall r0 w1 e,
      sdk create w0 = (r0, w1) ->
      container_ready r0 = true ->
      result_of (staged_upload cl r0 w1) = Raise e ->
      submit_job_and_add_task bc cl j p w
        = (Raise e, world_of (staged_upload cl r0 w1),
           ECall (job_add bc job) (Ok tt) :: trace_of (staged_upload cl r0 w1))
      /\ has_call is_task_add
           (ECall (job_add bc job) (Ok tt) :: trace_of (staged_upload cl r0 w1))
         = false).
Proof.
  cbv zeta. intros Hjob.
  destruct (submit_stages bc cl j p) as [k Hk].
  assert (forall e w' tr,
             staging cl w0 = (Raise e, w', tr) ->
             submit_job_and_add_task bc cl j p w
             = (Raise e, w', ECall (job_add bc {|
                   batchmodels.JobAddParameter.id := j;
                   batchmodels.JobAddParameter.pool_info := {|
                     batchmodels.PoolInformation.pool_id := Some p;
                     batchmodels.PoolInformation.auto_pool_specification := None |} |})
                 (Ok tt) :: tr)) as Hraise.
  { intros e w' tr Hs. rewrite Hk.
    erewrite bind_ok by (rewrite invoke_run, Hjob; reflexivity).
    rewrite (bind_raise _ _ _ _ _ _ Hs). reflexivity. }
  split.
  - intros e w1 Hc X. split; [|reflexivity].
    apply Hraise. rewrite staging_run. cbv zeta. rewrite Hc. cbn.
    now rewrite X.
  - intros r0 w1 e Hc Rdy Rup. split; [|reflexivity].
    apply Hraise. rewrite staging_run. cbv zeta. rewrite Hc.
    cbn [fst snd]. rewrite Rdy.
    unfold result_of in Rup. unfold world_of, trace_of.
    destruct (staged_upload cl r0 w1) as [[r w3] t3]. cbn in *. now subst r.
Qed.

End Staging.

Lemma staging_idempotent_witness :
  let cl := {| BlobServiceClient.account_url := "https://perssto.blob.core.windows.net";
               BlobServiceClient.credential := "k2" |} in
  let create := create_container cl sample2._CONTAINER_NAME in
  let w := Sim.with_container "poolsandresourcefiles" 0 in
  (@sdk _ (Sim.service Sim.no_faults) create w).1 = Raise ResourceExistsError
  /\ result_of (@sample2.staging _ (Sim.service Sim.no_faults) cl w)
     = Ok "https://perssto.blob.core.windows.net/poolsandresourcefiles/simple_task.py?sig"
  /\ @sample2.staging _ (Sim.service Sim.faults_create_container) cl w
     = (Raise (HttpResponseError "creation failed"), w,
        [ECall create (Raise (HttpResponseError "creation failed"))]).
Proof.
  cbv zeta. split; [reflexivity|]. split.
  - rewrite (proj1 (proj2 (proj2 (@staging_idempotent _ (Sim.service Sim.no_faults))))
               _ (Sim.with_container "poolsandresourcefiles" 0)
               (Sim.with_container "poolsandresourcefiles" 0)
               (Raise ResourceExistsError)).
    + vm_compute. reflexivity.
    + vm_compute. reflexivity.
    + right. reflexivity.
  - apply (proj1 (proj2 (proj2 (proj2
             (@staging_idempotent _ (Sim.service Sim.faults_create_container)))))).
    + vm_compute. reflexivity.
    + discriminate.
Defined.

(** Against the reference service, staging twice into the same container
    succeeds both times: the second container creation raises
    [ResourceExistsError] and the step goes on. *)
Example staging_twice :
  let cl := {| BlobServiceClient.account_url := "https://perssto.blob.core.windows.net";
               BlobServiceClient.credential := "k2" |} in
  let first := @sample2.staging _ (Sim.service Sim.no_faults) cl Sim.initial in
  let second := @sample2.staging _ (Sim.service Sim.no_faults) cl (world_of first) in
  raised (result_of first) = false
  /\ raised (result_of second) = false
  /\ failed (create_container cl sample2._CONTAINER_NAME) (trace_of second)
  /\ hd_error (trace_of second)
     = Some (ECall (create_container cl sample2._CONTAINER_NAME)
               (Raise ResourceExistsError)).
Proof.
  cbv zeta. split; [reflexivity|]. split; [reflexivity|]. split.
  - exists ResourceExistsError. left. reflexivity.
  - reflexivity.
Qed.

Lemma submit_not_atomic_witness :
  let cl := {| BlobServiceClient.account_url := "https://perssto.blob.core.windows.net";
               BlobServiceClient.credential := "k2" |} in
  let bc := BatchServiceClient.new
              {| SharedKeyCredentials.account_name := "acct";
                 SharedKeyCredentials.key := "k1" |}
              "https://acct.region.batch.azure.com" in
  let run := @sample2.submit_job_and_add_task _ (Sim.service Sim.faults_upload)
               bc cl "job-1" "pool-1" Sim.initial in
  result_of run = Raise (HttpResponseError "upload failed")
  /\ "job-1" ∈ Sim.jobs (world_of run)
  /\ has_call is_task_add (trace_of run) = false.
Proof.
  cbv zeta.
  eassert (@sdk _ (Sim.service Sim.faults_upload)
             (job_add
                {| BatchServiceClient.credentials :=
                     {| SharedKeyCredentials.account_name := "acct";
                        SharedKeyCredentials.key := "k1" |};
                   BatchServiceClient.batch_url :=
                     "https://acct.region.batch.azure.com";
                   BatchServiceClient.retries := None |}
                {| batchmodels.JobAddParameter.id := "job-1";
                   batchmodels.JobAddParameter.pool_info :=
                     {| batchmodels.PoolInformation.pool_id := Some "pool-1";
                        batchmodels.PoolInformation.auto_pool_specification := None |} |})
             Sim.initial = (Ok tt, _)) as Hjob
    by (vm_compute; reflexivity).
  edestruct (proj2 (@submit_not_atomic _ (Sim.service Sim.faults_upload)
                      _ {| BlobServiceClient.account_url :=
                             "https://perssto.blob.core.windows.net";
                           BlobServiceClient.credential := "k2" |}
                      _ _ _ _ Hjob)) as [E T].
  - vm_compute. reflexivity.
  - vm_compute. reflexivity.
  - vm_compute. reflexivity.
  - unfold BatchServiceClient.new. rewrite E. split; [reflexivity|].
    split; [vm_compute; reflexivity | exact T].
Defined.

(** * The job schedule *)

Section JobSchedule.
Context {W : Type} `{Service W} `{Helpers}.
Import sample4 batchmodels.

(** C8.  When its upload succeeds, [create_job_schedule] submits one job
    schedule: it recurs every 10 minutes (600 seconds) and is not run
    after 30 minutes past the clock reading taken just before the
    submission; its pool is an auto-pool whose lifetime is the job and
    which is not kept alive; its job runs the job-manager task
    [JobManagerTask] on the uploaded script and is terminated once all
    its tasks are complete.  When the upload fails nothing is submitted. *)
Theorem create_job_schedule_submits bc id sz n cl (w : W) :
  let t1 := (clock w).1 in
  let upload :=
    upload_blob_and_create_sas cl _CONTAINER_NAME _SIMPLE_TASK_NAME
      _SIMPLE_TASK_PATH (t1 + timedelta_minutes 30) in
  let uploaded := sdk upload (clock w).2 in
  match uploaded.1 with
  | Raise e =>
      create_job_schedule bc id sz n cl w
        = (Raise e, uploaded.2, [EUtcNow t1; ECall upload (Raise e)])
  | Ok sas_url =>
      let t2 := (clock uploaded.2).1 in
      exists p : JobScheduleAddParameter.t,
        let submit := job_schedule_add bc p in
        let submitted := sdk submit (clock uploaded.2).2 in
        create_job_schedule bc id sz n cl w
          = (submitted.1, submitted.2,
             [EUtcNow t1; ECall upload (Ok sas_url); EUtcNow t2;
              ECall submit submitted.1])
        /\ JobScheduleAddParameter.id p = id
        /\ Schedule.recurrence_interval (JobScheduleAddParameter.schedule p)
           = timedelta_minutes 10
        /\ timedelta_minutes 10 = 600 * 1000000
        /\ Schedule.do_not_run_after (JobScheduleAddParameter.schedule p)
           = t2 + timedelta_minutes 30
        /\ (exists auto_pool,
               PoolInformation.auto_pool_specification
                 (JobSpecification.pool_info
                    (JobScheduleAddParameter.job_specification p))
               = Some auto_pool
               /\ PoolInformation.pool_id
                    (JobSpecification.pool_info
                       (JobScheduleAddParameter.job_specification p)) = None
               /\ AutoPoolSpecification.pool_lifetime_option auto_pool = job
               /\ AutoPoolSpecification.keep_alive auto_pool = false)
        /\ JobSpecification.on_all_tasks_complete
             (JobScheduleAddParameter.job_specification p) = terminate_job
        /\ JobManagerTask.id
             (JobSpecification.job_manager_task
                (JobScheduleAddParameter.job_specification p)) = "JobManagerTask"
        /\ JobManagerTask.command_line
             (JobSpecification.job_manager_task
                (JobScheduleAddParameter.job_specification p))
           = wrap_commands_in_shell "windows" ["python simple_task.py"]
        /\ JobManagerTask.resource_files
             (JobSpecification.job_manager_task
                (JobScheduleAddParameter.job_specification p))
           = [ {| ResourceFile.file_path := "simple_task.py";
                  ResourceFile.http_url := sas_url |} ]
  end.
Proof.
  cbv zeta. unfold create_job_schedule, bind, invoke, utcnow.
  destruct (clock w) as [t1 w1]. cbn [fst snd].
  destruct (sdk _ w1) as [[sas_url|e] w2]; cbn [fst snd]; [|reflexivity].
  destruct (clock w2) as [t2 w3]. cbn [fst snd].
  match goal with
  | |- context [sdk (job_schedule_add bc ?p) w3] => exists p
  end.
  split.
  - destruct (sdk _ w3) as [r w4]. reflexivity.
  - cbn. repeat split. eexists. repeat split.
Qed.

End JobSchedule.

(** * Expiry of the signed URLs against the waits *)

Section Expiry.
Context {W : Type} `{Service W} `{Helpers}.

Lemma sas_expiries_app t1 t2 :
  sas_expiries (t1 ++ t2) = sas_expiries t1 ++ sas_expiries t2.
Proof. apply omap_app. Qed.

Lemma clock_readings_app t1 t2 :
  clock_readings (t1 ++ t2) = clock_readings t1 ++ clock_readings t2.
Proof. apply omap_app. Qed.

Lemma additive_expiries_with known offset : additive (expiries_with known offset).
Proof.
  split.
  - intros expiry [].
  - intros t1 t2 H1 H2 expiry Hin. rewrite sas_expiries_app in Hin.
    rewrite clock_readings_app. apply in_app_or in Hin as [Hin|Hin].
    + destruct (H1 expiry Hin) as (t & Ht & E). exists t. split; [|exact E].
      apply in_app_or in Ht as [Ht|Ht]; apply in_or_app; [now left | right].
      apply in_or_app. now left.
    + destruct (H2 expiry Hin) as (t & Ht & E). exists t. split; [|exact E].
      apply in_app_or in Ht as [Ht|Ht]; apply in_or_app; [now left | right].
      apply in_or_app. now right.
Qed.


Lemma additive_expiries_at offset : additive (expiries_at offset).
Proof. apply additive_expiries_with. Qed.

End Expiry.

#[export] Hint Resolve additive_expiries_with additive_expiries_at : additive.




Section ExpiryClaim.
Context {W : Type} `{Service W} `{Helpers}.








End ExpiryClaim.


(** * Identifiers *)

(** A single event against a [Forall] over what an extraction function
    finds in it. *)
Ltac id_leaf :=
  intros;
  lazymatch goal with
  | |- True => exact Logic.I
  | |- _ =>
      constructor; [| constructor];
      let x := fresh "x" in let Hx := fresh "Hx" in
      intros x Hx; cbn in Hx;
      first [ discriminate | injection Hx as <-; reflexivity ]
  end.

Section Identifiers.
Context {W : Type} `{Service W} `{Helpers}.

Lemma in_omap {A} (f : event -> option A) (x : A) (tr : list event) :
  In x (omap f tr) -> exists ev, In ev tr /\ f ev = Some x.
Proof.
  induction tr as [|ev tr IH]; [intros []|]. cbn.
  destruct (f ev) as [y|] eqn:E.
  - intros [<-|Hin].
    + exists ev. split; [now left | exact E].
    + destruct (IH Hin) as (ev' & Hin' & E'). exists ev'. split; [now right | exact E'].
  - intros Hin. destruct (IH Hin) as (ev' & Hin' & E').
    exists ev'. split; [now right | exact E'].
Qed.

Lemma omap_in {A} (f : event -> option A) (x : A) ev (tr : list event) :
  In ev tr -> f ev = Some x -> In x (omap f tr).
Proof.
  induction tr as [|ev' tr IH]; [intros []|]. cbn.
  intros [->|Hin] E.
  - rewrite E. now left.
  - destruct (f ev'); [right|]; now apply IH.
Qed.

Lemma sample2_setup_submits_nothing g s :
  respects (Forall (fun ev => job_id_submitted ev = None
                              /\ pool_id_submitted ev = None))
    (fun _ : W => True) (sample2.setup g s).
Proof.
  unfold sample2.setup. respects_auto.
  all: intros; try exact Logic.I; repeat (constructor; try (split; reflexivity)).
Qed.

Lemma sample2_ids_used l :
  respects (Forall (fun ev =>
                      (forall j, job_id_submitted ev = Some j -> j = sample2.job_id l)
                      /\ (forall p, pool_id_submitted ev = Some p ->
                                    p = sample2.pool_id l)))
    (fun _ : W => True) (try_finally (sample2.workflow l) (sample2.cleanup l)).
Proof.
  unfold sample2.workflow, sample2.cleanup, sample2.create_pool,
    sample2.submit_job_and_add_task.
  respects_auto.
  all: intros;
    first [ exact Logic.I
          | constructor; [| constructor];
            split; intros x Hx; cbn in Hx;
            first [ discriminate | injection Hx as <-; reflexivity ] ].
Qed.

Lemma sample4_setup_submits_nothing g s :
  respects (Forall (fun ev => schedule_id_submitted ev = None))
    (fun _ : W => True) (sample4.setup g s).
Proof.
  unfold sample4.setup. respects_auto.
  all: intros; try exact Logic.I; repeat (constructor; try reflexivity).
Qed.

Lemma sample4_ids_used start l :
  respects (Forall (fun ev => forall j, schedule_id_submitted ev = Some j ->
                                        j = sample4.job_schedule_id l))
    (fun _ : W => True)
    (try_finally
       (try_except (sample4.workflow start l) is_BatchErrorException
          sample4.on_batch_error)
       (sample4.cleanup l)).
Proof.
  unfold sample4.workflow, sample4.cleanup, sample4.create_job_schedule,
    sample4.on_batch_error.
  respects_auto. all: id_leaf.
Qed.

Lemma no_wait_in_create_pool bc cl p sz n :
  respects no_wait (fun _ : W => True) (sample2.create_pool bc cl p sz n).
Proof.
  unfold sample2.create_pool, no_wait. respects_auto.
  all: intros; try exact Logic.I; by_shape.
Qed.

Lemma no_wait_in_submit bc cl j p :
  respects no_wait (fun _ : W => True) (sample2.submit_job_and_add_task bc cl j p).
Proof.
  unfold sample2.submit_job_and_add_task, no_wait. respects_auto.
  all: intros; try exact Logic.I; by_shape.
Qed.

Lemma no_wait_in_create_job_schedule bc id sz n cl :
  respects no_wait (fun _ : W => True) (sample4.create_job_schedule bc id sz n cl).
Proof.
  unfold sample4.create_job_schedule, no_wait. respects_auto.
  all: intros; try exact Logic.I; by_shape.
Qed.

(** C5, amended.  The job id of the direct-mode sample and the job
    schedule id of the scheduled-mode sample are names returned by
    [generate_unique_resource_name] earlier in the same run; the pool id
    of the direct-mode sample is the fixed name
    [PoolsAndResourceFilesPool].  None of [create_pool],
    [submit_job_and_add_task] and [create_job_schedule] waits. *)
Theorem generated_identifiers :
  (forall global_config sample_config (w : W),
      let tr := trace_of (sample2.execute_sample global_config sample_config w) in
      (forall j, In j (omap job_id_submitted tr) ->
                 In j (omap (name_generated "PoolsAndResourceFilesJob") tr))
      /\ (forall p, In p (omap pool_id_submitted tr) ->
                    p = "PoolsAndResourceFilesPool"))
  /\ (forall start_time global_config sample_config (w : W),
      let tr := trace_of (sample4.execute_sample start_time global_config
                            sample_config w) in
      forall j, In j (omap schedule_id_submitted tr) ->
                In j (omap (name_generated "JobScheduler") tr))
  /\ (forall bc cl p sz n (w : W),
      no_wait (trace_of (sample2.create_pool bc cl p sz n w)))
  /\ (forall bc cl j p (w : W),
      no_wait (trace_of (sample2.submit_job_and_add_task bc cl j p w)))
  /\ (forall bc id sz n cl (w : W),
      no_wait (trace_of (sample4.create_job_schedule bc id sz n cl w))).
Proof.
  split; [|split; [|split; [|split]]].
  - intros g s w. cbv zeta.
    pose proof (proj2 (sample2_setup_submits_nothing g s w Logic.I)) as Hs.
    unfold sample2.execute_sample.
    destruct (sample2.setup g s w) as [[[l|e] w1] t1] eqn:E.
    + rewrite (bind_ok _ _ _ _ _ _ E). unfold trace_of at 1 3 5. cbn [snd].
      pose proof (proj2 (sample2_ids_used l w1 Logic.I)) as Hu.
      pose proof (sample2_setup_inv _ _ _ _ _ _ E) as (_ & _ & _ & Hp & _ & _ & Ht).
      cbn [trace_of snd] in Hs.
      rewrite List.Forall_forall in Hs, Hu.
      split.
      * intros j Hj. apply in_omap in Hj as (ev & Hev & F).
        apply in_app_or in Hev as [Hev|Hev].
        { apply Hs in Hev as [N _]. congruence. }
        apply Hu in Hev as [J _]. apply J in F. subst j.
        apply (omap_in _ _ (ECall (generate_unique_resource_name
                                     "PoolsAndResourceFilesJob")
                              (Ok (sample2.job_id l)))).
        { apply in_or_app. left. rewrite Ht. find_in. }
        reflexivity.
      * intros p Hin. apply in_omap in Hin as (ev & Hev & F).
        apply in_app_or in Hev as [Hev|Hev].
        { apply Hs in Hev as [_ N]. congruence. }
        apply Hu in Hev as [_ P]. apply P in F. congruence.
    + rewrite (bind_raise _ _ _ _ _ _ E). cbn [trace_of snd] in *.
      rewrite List.Forall_forall in Hs.
      split; intros x Hx; apply in_omap in Hx as (ev & Hev & F);
        apply Hs in Hev as [N1 N2]; congruence.
  - intros start g s w. cbv zeta.
    pose proof (proj2 (sample4_setup_submits_nothing g s w Logic.I)) as Hs.
    unfold sample4.execute_sample.
    destruct (sample4.setup g s w) as [[[l|e] w1] t1] eqn:E.
    + rewrite (bind_ok _ _ _ _ _ _ E). unfold trace_of at 1 3. cbn [snd].
      pose proof (proj2 (sample4_ids_used start l w1 Logic.I)) as Hu.
      pose proof (sample4_setup_inv _ _ _ _ _ _ E) as (_ & _ & _ & _ & Ht).
      cbn [trace_of snd] in Hs.
      rewrite List.Forall_forall in Hs, Hu.
      intros j Hj. apply in_omap in Hj as (ev & Hev & F).
      apply in_app_or in Hev as [Hev|Hev].
      { apply Hs in Hev. congruence. }
      specialize (Hu _ Hev). apply Hu in F. subst j.
      apply (omap_in _ _ (ECall (generate_unique_resource_name "JobScheduler")
                            (Ok (sample4.job_schedule_id l)))).
      { apply in_or_app. left. rewrite Ht. find_in. }
      reflexivity.
    + rewrite (bind_raise _ _ _ _ _ _ E). cbn [trace_of snd] in *.
      rewrite List.Forall_forall in Hs.
      intros x Hx. apply in_omap in Hx as (ev & Hev & F).
      apply Hs in Hev. congruence.
  - intros. apply no_wait_in_create_pool. exact Logic.I.
  - intros. apply no_wait_in_submit. exact Logic.I.
  - intros. apply no_wait_in_create_job_schedule. exact Logic.I.
Qed.

End Identifiers.

Lemma generated_identifiers_witness :
  let tr := trace_of (@sample2.execute_sample _ (Sim.service Sim.no_faults)
                        (Sim.global_config "https://configured.example")
                        (Sim.sample2_config "false" "false" "false")
                        Sim.initial) in
  In "PoolsAndResourceFilesJob-0"
     (omap (name_generated "PoolsAndResourceFilesJob") tr).
Proof.
  cbv zeta.
  apply (proj1 (proj1 (@generated_identifiers _ (Sim.service Sim.no_faults)
                         Sim.helpers)
                  (Sim.global_config "https://configured.example")
                  (Sim.sample2_config "false" "false" "false") Sim.initial)).
  vm_compute. left. reflexivity.
Defined.

(** C5, as stated, fails for the pool id: two runs of the direct-mode
    sample at different times generate different job ids, but both submit
    the pool under the same fixed id, which no call generated. *)
Lemma pool_id_is_not_generated :
  let tr1 := trace_of (@sample2.execute_sample _ (Sim.service Sim.no_faults)
                         (Sim.global_config "https://configured.example")
                         (Sim.sample2_config "false" "false" "false")
                         Sim.initial) in
  let tr2 := trace_of (@sample2.execute_sample _ (Sim.service Sim.no_faults)
                         (Sim.global_config "https://configured.example")
                         (Sim.sample2_config "false" "false" "false")
                         (Sim.initial_at 5000000)) in
  omap job_id_submitted tr1 = ["PoolsAndResourceFilesJob-0"]
  /\ omap job_id_submitted tr2 = ["PoolsAndResourceFilesJob-5000000"]
  /\ omap (name_generated "PoolsAndResourceFilesJob") tr1
     = ["PoolsAndResourceFilesJob-0"]
  /\ omap (name_generated "PoolsAndResourceFilesJob") tr2
     = ["PoolsAndResourceFilesJob-5000000"]
  /\ omap pool_id_submitted tr1 = ["PoolsAndResourceFilesPool"]
  /\ omap pool_id_submitted tr2 = ["PoolsAndResourceFilesPool"]
  /\ has_call (fun c => match c with
                        | generate_unique_resource_name p =>
                            negb (String.eqb p "PoolsAndResourceFilesJob")
                        | _ => false
                        end) (tr1 ++ tr2) = false.
Proof. vm_compute. repeat split; reflexivity. Qed.

(** * The configured storage URL *)

Section StorageUrl.
Context {W : Type} `{Service W} `{Helpers}.

Lemma without_settings_echo_app t1 t2 :
  without_settings_echo (t1 ++ t2)
  = without_settings_echo t1 ++ without_settings_echo t2.
Proof. apply filter_app. Qed.

(** Two runs that agree up to the echo of the settings still agree
    after the same continuation. *)
Lemma bind_same_but_echo {A B} (m1 m2 : M W A) (k : A -> M W B) (w : W) :
  result_of (m1 w) = result_of (m2 w) ->
  world_of (m1 w) = world_of (m2 w) ->
  without_settings_echo (trace_of (m1 w)) = without_settings_echo (trace_of (m2 w)) ->
  result_of (bind m1 k w) = result_of (bind m2 k w)
  /\ world_of (bind m1 k w) = world_of (bind m2 k w)
  /\ without_settings_echo (trace_of (bind m1 k w))
     = without_settings_echo (trace_of (bind m2 k w)).
Proof.
  unfold bind.
  destruct (m1 w) as [[r1 w1] t1], (m2 w) as [[r2 w2] t2].
  unfold result_of, world_of, trace_of. cbn [fst snd].
  intros -> -> Ht. destruct r2 as [a|e]; [|now repeat split].
  destruct (k a w2) as [[r w3] t3]. cbn [fst snd].
  repeat split. now rewrite !without_settings_echo_app, Ht.
Qed.

Lemma sample2_setup_same_but_echo g1 g2 s (w : W) :
  differ_only_in_storage_url g1 g2 ->
  result_of (sample2.setup g1 s w) = result_of (sample2.setup g2 s w)
  /\ world_of (sample2.setup g1 s w) = world_of (sample2.setup g2 s w)
  /\ without_settings_echo (trace_of (sample2.setup g1 s w))
     = without_settings_echo (trace_of (sample2.setup g2 s w)).
Proof.
  intros (Hsame & [v1 E1] & [v2 E2]).
  unfold sample2.setup.
  rewrite !(Hsame "Batch") by (cbn; tauto).
  rewrite (Hsame "Storage" "storageaccountkey") by (cbn; tauto).
  rewrite E1, E2.
  unfold bind, lift, print_configuration, invoke, pure.
  repeat match goal with
         | |- context [match ConfigParser.get ?c ?s ?o with _ => _ end] =>
             destruct (ConfigParser.get c s o); [|now repeat split]
         | |- context [match ConfigParser.getboolean ?c ?s ?o with _ => _ end] =>
             destruct (ConfigParser.getboolean c s o); [|now repeat split]
         | |- context [match ConfigParser.getint ?c ?s ?o with _ => _ end] =>
             destruct (ConfigParser.getint c s o); [|now repeat split]
         end.
  destruct (sdk _ w) as [[name|e] w1]; now repeat split.
Qed.

Lemma sample4_setup_same_but_echo g1 g2 s (w : W) :
  differ_only_in_storage_url g1 g2 ->
  result_of (sample4.setup g1 s w) = result_of (sample4.setup g2 s w)
  /\ world_of (sample4.setup g1 s w) = world_of (sample4.setup g2 s w)
  /\ without_settings_echo (trace_of (sample4.setup g1 s w))
     = without_settings_echo (trace_of (sample4.setup g2 s w)).
Proof.
  intros (Hsame & [v1 E1] & [v2 E2]).
  unfold sample4.setup.
  rewrite !(Hsame "Batch") by (cbn; tauto).
  rewrite (Hsame "Storage" "storageaccountkey") by (cbn; tauto).
  rewrite E1, E2.
  unfold bind, lift, print_configuration, invoke, pure.
  repeat match goal with
         | |- context [match ConfigParser.get ?c ?s ?o with _ => _ end] =>
             destruct (ConfigParser.get c s o); [|now repeat split]
         | |- context [match ConfigParser.getboolean ?c ?s ?o with _ => _ end] =>
             destruct (ConfigParser.getboolean c s o); [|now repeat split]
         | |- context [match ConfigParser.getint ?c ?s ?o with _ => _ end] =>
             destruct (ConfigParser.getint c s o); [|now repeat split]
         end.
  destruct (sdk _ w) as [[name|e] w1]; now repeat split.
Qed.

(** A single event against [storage_calls_use]. *)
Ltac storage_leaf Hurl :=
  intros;
  first [ exact Logic.I
        | constructor; [| constructor];
          let c := fresh "c" in let cl := fresh "cl" in
          let Hc := fresh "Hc" in let Hcl := fresh "Hcl" in
          intros c cl Hc Hcl; cbn in Hc;
          first [ discriminate
                | injection Hc as <-; cbn in Hcl;
                  first [ discriminate | injection Hcl as <-; exact Hurl ] ] ].

Lemma sample2_storage_calls g s :
  respects (storage_calls_use "https://perssto.blob.core.windows.net")
    (fun _ : W => True) (sample2.execute_sample g s).
Proof.
  unfold sample2.execute_sample, storage_calls_use.
  match goal with
  | |- respects ?Q ?I _ => apply (respects_bind_inv Q I ltac:(auto with additive))
  end.
  - unfold sample2.setup. respects_auto.
    all: intros; first [exact Logic.I | constructor; [|constructor]; intros c cl [=] ].
    subst c. discriminate.
  - intros l (w & w1 & t1 & E).
    apply sample2_setup_inv in E as (_ & _ & _ & _ & Hurl & _).
    unfold sample2.workflow, sample2.cleanup, sample2.create_pool,
      sample2.submit_job_and_add_task.
    respects_auto. all: storage_leaf Hurl.
Qed.

Lemma sample4_storage_calls start g s :
  respects (storage_calls_use "https://perssto.blob.core.windows.net")
    (fun _ : W => True) (sample4.execute_sample start g s).
Proof.
  unfold sample4.execute_sample, storage_calls_use.
  match goal with
  | |- respects ?Q ?I _ => apply (respects_bind_inv Q I ltac:(auto with additive))
  end.
  - unfold sample4.setup. respects_auto.
    all: intros; first [exact Logic.I | constructor; [|constructor]; intros c cl [=] ].
    subst c. discriminate.
  - intros l (w & w1 & t1 & E).
    apply sample4_setup_inv in E as (_ & _ & Hurl & _).
    unfold sample4.workflow, sample4.cleanup, sample4.create_job_schedule,
      sample4.on_batch_error.
    respects_auto. all: storage_leaf Hurl.
Qed.

(** Where the two runs part: nowhere when a read of the configuration
    fails, and else in their first event only, the echo of the shared
    configuration. *)
Lemma sample2_same_after_echo g1 g2 s (w : W) :
  differ_only_in_storage_url g1 g2 ->
  let run1 := sample2.execute_sample g1 s w in
  let run2 := sample2.execute_sample g2 s w in
  (trace_of run1 = [] /\ trace_of run2 = [])
  \/ exists rest,
       trace_of run1 = EPrintConfiguration g1 :: rest
       /\ trace_of run2 = EPrintConfiguration g2 :: rest.
Proof.
  intros (Hsame & [v1 E1] & [v2 E2]). cbv zeta.
  unfold sample2.execute_sample, sample2.setup.
  rewrite !(Hsame "Batch") by (cbn; tauto).
  rewrite (Hsame "Storage" "storageaccountkey") by (cbn; tauto).
  rewrite E1, E2.
  unfold bind, lift, print_configuration, invoke, pure.
  repeat match goal with
         | |- context [match ConfigParser.get ?c ?s ?o with _ => _ end] =>
             destruct (ConfigParser.get c s o); [|now left]
         | |- context [match ConfigParser.getboolean ?c ?s ?o with _ => _ end] =>
             destruct (ConfigParser.getboolean c s o); [|now left]
         | |- context [match ConfigParser.getint ?c ?s ?o with _ => _ end] =>
             destruct (ConfigParser.getint c s o); [|now left]
         end.
  right.
  destruct (sdk _ w) as [[name|e] w1]; cbn [trace_of snd app].
  - match goal with
    | |- context [try_finally ?b ?c w1] =>
        destruct (try_finally b c w1) as [[r w2] t2]
    end.
    eexists. split; reflexivity.
  - eexists. split; reflexivity.
Qed.

Lemma sample4_same_after_echo start g1 g2 s (w : W) :
  differ_only_in_storage_url g1 g2 ->
  let run1 := sample4.execute_sample start g1 s w in
  let run2 := sample4.execute_sample start g2 s w in
  (trace_of run1 = [] /\ trace_of run2 = [])
  \/ exists rest,
       trace_of run1 = EPrintConfiguration g1 :: rest
       /\ trace_of run2 = EPrintConfiguration g2 :: rest.
Proof.
  intros (Hsame & [v1 E1] & [v2 E2]). cbv zeta.
  unfold sample4.execute_sample, sample4.setup.
  rewrite !(Hsame "Batch") by (cbn; tauto).
  rewrite (Hsame "Storage" "storageaccountkey") by (cbn; tauto).
  rewrite E1, E2.
  unfold bind, lift, print_configuration, invoke, pure.
  repeat match goal with
         | |- context [match ConfigParser.get ?c ?s ?o with _ => _ end] =>
             destruct (ConfigParser.get c s o); [|now left]
         | |- context [match ConfigParser.getboolean ?c ?s ?o with _ => _ end] =>
             destruct (ConfigParser.getboolean c s o); [|now left]
         | |- context [match ConfigParser.getint ?c ?s ?o with _ => _ end] =>
             destruct (ConfigParser.getint c s o); [|now left]
         end.
  right.
  destruct (sdk _ w) as [[name|e] w1]; cbn [trace_of snd app].
  - match goal with
    | |- context [try_finally ?b ?c w1] =>
        destruct (try_finally b c w1) as [[r w2] t2]
    end.
    eexists. split; reflexivity.
  - eexists. split; reflexivity.
Qed.

(** C2, amended.  Both samples build their blob client on the literal
    [https://perssto.blob.core.windows.net]: every storage call of every
    run goes through a client with that URL.  Two runs of
    [execute_sample] from the same world, on shared configurations that
    both give a value for [storageaccounturl] and agree on every other
    option the sample reads, end with the same outcome, in the same
    world, after the same calls with the same answers, clock readings
    and prints, the echo of the settings apart: that echo is handed the
    whole configuration, configured URL included.  It is the first event
    of either run, and the only place where their traces differ. *)
Theorem storage_url_not_authoritative :
  (forall g1 g2 sample_config (w : W),
      differ_only_in_storage_url g1 g2 ->
      let run1 := sample2.execute_sample g1 sample_config w in
      let run2 := sample2.execute_sample g2 sample_config w in
      result_of run1 = result_of run2
      /\ world_of run1 = world_of run2
      /\ without_settings_echo (trace_of run1) = without_settings_echo (trace_of run2))
  /\ (forall start_time g1 g2 sample_config (w : W),
      differ_only_in_storage_url g1 g2 ->
      let run1 := sample4.execute_sample start_time g1 sample_config w in
      let run2 := sample4.execute_sample start_time g2 sample_config w in
      result_of run1 = result_of run2
      /\ world_of run1 = world_of run2
      /\ without_settings_echo (trace_of run1) = without_settings_echo (trace_of run2))
  /\ (forall global_config sample_config (w : W),
      storage_calls_use "https://perssto.blob.core.windows.net"
        (trace_of (sample2.execute_sample global_config sample_config w)))
  /\ (forall start_time global_config sample_config (w : W),
      storage_calls_use "https://perssto.blob.core.windows.net"
        (trace_of (sample4.execute_sample start_time global_config
                     sample_config w)))
  /\ (forall g1 g2 sample_config (w : W),
      differ_only_in_storage_url g1 g2 ->
      let run1 := sample2.execute_sample g1 sample_config w in
      let run2 := sample2.execute_sample g2 sample_config w in
      (trace_of run1 = [] /\ trace_of run2 = [])
      \/ exists rest,
           trace_of run1 = EPrintConfiguration g1 :: rest
           /\ trace_of run2 = EPrintConfiguration g2 :: rest)
  /\ (forall start_time g1 g2 sample_config (w : W),
      differ_only_in_storage_url g1 g2 ->
      let run1 := sample4.execute_sample start_time g1 sample_config w in
      let run2 := sample4.execute_sample start_time g2 sample_config w in
      (trace_of run1 = [] /\ trace_of run2 = [])
      \/ exists rest,
           trace_of run1 = EPrintConfiguration g1 :: rest
           /\ trace_of run2 = EPrintConfiguration g2 :: rest).
Proof.
  split; [|split; [|split; [|split; [|split]]]].
  - intros g1 g2 s w D. cbv zeta. unfold sample2.execute_sample.
    destruct (sample2_setup_same_but_echo g1 g2 s w D) as (R & Wd & T).
    now apply bind_same_but_echo.
  - intros start g1 g2 s w D. cbv zeta. unfold sample4.execute_sample.
    destruct (sample4_setup_same_but_echo g1 g2 s w D) as (R & Wd & T).
    now apply bind_same_but_echo.
  - intros g s w. apply sample2_storage_calls. exact Logic.I.
  - intros start g s w. apply sample4_storage_calls. exact Logic.I.
  - intros g1 g2 s w D. now apply sample2_same_after_echo.
  - intros start g1 g2 s w D. now apply sample4_same_after_echo.
Qed.

End StorageUrl.

(** The shared configuration of the reference runs, for two storage URLs. *)
Lemma sim_global_configs_differ (url1 url2 : string) :
  differ_only_in_storage_url (Sim.global_config url1) (Sim.global_config url2).
Proof.
  split; [|split; [exists url1 | exists url2]; reflexivity].
  intros section option Hin. cbn in Hin.
  destruct Hin as [[= <- <-]|[[= <- <-]|[[= <- <-]|[[= <- <-]|[]]]]]; reflexivity.
Qed.

Lemma storage_url_not_authoritative_witness :
  let run1 := @sample2.execute_sample _ (Sim.service Sim.no_faults)
                (Sim.global_config "https://configured.example")
                (Sim.sample2_config "true" "true" "true") Sim.initial in
  let run2 := @sample2.execute_sample _ (Sim.service Sim.no_faults)
                (Sim.global_config "https://other.example")
                (Sim.sample2_config "true" "true" "true") Sim.initial in
  result_of run1 = result_of run2
  /\ world_of run1 = world_of run2
  /\ without_settings_echo (trace_of run1) = without_settings_echo (trace_of run2).
Proof.
  exact (proj1 (@storage_url_not_authoritative _ (Sim.service Sim.no_faults)
                  Sim.helpers)
           (Sim.global_config "https://configured.example")
           (Sim.global_config "https://other.example")
           (Sim.sample2_config "true" "true" "true") Sim.initial
           (sim_global_configs_differ _ _)).
Defined.

(** C2, as stated, fails: the behaviour of two runs whose configurations
    differ only in the value of [storageaccounturl] is not identical.
    Each run starts by echoing its settings, and the echo is handed the
    whole shared configuration, so the traces of the two runs differ in
    their first event. *)
Lemma configured_url_reaches_the_echo :
  let g1 := Sim.global_config "https://configured.example" in
  let g2 := Sim.global_config "https://other.example" in
  let run1 := @sample2.execute_sample _ (Sim.service Sim.no_faults) g1
                (Sim.sample2_config "true" "true" "true") Sim.initial in
  let run2 := @sample2.execute_sample _ (Sim.service Sim.no_faults) g2
                (Sim.sample2_config "true" "true" "true") Sim.initial in
  differ_only_in_storage_url g1 g2
  /\ hd_error (trace_of run1) = Some (EPrintConfiguration g1)
  /\ hd_error (trace_of run2) = Some (EPrintConfiguration g2)
  /\ ConfigParser.get g1 "Storage" "storageaccounturl"
     <> ConfigParser.get g2 "Storage" "storageaccounturl"
  /\ trace_of run1 <> trace_of run2.
Proof.
  cbv zeta.
  assert (ConfigParser.get (Sim.global_config "https://configured.example")
            "Storage" "storageaccounturl"
          <> ConfigParser.get (Sim.global_config "https://other.example")
               "Storage" "storageaccounturl") as Hurl
    by (vm_compute; discriminate).
  split; [apply sim_global_configs_differ|].
  split; [reflexivity|]. split; [reflexivity|]. split; [exact Hurl|].
  intros Heq. apply Hurl.
  apply (f_equal (fun tr => match tr with
                            | EPrintConfiguration c :: _ =>
                                ConfigParser.get c "Storage" "storageaccounturl"
                            | _ => Raise ResourceNotFoundError
                            end)) in Heq.
  exact Heq.
Qed.

(** * Reading the configuration *)

(** A single event against [calls_all]. *)
Ltac call_leaf :=
  intros;
  first [ exact Logic.I
        | constructor; [| constructor];
          let c := fresh "c" in let Hc := fresh "Hc" in
          intros c Hc; cbn in Hc;
          first [ discriminate | injection Hc as <-; cbn; first [reflexivity | congruence] ] ].

Section FailFast.
Context {W : Type} `{Service W} `{Helpers}.

(** A trace none of whose calls [p] accepts. *)
Lemma calls_all_has_call (p : call -> bool) (tr : list event) :
  calls_all (fun c => p c = false) tr -> has_call p tr = false.
Proof.
  unfold calls_all, has_call. induction 1 as [|ev tr Hev _ IH]; [reflexivity|].
  cbn. rewrite IH, orb_false_r.
  destruct (call_of ev) as [c|]; [now apply Hev | reflexivity].
Qed.

(** A value read without the world, then the rest. *)
Lemma bind_lift_run {A B} (r : outcome A) (k : A -> M W B) (w : W) :
  bind (lift r) k w = match r with Ok a => k a w | Raise e => (Raise e, w, []) end.
Proof.
  unfold bind, lift. destruct r as [a|e]; [|reflexivity].
  destruct (k a w) as [[r w1] t1]. reflexivity.
Qed.

(** The first failing read of the direct-mode [execute_sample] ends the
    run with its own exception, in the world the run started in, before
    anything is called or printed; when no read fails, the run starts
    with the two echoes of the settings and the name generation. *)
Lemma sample2_configuration_first (global_config sample_config : ConfigParser.t)
    (w : W) :
  match first_error (sample2_reads global_config sample_config) with
  | Some e => sample2.execute_sample global_config sample_config w = (Raise e, w, [])
  | None =>
      exists r rest,
        trace_of (sample2.execute_sample global_config sample_config w)
        = EPrintConfiguration global_config :: EPrintConfiguration sample_config
          :: ECall (generate_unique_resource_name "PoolsAndResourceFilesJob") r
          :: rest
  end.
Proof.
  remember (sample2.execute_sample global_config sample_config w) as run eqn:Hrun.
  unfold sample2.execute_sample, sample2.setup in Hrun.
  rewrite !bind_assoc in Hrun.
  unfold sample2_reads.
  repeat lazymatch type of Hrun with
         | context [bind (lift ?r) _] =>
             rewrite (bind_lift_run r) in Hrun;
             destruct r as [?|?]; cbn [first_error error_of]; [| exact Hrun];
             try rewrite !bind_assoc in Hrun
         end.
  subst run. unfold bind, print_configuration, invoke, pure, try_finally.
  destruct (sdk (generate_unique_resource_name "PoolsAndResourceFilesJob") w)
    as [[name|e] w1]; cbn [trace_of snd app].
  - match goal with
    | |- context [sample2.workflow ?l w1] =>
        destruct (sample2.workflow l w1) as [[rb wb] tb];
        destruct (sample2.cleanup l wb) as [[[[]|ec] wc] tc]
    end; cbn [trace_of snd app]; eexists _, _; reflexivity.
  - eexists _, _; reflexivity.
Qed.

Lemma sample4_configuration_first start_time
    (global_config sample_config : ConfigParser.t) (w : W) :
  match first_error (sample4_reads global_config sample_config) with
  | Some e =>
      sample4.execute_sample start_time global_config sample_config w
      = (Raise e, w, [])
  | None =>
      exists r rest,
        trace_of (sample4.execute_sample start_time global_config sample_config w)
        = EPrintConfiguration global_config :: EPrintConfiguration sample_config
          :: ECall (generate_unique_resource_name "JobScheduler") r
          :: rest
  end.
Proof.
  remember (sample4.execute_sample start_time global_config sample_config w)
    as run eqn:Hrun.
  unfold sample4.execute_sample, sample4.setup in Hrun.
  rewrite !bind_assoc in Hrun.
  unfold sample4_reads.
  repeat lazymatch type of Hrun with
         | context [bind (lift ?r) _] =>
             rewrite (bind_lift_run r) in Hrun;
             destruct r as [?|?]; cbn [first_error error_of]; [| exact Hrun];
             try rewrite !bind_assoc in Hrun
         end.
  subst run. unfold bind, print_configuration, invoke, pure, try_finally.
  destruct (sdk (generate_unique_resource_name "JobScheduler") w)
    as [[name|e] w1]; cbn [trace_of snd app].
  - match goal with
    | |- context [try_except (sample4.workflow start_time ?l) ?c ?h w1] =>
        destruct (try_except (sample4.workflow start_time l) c h w1) as [[rb wb] tb];
        destruct (sample4.cleanup l wb) as [[[[]|ec] wc] tc]
    end; cbn [trace_of snd app]; eexists _, _; reflexivity.
  - eexists _, _; reflexivity.
Qed.

(** X1.  Either sample reads its whole configuration before anything
    else.  When one of the reads raises, [execute_sample] ends with the
    exception of the first read that raised (first in the order of the
    source), in the world it started in, with an empty trace: nothing
    called, nothing printed.  When no read raises, the run goes on: its
    trace starts with the echo of the two configurations and the
    generation of the unique name. *)
Theorem configuration_first :
  (forall global_config sample_config (w : W) e,
      first_error (sample2_reads global_config sample_config) = Some e ->
      sample2.execute_sample global_config sample_config w = (Raise e, w, []))
  /\ (forall global_config sample_config (w : W),
      first_error (sample2_reads global_config sample_config) = None ->
      exists r rest,
        trace_of (sample2.execute_sample global_config sample_config w)
        = EPrintConfiguration global_config :: EPrintConfiguration sample_config
          :: ECall (generate_unique_resource_name "PoolsAndResourceFilesJob") r
          :: rest)
  /\ (forall start_time global_config sample_config (w : W) e,
      first_error (sample4_reads global_config sample_config) = Some e ->
      sample4.execute_sample start_time global_config sample_config w
      = (Raise e, w, []))
  /\ (forall start_time global_config sample_config (w : W),
      first_error (sample4_reads global_config sample_config) = None ->
      exists r rest,
        trace_of (sample4.execute_sample start_time global_config sample_config w)
        = EPrintConfiguration global_config :: EPrintConfiguration sample_config
          :: ECall (generate_unique_resource_name "JobScheduler") r
          :: rest).
Proof.
  split; [|split; [|split]].
  - intros g s w e F. pose proof (sample2_configuration_first g s w) as P.
    now rewrite F in P.
  - intros g s w F. pose proof (sample2_configuration_first g s w) as P.
    now rewrite F in P.
  - intros start g s w e F. pose proof (sample4_configuration_first start g s w) as P.
    now rewrite F in P.
  - intros start g s w F. pose proof (sample4_configuration_first start g s w) as P.
    now rewrite F in P.
Qed.

Lemma sample2_setup_only_generates g s :
  respects (calls_all (fun c => operation_of c = OpGenerateName)) (fun _ : W => True)
    (sample2.setup g s).
Proof. unfold sample2.setup, calls_all. respects_auto. all: call_leaf. Qed.

Lemma sample4_setup_only_generates g s :
  respects (calls_all (fun c => operation_of c = OpGenerateName)) (fun _ : W => True)
    (sample4.setup g s).
Proof. unfold sample4.setup, calls_all. respects_auto. all: call_leaf. Qed.

(** X2.  When what precedes the [try] statement fails (a read of the
    configuration or the generation of the unique name), [execute_sample]
    ends there with that error: the [finally] block is not entered, and
    the only call the run may have made is the name generation. *)
Theorem setup_failure_skips_cleanup :
  (forall global_config sample_config (w : W) e,
      result_of (sample2.setup global_config sample_config w) = Raise e ->
      let run := sample2.execute_sample global_config sample_config w in
      result_of run = Raise e
      /\ world_of run = world_of (sample2.setup global_config sample_config w)
      /\ trace_of run = trace_of (sample2.setup global_config sample_config w)
      /\ calls_all (fun c => operation_of c = OpGenerateName) (trace_of run))
  /\ (forall start_time global_config sample_config (w : W) e,
      result_of (sample4.setup global_config sample_config w) = Raise e ->
      let run := sample4.execute_sample start_time global_config sample_config w in
      result_of run = Raise e
      /\ world_of run = world_of (sample4.setup global_config sample_config w)
      /\ trace_of run = trace_of (sample4.setup global_config sample_config w)
      /\ calls_all (fun c => operation_of c = OpGenerateName) (trace_of run)).
Proof.
  split.
  - intros g s w e R. cbv zeta. unfold sample2.execute_sample.
    pose proof (proj2 (sample2_setup_only_generates g s w Logic.I)) as G.
    destruct (sample2.setup g s w) as [[r w1] t1] eqn:E. cbn in R. subst r.
    rewrite (bind_raise _ _ _ _ _ _ E). now repeat split.
  - intros start g s w e R. cbv zeta. unfold sample4.execute_sample.
    pose proof (proj2 (sample4_setup_only_generates g s w Logic.I)) as G.
    destruct (sample4.setup g s w) as [[r w1] t1] eqn:E. cbn in R. subst r.
    rewrite (bind_raise _ _ _ _ _ _ E). now repeat split.
Qed.

End FailFast.

Lemma setup_failure_skips_cleanup_witness :
  let run := @sample2.execute_sample _ (Sim.service sim_faults_generate)
               (Sim.global_config "https://configured.example")
               (Sim.sample2_config "true" "true" "true") Sim.initial in
  result_of run = Raise (RuntimeError "no name")
  /\ has_call is_deletion (trace_of run) = false.
Proof.
  cbv zeta.
  destruct (proj1 (@setup_failure_skips_cleanup _ (Sim.service sim_faults_generate)
                     Sim.helpers)
              (Sim.global_config "https://configured.example")
              (Sim.sample2_config "true" "true" "true") Sim.initial
              (RuntimeError "no name")) as (R & _ & T & _).
  - vm_compute. reflexivity.
  - split; [exact R|]. rewrite T. vm_compute. reflexivity.
Defined.

Lemma configuration_first_witness :
  @sample2.execute_sample _ (Sim.service Sim.no_faults)
    (Sim.global_config "https://configured.example")
    (Sim.sample2_config "true" "maybe" "1.5") Sim.initial
  = (Raise (ValueError "Not a boolean: maybe"), Sim.initial, [])
  /\ exists r rest,
       trace_of (@sample4.execute_sample _ (Sim.service Sim.no_faults) Sim.helpers 0
                   (Sim.global_config "https://configured.example")
                   (Sim.sample4_config "true" "true") Sim.initial)
       = EPrintConfiguration (Sim.global_config "https://configured.example")
         :: EPrintConfiguration (Sim.sample4_config "true" "true")
         :: ECall (generate_unique_resource_name "JobScheduler") r :: rest.
Proof.
  split.
  - apply (proj1 (@configuration_first _ (Sim.service Sim.no_faults) Sim.helpers)).
    vm_compute. reflexivity.
  - apply (proj2 (proj2 (proj2
             (@configuration_first _ (Sim.service Sim.no_faults) Sim.helpers)))).
    vm_compute. reflexivity.
Defined.

(** * The order of the remote operations *)

(** Answer the calls and clock readings of an unfolded program one after
    the other, branching on each answer. *)
Ltac answer_all :=
  repeat (match goal with
          | |- context [sdk ?c ?w] => destruct (sdk c w) as [[?|?] ?]
          | |- context [clock ?w] => destruct (clock w) as [? ?]
          | |- context [is_ResourceExistsError ?e] =>
              destruct (is_ResourceExistsError e)
          | |- context [is_ResourceNotFoundError ?e] =>
              destruct (is_ResourceNotFoundError e)
          end; cbn [fst snd]).

(** Find the length of the prefix. *)
Ltac pick_prefix k :=
  lazymatch k with
  | O => exists O
  | S ?k' => first [ exists k; split; [reflexivity | intros Hr; first [discriminate Hr | reflexivity]]
                   | pick_prefix k' ]
  end;
  try (split; [reflexivity | intros Hr; first [discriminate Hr | reflexivity]]).

Section Order.
Context {W : Type} `{Service W} `{Helpers}.

Lemma sample2_workflow_in_order (l : sample2.locals) (w : W) :
  exists n,
    operations (trace_of (sample2.workflow l w)) = take n sample2_operations
    /\ (result_of (sample2.workflow l w) = Ok tt -> n = 11%nat).
Proof.
  unfold sample2.workflow, sample2.create_pool, sample2.submit_job_and_add_task,
    bind, try_except, invoke, utcnow, pure.
  cbv zeta. answer_all.
  all: unfold result_of, trace_of; cbn [fst snd app].
  all: pick_prefix 11%nat.
Qed.

Lemma sample4_workflow_in_order start_time (l : sample4.locals) (w : W) :
  exists n,
    operations (trace_of (sample4.workflow start_time l w)) = take n sample4_operations
    /\ (result_of (sample4.workflow start_time l w) = Ok tt -> n = 7%nat).
Proof.
  unfold sample4.workflow, sample4.create_job_schedule,
    bind, invoke, utcnow, print, pure.
  cbv zeta. answer_all.
  all: unfold result_of, trace_of; cbn [fst snd app].
  all: pick_prefix 7%nat.
Qed.

(** Answer the calls as [answer_all] does, and tell the exceptions of a
    container creation apart by their class. *)
Ltac answer_all_by_class :=
  repeat (match goal with
          | |- context [is_ResourceExistsError ?e] =>
              destruct e; cbn [is_ResourceExistsError]
          | |- context [sdk ?c ?w] => destruct (sdk c w) as [[?|?] ?]
          | |- context [clock ?w] => destruct (clock w) as [? ?]
          end; cbn [fst snd]).

(** The end of a run of the body: it returned and nothing failed, or it
    raised what its last call raised and nothing else failed. *)
Ltac stop_leaf :=
  first [ split; reflexivity | eexists; split; reflexivity ].

Ltac pick_stop k :=
  lazymatch k with
  | O => exists O; split; [reflexivity | stop_leaf]
  | S ?k' => first [ exists k; split; [reflexivity | stop_leaf] | pick_stop k' ]
  end.

Lemma sample2_workflow_stops (l : sample2.locals) (w : W) :
  exists n,
    operations (trace_of (sample2.workflow l w)) = take n sample2_operations
    /\ match result_of (sample2.workflow l w) with
       | Ok _ => n = 11%nat /\ failures (trace_of (sample2.workflow l w)) = []
       | Raise e =>
           exists c,
             last (trace_of (sample2.workflow l w)) = Some (ECall c (Raise e))
             /\ failures (trace_of (sample2.workflow l w)) = [(c, e)]
       end.
Proof.
  unfold sample2.workflow, sample2.create_pool, sample2.submit_job_and_add_task,
    bind, try_except, invoke, utcnow, pure.
  cbv zeta. answer_all_by_class.
  all: unfold result_of, trace_of; cbn [fst snd app].
  all: pick_stop 11%nat.
Qed.

Lemma sample4_workflow_stops start_time (l : sample4.locals) (w : W) :
  exists n,
    operations (trace_of (sample4.workflow start_time l w)) = take n sample4_operations
    /\ match result_of (sample4.workflow start_time l w) with
       | Ok _ =>
           n = 7%nat /\ failures (trace_of (sample4.workflow start_time l w)) = []
       | Raise e =>
           exists c,
             last (trace_of (sample4.workflow start_time l w))
             = Some (ECall c (Raise e))
             /\ failures (trace_of (sample4.workflow start_time l w)) = [(c, e)]
       end.
Proof.
  unfold sample4.workflow, sample4.create_job_schedule,
    bind, invoke, utcnow, print, pure.
  cbv zeta. answer_all_by_class.
  all: unfold result_of, trace_of; cbn [fst snd app].
  all: pick_stop 7%nat.
Qed.

(** X3.  The [try] body of either sample performs its remote operations
    in one fixed order and stops at the first that fails, a container
    creation answered with [ResourceExistsError] apart.  The operations
    of a run are a prefix of the full sequence.  When the body returns,
    the prefix is the whole sequence and no call of the run failed.
    When the body raises, the exception is the one its last call raised,
    and that call is the only one of the run that failed. *)
Theorem workflow_in_order :
  (forall (l : sample2.locals) (w : W),
      exists n,
        operations (trace_of (sample2.workflow l w)) = take n sample2_operations
        /\ match result_of (sample2.workflow l w) with
           | Ok _ => n = 11%nat /\ failures (trace_of (sample2.workflow l w)) = []
           | Raise e =>
               exists c,
                 last (trace_of (sample2.workflow l w)) = Some (ECall c (Raise e))
                 /\ failures (trace_of (sample2.workflow l w)) = [(c, e)]
           end)
  /\ (forall start_time (l : sample4.locals) (w : W),
      exists n,
        operations (trace_of (sample4.workflow start_time l w))
        = take n sample4_operations
        /\ match result_of (sample4.workflow start_time l w) with
           | Ok _ =>
               n = 7%nat
               /\ failures (trace_of (sample4.workflow start_time l w)) = []
           | Raise e =>
               exists c,
                 last (trace_of (sample4.workflow start_time l w))
                 = Some (ECall c (Raise e))
                 /\ failures (trace_of (sample4.workflow start_time l w)) = [(c, e)]
           end).
Proof.
  split.
  - exact sample2_workflow_stops.
  - exact sample4_workflow_stops.
Qed.

Lemma operations_app t1 t2 : operations (t1 ++ t2) = operations t1 ++ operations t2.
Proof. apply omap_app. Qed.

Lemma sample2_cleanup_operations_ok (l : sample2.locals) (w : W) :
  result_of (sample2.cleanup l w) = Ok tt ->
  operations (trace_of (sample2.cleanup l w))
  = sample2_cleanup_operations (sample2.should_delete_container l)
      (sample2.should_delete_job l) (sample2.should_delete_pool l).
Proof.
  unfold sample2.cleanup, when, bind, invoke, print, pure.
  destruct (sample2.should_delete_container l), (sample2.should_delete_job l),
    (sample2.should_delete_pool l); cbn [fst snd].
  all: answer_all.
  all: unfold result_of, trace_of; cbn [fst snd app].
  all: intros Hr; first [discriminate Hr | reflexivity].
Qed.

Lemma sample4_cleanup_operations_ok (l : sample4.locals) (w : W) :
  result_of (sample4.cleanup l w) = Ok tt ->
  operations (trace_of (sample4.cleanup l w))
  = sample4_cleanup_operations (sample4.should_delete_job_schedule l)
      (sample4.should_delete_container l).
Proof.
  unfold sample4.cleanup, when, bind, try_except, invoke, print, pure.
  destruct (sample4.should_delete_job_schedule l), (sample4.should_delete_container l);
    cbn [fst snd].
  all: answer_all.
  all: unfold result_of, trace_of; cbn [fst snd app].
  all: intros Hr; first [discriminate Hr | reflexivity].
Qed.

(** X4.  A run of the direct-mode [execute_sample] that returns has
    performed exactly: the name generation, the eleven operations of the
    body, and the deletions its three flags ask for, in that order. *)
Theorem sample2_success_operations global_config sample_config (w : W) :
  let run := sample2.execute_sample global_config sample_config w in
  result_of run = Ok tt ->
  exists container job pool,
    ConfigParser.getboolean sample_config "DEFAULT" "shoulddeletecontainer"
      = Ok container
    /\ ConfigParser.getboolean sample_config "DEFAULT" "shoulddeletejob" = Ok job
    /\ ConfigParser.getboolean sample_config "DEFAULT" "shoulddeletepool" = Ok pool
    /\ operations (trace_of run)
       = OpGenerateName :: sample2_operations
         ++ sample2_cleanup_operations container job pool.
Proof.
  cbv zeta. unfold sample2.execute_sample.
  destruct (sample2.setup global_config sample_config w) as [[[l|e] w1] t1] eqn:E.
  2: { rewrite (bind_raise _ _ _ _ _ _ E). intros [=]. }
  rewrite (bind_ok _ _ _ _ _ _ E), try_finally_run.
  pose proof (sample2_setup_inv _ _ _ _ _ _ E) as (Fc & Fj & Fp & _ & _ & _ & Ht).
  destruct (sample2_workflow_in_order l w1) as (n & Hn & Hfull).
  pose proof (sample2_cleanup_operations_ok l (world_of (sample2.workflow l w1)))
    as Hc.
  unfold result_of, world_of, trace_of in *. cbn [fst snd] in *.
  destruct ((sample2.cleanup l (sample2.workflow l w1).1.2).1.1)
    as [[]|e] eqn:Rc; [|intros [=]].
  intros Rb.
  exists (sample2.should_delete_container l), (sample2.should_delete_job l),
    (sample2.should_delete_pool l).
  repeat split; try assumption.
  rewrite (Hfull Rb) in Hn.
  rewrite !operations_app, Hn, (Hc eq_refl), Ht.
  reflexivity.
Qed.

End Order.

Lemma sample2_success_operations_witness :
  operations (trace_of (@sample2.execute_sample _ (Sim.service Sim.no_faults)
                          (Sim.global_config "https://configured.example")
                          (Sim.sample2_config "true" "false" "true") Sim.initial))
  = OpGenerateName :: sample2_operations ++ [OpDeleteContainer; OpPoolDelete].
Proof.
  destruct (@sample2_success_operations _ (Sim.service Sim.no_faults)
              (Sim.global_config "https://configured.example")
              (Sim.sample2_config "true" "false" "true") Sim.initial)
    as (c & j & p & Fc & Fj & Fp & Ho).
  - vm_compute. reflexivity.
  - rewrite Ho.
    assert (c = true) as -> by (vm_compute in Fc; congruence).
    assert (j = false) as -> by (vm_compute in Fj; congruence).
    assert (p = true) as -> by (vm_compute in Fp; congruence).
    reflexivity.
Defined.

(** * What is deleted, and where *)

Section Deletions.
Context {W : Type} `{Service W} `{Helpers}.

(** [respects_auto] under a [setup] whose local variables are known to
    come from a run. *)
Ltac under_setup inv :=
  match goal with
  | |- respects ?Q ?I (bind _ _) =>
      apply (respects_bind_inv Q I ltac:(auto with additive));
      [ | let l := fresh "l" in let E := fresh "E" in
          intros l (? & ? & ? & E); apply inv in E ]
  end.

(** X5.  A deletion whose flag is read as false is never called, on any
    path: container and job in the direct-mode sample, job schedule and
    container in the scheduled-mode one. *)
Theorem deletions_follow_flags :
  (forall global_config sample_config (w : W),
      ConfigParser.getboolean sample_config "DEFAULT" "shoulddeletecontainer"
        = Ok false ->
      calls_all (fun c => is_delete_container c = false)
        (trace_of (sample2.execute_sample global_config sample_config w)))
  /\ (forall global_config sample_config (w : W),
      ConfigParser.getboolean sample_config "DEFAULT" "shoulddeletejob" = Ok false ->
      calls_all (fun c => is_job_delete c = false)
        (trace_of (sample2.execute_sample global_config sample_config w)))
  /\ (forall start_time global_config sample_config (w : W),
      ConfigParser.getboolean sample_config "DEFAULT" "shoulddeletejobschedule"
        = Ok false ->
      calls_all (fun c => is_job_schedule_delete c = false)
        (trace_of (sample4.execute_sample start_time global_config sample_config w)))
  /\ (forall start_time global_config sample_config (w : W),
      ConfigParser.getboolean sample_config "DEFAULT" "shoulddeletecontainer"
        = Ok false ->
      calls_all (fun c => is_delete_container c = false)
        (trace_of (sample4.execute_sample start_time global_config sample_config w))).
Proof.
  split; [|split; [|split]].
  - intros g s w F.
    enough (respects (calls_all (fun c => is_delete_container c = false))
              (fun _ : W => True) (sample2.execute_sample g s)) as R
      by exact (proj2 (R w Logic.I)).
    unfold sample2.execute_sample, calls_all. under_setup sample2_setup_inv.
    + unfold sample2.setup. respects_auto. all: call_leaf.
    + destruct E as (Fc & _). rewrite F in Fc. injection Fc as Fc.
      unfold sample2.workflow, sample2.cleanup, sample2.create_pool,
        sample2.submit_job_and_add_task.
      respects_auto. all: call_leaf.
  - intros g s w F.
    enough (respects (calls_all (fun c => is_job_delete c = false))
              (fun _ : W => True) (sample2.execute_sample g s)) as R
      by exact (proj2 (R w Logic.I)).
    unfold sample2.execute_sample, calls_all. under_setup sample2_setup_inv.
    + unfold sample2.setup. respects_auto. all: call_leaf.
    + destruct E as (_ & Fj & _). rewrite F in Fj. injection Fj as Fj.
      unfold sample2.workflow, sample2.cleanup, sample2.create_pool,
        sample2.submit_job_and_add_task.
      respects_auto. all: call_leaf.
  - intros start g s w F.
    enough (respects (calls_all (fun c => is_job_schedule_delete c = false))
              (fun _ : W => True) (sample4.execute_sample start g s)) as R
      by exact (proj2 (R w Logic.I)).
    unfold sample4.execute_sample, calls_all. under_setup sample4_setup_inv.
    + unfold sample4.setup. respects_auto. all: call_leaf.
    + destruct E as (_ & Fs & _). rewrite F in Fs. injection Fs as Fs.
      unfold sample4.workflow, sample4.cleanup, sample4.create_job_schedule,
        sample4.on_batch_error.
      respects_auto. all: call_leaf.
  - intros start g s w F.
    enough (respects (calls_all (fun c => is_delete_container c = false))
              (fun _ : W => True) (sample4.execute_sample start g s)) as R
      by exact (proj2 (R w Logic.I)).
    unfold sample4.execute_sample, calls_all. under_setup sample4_setup_inv.
    + unfold sample4.setup. respects_auto. all: call_leaf.
    + destruct E as (Fc & _). rewrite F in Fc. injection Fc as Fc.
      unfold sample4.workflow, sample4.cleanup, sample4.create_job_schedule,
        sample4.on_batch_error.
      respects_auto. all: call_leaf.
Qed.

(** X6.  Deletions happen in the [finally] block only: the [try] body of
    either sample, and the batch-error handler, never delete a container,
    a job, a pool or a job schedule, and the [finally] blocks call nothing
    but deletions. *)
Theorem deletions_only_in_cleanup :
  (forall (l : sample2.locals) (w : W),
      calls_all (fun c => is_deletion c = false) (trace_of (sample2.workflow l w))
      /\ calls_all (fun c => is_deletion c = true) (trace_of (sample2.cleanup l w)))
  /\ (forall start_time (l : sample4.locals) (w : W),
      calls_all (fun c => is_deletion c = false)
        (trace_of (try_except (sample4.workflow start_time l) is_BatchErrorException
                     sample4.on_batch_error w))
      /\ calls_all (fun c => is_deletion c = true) (trace_of (sample4.cleanup l w))).
Proof.
  split.
  - intros l w. split.
    + enough (respects (calls_all (fun c => is_deletion c = false))
                (fun _ : W => True) (sample2.workflow l)) as R
        by exact (proj2 (R w Logic.I)).
      unfold sample2.workflow, sample2.create_pool, sample2.submit_job_and_add_task,
        calls_all.
      respects_auto. all: call_leaf.
    + enough (respects (calls_all (fun c => is_deletion c = true))
                (fun _ : W => True) (sample2.cleanup l)) as R
        by exact (proj2 (R w Logic.I)).
      unfold sample2.cleanup, calls_all. respects_auto. all: call_leaf.
  - intros start l w. split.
    + enough (respects (calls_all (fun c => is_deletion c = false))
                (fun _ : W => True)
                (try_except (sample4.workflow start l) is_BatchErrorException
                   sample4.on_batch_error)) as R
        by exact (proj2 (R w Logic.I)).
      unfold sample4.workflow, sample4.create_job_schedule, sample4.on_batch_error,
        calls_all.
      respects_auto. all: call_leaf.
    + enough (respects (calls_all (fun c => is_deletion c = true))
                (fun _ : W => True) (sample4.cleanup l)) as R
        by exact (proj2 (R w Logic.I)).
      unfold sample4.cleanup, calls_all. respects_auto. all: call_leaf.
Qed.

(** X7.  The scheduled-mode sample never calls [create_container]: no
    event of a run of its [execute_sample] is a call of
    [blob_service_client.create_container], although its body uploads
    into the container [jobscheduler] and its cleanup may delete it.
    (Whether the upload helper creates the container is not part of the
    script.) *)
Theorem sample4_never_calls_create_container start_time global_config sample_config
    (w : W) :
  calls_all (fun c => is_create_container c = false)
    (trace_of (sample4.execute_sample start_time global_config sample_config w)).
Proof.
  enough (respects (calls_all (fun c => is_create_container c = false))
            (fun _ : W => True)
            (sample4.execute_sample start_time global_config sample_config)) as R
    by exact (proj2 (R w Logic.I)).
  unfold sample4.execute_sample, sample4.setup, sample4.workflow, sample4.cleanup,
    sample4.create_job_schedule, sample4.on_batch_error, calls_all.
  respects_auto. all: call_leaf.
Qed.

End Deletions.

Lemma deletions_follow_flags_witness :
  has_call is_job_delete
    (trace_of (@sample2.execute_sample _ (Sim.service Sim.no_faults)
                 (Sim.global_config "https://configured.example")
                 (Sim.sample2_config "true" "false" "true") Sim.initial)) = false.
Proof.
  apply calls_all_has_call.
  apply (proj1 (proj2 (@deletions_follow_flags _ (Sim.service Sim.no_faults)
                         Sim.helpers))).
  vm_compute. reflexivity.
Defined.

(** * The clients and the identifiers the calls go through *)

Section Clients.
Context {W : Type} `{Service W} `{Helpers}.

(** The clients [setup] leaves in the local variables. *)
Lemma sample2_setup_clients global_config sample_config (w : W) l w1 t1 :
  sample2.setup global_config sample_config w = (Ok l, w1, t1) ->
  BatchServiceClient.retries (sample2.batch_client l) = Some 5
  /\ ConfigParser.get global_config "Batch" "batchserviceurl"
     = Ok (BatchServiceClient.batch_url (sample2.batch_client l))
  /\ ConfigParser.get global_config "Batch" "batchaccountname"
     = Ok (SharedKeyCredentials.account_name
             (BatchServiceClient.credentials (sample2.batch_client l)))
  /\ ConfigParser.get global_config "Batch" "batchaccountkey"
     = Ok (SharedKeyCredentials.key
             (BatchServiceClient.credentials (sample2.batch_client l)))
  /\ ConfigParser.get global_config "Storage" "storageaccountkey"
     = Ok (BlobServiceClient.credential (sample2.blob_service_client l))
  /\ ConfigParser.get sample_config "DEFAULT" "poolvmsize"
     = Ok (sample2.pool_vm_size l)
  /\ ConfigParser.getint sample_config "DEFAULT" "poolvmcount"
     = Ok (sample2.pool_vm_count l).
Proof.
  unfold sample2.setup, bind, lift, print_configuration, invoke, pure.
  repeat match goal with
         | |- context [match ConfigParser.get ?c ?s ?o with _ => _ end] =>
             destruct (ConfigParser.get c s o) eqn:?; [|discriminate]
         | |- context [match ConfigParser.getboolean ?c ?s ?o with _ => _ end] =>
             destruct (ConfigParser.getboolean c s o) eqn:?; [|discriminate]
         | |- context [match ConfigParser.getint ?c ?s ?o with _ => _ end] =>
             destruct (ConfigParser.getint c s o) eqn:?; [|discriminate]
         end.
  destruct (sdk _ w) as [[name|e] w'] eqn:E; [|discriminate].
  intros [= <- <- <-]. cbn. repeat split; reflexivity.
Qed.

Lemma sample4_setup_clients global_config sample_config (w : W) l w1 t1 :
  sample4.setup global_config sample_config w = (Ok l, w1, t1) ->
  BatchServiceClient.retries (sample4.batch_client l) = Some 5
  /\ ConfigParser.get global_config "Batch" "batchserviceurl"
     = Ok (BatchServiceClient.batch_url (sample4.batch_client l))
  /\ ConfigParser.get global_config "Batch" "batchaccountname"
     = Ok (SharedKeyCredentials.account_name
             (BatchServiceClient.credentials (sample4.batch_client l)))
  /\ ConfigParser.get global_config "Batch" "batchaccountkey"
     = Ok (SharedKeyCredentials.key
             (BatchServiceClient.credentials (sample4.batch_client l)))
  /\ ConfigParser.get global_config "Storage" "storageaccountkey"
     = Ok (BlobServiceClient.credential (sample4.blob_service_client l))
  /\ ConfigParser.get sample_config "DEFAULT" "poolvmsize"
     = Ok (sample4.pool_vm_size l)
  /\ ConfigParser.getint sample_config "DEFAULT" "poolvmcount"
     = Ok (sample4.pool_vm_count l).
Proof.
  unfold sample4.setup, bind, lift, print_configuration, invoke, pure.
  repeat match goal with
         | |- context [match ConfigParser.get ?c ?s ?o with _ => _ end] =>
             destruct (ConfigParser.get c s o) eqn:?; [|discriminate]
         | |- context [match ConfigParser.getboolean ?c ?s ?o with _ => _ end] =>
             destruct (ConfigParser.getboolean c s o) eqn:?; [|discriminate]
         | |- context [match ConfigParser.getint ?c ?s ?o with _ => _ end] =>
             destruct (ConfigParser.getint c s o) eqn:?; [|discriminate]
         end.
  destruct (sdk _ w) as [[name|e] w'] eqn:E; [|discriminate].
  intros [= <- <- <-]. cbn. repeat split; reflexivity.
Qed.

(** X8.  Every batch call of either sample goes through a client with
    the configured service URL and account, and with 5 retries; every
    storage call goes through a client with the configured storage key. *)
Theorem clients_from_configuration :
  (forall global_config sample_config (w : W),
      calls_all (configured_client global_config)
        (trace_of (sample2.execute_sample global_config sample_config w)))
  /\ (forall start_time global_config sample_config (w : W),
      calls_all (configured_client global_config)
        (trace_of (sample4.execute_sample start_time global_config sample_config w))).
Proof.
  split.
  - intros g s w.
    enough (respects (calls_all (configured_client g)) (fun _ : W => True)
              (sample2.execute_sample g s)) as R by exact (proj2 (R w Logic.I)).
    unfold sample2.execute_sample, calls_all.
    match goal with
    | |- respects ?Q ?I (bind _ _) =>
        apply (respects_bind_inv Q I ltac:(auto with additive))
    end.
    + unfold sample2.setup. respects_auto.
      all: intros; first [ exact Logic.I
                         | constructor; [|constructor]; intros c [=]; subst c;
                           split; intros x [=] ].
    + intros l (w0 & w1 & t1 & E).
      apply sample2_setup_clients in E as (R5 & U & N & K & S & _).
      unfold sample2.workflow, sample2.cleanup, sample2.create_pool,
        sample2.submit_job_and_add_task.
      respects_auto.
      all: intros; first [ exact Logic.I | constructor; [|constructor] ].
      all: intros c Hc; cbn in Hc; first [discriminate | injection Hc as <-].
      all: split; intros x Hx; cbn in Hx;
        first [discriminate | injection Hx as <-; auto].
  - intros start g s w.
    enough (respects (calls_all (configured_client g)) (fun _ : W => True)
              (sample4.execute_sample start g s)) as R by exact (proj2 (R w Logic.I)).
    unfold sample4.execute_sample, calls_all.
    match goal with
    | |- respects ?Q ?I (bind _ _) =>
        apply (respects_bind_inv Q I ltac:(auto with additive))
    end.
    + unfold sample4.setup. respects_auto.
      all: intros; first [ exact Logic.I
                         | constructor; [|constructor]; intros c [=]; subst c;
                           split; intros x [=] ].
    + intros l (w0 & w1 & t1 & E).
      apply sample4_setup_clients in E as (R5 & U & N & K & S & _).
      unfold sample4.workflow, sample4.cleanup, sample4.create_job_schedule,
        sample4.on_batch_error.
      respects_auto.
      all: intros; first [ exact Logic.I | constructor; [|constructor] ].
      all: intros c Hc; cbn in Hc; first [discriminate | injection Hc as <-].
      all: split; intros x Hx; cbn in Hx;
        first [discriminate | injection Hx as <-; auto].
Qed.

End Clients.

(** * One job, one pool, one container *)

(** A single event against a [Forall] over what [refers] finds in it. *)
Ltac refers_leaf :=
  intros;
  first [ exact Logic.I
        | constructor; [| constructor];
          repeat split;
          first [ reflexivity
                | let x := fresh "x" in let Hx := fresh "Hx" in
                  intros x Hx; cbn in Hx;
                  first [ discriminate | injection Hx as <-; first [reflexivity | auto] ] ] ].

Section OneJob.
Context {W : Type} `{Service W} `{Helpers}.

Lemma sample2_setup_refers_nothing g s :
  respects (Forall (fun ev => refers job_referred ev = None
                              /\ refers pool_referred ev = None
                              /\ refers container_referred ev = None))
    (fun _ : W => True) (sample2.setup g s).
Proof. unfold sample2.setup. respects_auto. all: refers_leaf. Qed.

Lemma sample2_refers l :
  respects (Forall (fun ev =>
                      (forall j, refers job_referred ev = Some j -> j = sample2.job_id l)
                      /\ (forall p, refers pool_referred ev = Some p ->
                                    p = sample2.pool_id l)
                      /\ (forall n, refers container_referred ev = Some n ->
                                    n = "poolsandresourcefiles")))
    (fun _ : W => True) (try_finally (sample2.workflow l) (sample2.cleanup l)).
Proof.
  unfold sample2.workflow, sample2.cleanup, sample2.create_pool,
    sample2.submit_job_and_add_task.
  respects_auto. all: refers_leaf.
Qed.

Lemma sample4_setup_refers_nothing g s :
  respects (Forall (fun ev => refers schedule_referred ev = None
                              /\ refers container_referred ev = None))
    (fun _ : W => True) (sample4.setup g s).
Proof. unfold sample4.setup. respects_auto. all: refers_leaf. Qed.

Lemma sample4_refers start l :
  respects (Forall (fun ev =>
                      (forall j, refers schedule_referred ev = Some j ->
                                 j = sample4.job_schedule_id l)
                      /\ (forall n, refers container_referred ev = Some n ->
                                    n = "jobscheduler")))
    (fun _ : W => True)
    (try_finally
       (try_except (sample4.workflow start l) is_BatchErrorException
          sample4.on_batch_error)
       (sample4.cleanup l)).
Proof.
  unfold sample4.workflow, sample4.cleanup, sample4.create_job_schedule,
    sample4.on_batch_error.
  respects_auto. all: refers_leaf.
Qed.

(** X9.  A run of the direct-mode sample is about one job, one pool and
    one container: every call that names a job (add, task add, wait,
    list, output, delete) names the one generated earlier in the run,
    every call that names a pool (creation, the pool the job is bound to,
    deletion) names [PoolsAndResourceFilesPool], and every storage call
    names the container [poolsandresourcefiles]. *)
Theorem sample2_one_job_one_pool global_config sample_config (w : W) :
  let tr := trace_of (sample2.execute_sample global_config sample_config w) in
  (forall j, In j (omap (refers job_referred) tr) ->
             In j (omap (name_generated "PoolsAndResourceFilesJob") tr))
  /\ (forall p, In p (omap (refers pool_referred) tr) ->
                p = "PoolsAndResourceFilesPool")
  /\ (forall n, In n (omap (refers container_referred) tr) ->
                n = "poolsandresourcefiles").
Proof.
  cbv zeta.
  pose proof (proj2 (sample2_setup_refers_nothing global_config sample_config w
                       Logic.I)) as Hs.
  unfold sample2.execute_sample.
  destruct (sample2.setup global_config sample_config w) as [[[l|e] w1] t1] eqn:E.
  - rewrite (bind_ok _ _ _ _ _ _ E). unfold trace_of at 1 3 5 6. cbn [snd].
    pose proof (proj2 (sample2_refers l w1 Logic.I)) as Hu.
    pose proof (sample2_setup_inv _ _ _ _ _ _ E) as (_ & _ & _ & Hp & _ & _ & Ht).
    cbn [trace_of snd] in Hs. rewrite List.Forall_forall in Hs, Hu.
    split; [|split].
    + intros j Hj. apply in_omap in Hj as (ev & Hev & F).
      apply in_app_or in Hev as [Hev|Hev].
      { apply Hs in Hev as (N & _). congruence. }
      specialize (Hu _ Hev) as (J & _). apply J in F. subst j.
      apply (omap_in _ _ (ECall (generate_unique_resource_name
                                   "PoolsAndResourceFilesJob")
                            (Ok (sample2.job_id l)))).
      { apply in_or_app. left. rewrite Ht. find_in. }
      reflexivity.
    + intros p Hin. apply in_omap in Hin as (ev & Hev & F).
      apply in_app_or in Hev as [Hev|Hev].
      { apply Hs in Hev as (_ & N & _). congruence. }
      specialize (Hu _ Hev) as (_ & P & _). apply P in F. congruence.
    + intros n Hin. apply in_omap in Hin as (ev & Hev & F).
      apply in_app_or in Hev as [Hev|Hev].
      { apply Hs in Hev as (_ & _ & N). congruence. }
      specialize (Hu _ Hev) as (_ & _ & P). now apply P in F.
  - rewrite (bind_raise _ _ _ _ _ _ E). cbn [trace_of snd] in *.
    rewrite List.Forall_forall in Hs.
    repeat split; intros x Hx; apply in_omap in Hx as (ev & Hev & F);
      apply Hs in Hev as (N1 & N2 & N3); congruence.
Qed.

(** X10.  A run of the scheduled-mode sample is about one job schedule
    and one container: every call that names a job schedule (add, the two
    waits, delete) names the one generated earlier in the run, and every
    storage call names the container [jobscheduler]. *)
Theorem sample4_one_schedule start_time global_config sample_config (w : W) :
  let tr := trace_of (sample4.execute_sample start_time global_config
                        sample_config w) in
  (forall j, In j (omap (refers schedule_referred) tr) ->
             In j (omap (name_generated "JobScheduler") tr))
  /\ (forall n, In n (omap (refers container_referred) tr) -> n = "jobscheduler").
Proof.
  cbv zeta.
  pose proof (proj2 (sample4_setup_refers_nothing global_config sample_config w
                       Logic.I)) as Hs.
  unfold sample4.execute_sample.
  destruct (sample4.setup global_config sample_config w) as [[[l|e] w1] t1] eqn:E.
  - rewrite (bind_ok _ _ _ _ _ _ E). unfold trace_of at 1 3 5. cbn [snd].
    pose proof (proj2 (sample4_refers start_time l w1 Logic.I)) as Hu.
    pose proof (sample4_setup_inv _ _ _ _ _ _ E) as (_ & _ & _ & _ & Ht).
    cbn [trace_of snd] in Hs. rewrite List.Forall_forall in Hs, Hu.
    split.
    + intros j Hj. apply in_omap in Hj as (ev & Hev & F).
      apply in_app_or in Hev as [Hev|Hev].
      { apply Hs in Hev as (N & _). congruence. }
      specialize (Hu _ Hev) as (J & _). apply J in F. subst j.
      apply (omap_in _ _ (ECall (generate_unique_resource_name "JobScheduler")
                            (Ok (sample4.job_schedule_id l)))).
      { apply in_or_app. left. rewrite Ht. find_in. }
      reflexivity.
    + intros n Hin. apply in_omap in Hin as (ev & Hev & F).
      apply in_app_or in Hev as [Hev|Hev].
      { apply Hs in Hev as (_ & N). congruence. }
      specialize (Hu _ Hev) as (_ & P). now apply P in F.
  - rewrite (bind_raise _ _ _ _ _ _ E). cbn [trace_of snd] in *.
    rewrite List.Forall_forall in Hs.
    repeat split; intros x Hx; apply in_omap in Hx as (ev & Hev & F);
      apply Hs in Hev as (N1 & N2); congruence.
Qed.

End OneJob.

(** * What flows from one call to the next *)

(** [respects_auto] for a trace property whose additivity is at hand. *)
Ltac respects_go Hadd :=
  repeat (cbv zeta;
    lazymatch goal with
    | |- respects _ _ (bind (lift _) _) =>
        apply (respects_bind_lift _ _ Hadd); intros ? ?
    | |- respects _ _ (bind _ _) => apply (respects_bind _ _ Hadd); [| intros ?]
    | |- respects _ _ (try_except _ _ _) =>
        apply (respects_try_except _ _ Hadd); [| intros ?]
    | |- respects _ _ (when _ _) => apply (respects_when _ _ Hadd); intros ?
    | |- respects _ _ (for_each _ _) => apply (respects_for_each _ _ Hadd); intros ?
    | |- respects _ _ (pure _) => apply (respects_pure _ _ Hadd)
    | |- respects _ _ (raise _) => apply (respects_raise _ _ Hadd)
    | |- respects ?Q ?I (print ?a) => apply (respects_print Q I a)
    | |- respects ?Q ?I (print_configuration ?c) =>
        apply (respects_print_configuration Q I c)
    | |- respects ?Q ?I (invoke ?c) => apply (respects_invoke Q I c)
    end).

Section DataFlow.
Context {W : Type} `{Service W} `{Helpers}.

Lemma additive_omap_incl {A} (f g : event -> option A) :
  additive (fun tr => forall x, In x (omap f tr) -> In x (omap g tr)).
Proof.
  split; [intros x []|].
  intros t1 t2 H1 H2 x. rewrite !omap_app. intros Hin.
  apply in_app_or in Hin as [Hin|Hin]; apply in_or_app; [left|right]; auto.
Qed.

(** An explicit trace against an inclusion of what two observations find. *)
Ltac incl_leaf :=
  intros;
  first [ exact Logic.I
        | cbn in *; first [ contradiction | assumption | tauto ] ].

Lemma sample2_workflow_output (l : sample2.locals) (w : W) :
  forall x, In x (omap output_requested (trace_of (sample2.workflow l w))) ->
            In x (omap tasks_listed (trace_of (sample2.workflow l w))).
Proof.
  unfold sample2.workflow, sample2.create_pool, sample2.submit_job_and_add_task,
    bind, try_except, invoke, utcnow, pure.
  cbv zeta. answer_all.
  all: unfold trace_of; cbn [fst snd app].
  all: incl_leaf.
Qed.

Lemma sample4_workflow_output start (l : sample4.locals) (w : W) :
  let tr := trace_of (sample4.workflow start l w) in
  (forall x, In x (omap output_requested tr) -> In x (omap tasks_listed tr))
  /\ (forall j, In j (omap tasks_of_job tr) -> In j (omap job_materialized tr)).
Proof.
  unfold sample4.workflow, sample4.create_job_schedule,
    bind, invoke, utcnow, print, pure.
  cbv zeta. answer_all.
  all: unfold trace_of; cbn [fst snd app].
  all: split; incl_leaf.
Qed.

(** X11.  [print_task_output] is handed the job and exactly the task ids,
    in order, that a successful [task.list] of the same run returned for
    that job (none, when the list is empty).  In the scheduled-mode sample
    the job whose tasks are waited for, listed and printed is one that the
    wait for a job under the schedule returned. *)
Theorem output_of_listed_tasks :
  (forall global_config sample_config (w : W),
      let tr := trace_of (sample2.execute_sample global_config sample_config w) in
      forall x, In x (omap output_requested tr) -> In x (omap tasks_listed tr))
  /\ (forall start_time global_config sample_config (w : W),
      let tr := trace_of (sample4.execute_sample start_time global_config
                            sample_config w) in
      (forall x, In x (omap output_requested tr) -> In x (omap tasks_listed tr))
      /\ (forall j, In j (omap tasks_of_job tr) -> In j (omap job_materialized tr))).
Proof.
  split.
  - intros g s w. cbv zeta.
    enough (respects (fun tr => forall x, In x (omap output_requested tr) ->
                                          In x (omap tasks_listed tr))
              (fun _ : W => True) (sample2.execute_sample g s)) as R
      by exact (proj2 (R w Logic.I)).
    pose proof (additive_omap_incl output_requested tasks_listed) as Hadd.
    unfold sample2.execute_sample.
    apply (respects_bind _ _ Hadd).
    + unfold sample2.setup. respects_go Hadd. all: incl_leaf.
    + intros l. apply (respects_try_finally _ _ Hadd).
      * intros w0 _. split; [exact Logic.I | apply sample2_workflow_output].
      * unfold sample2.cleanup. respects_go Hadd. all: incl_leaf.
  - intros start g s w. cbv zeta. split.
    + enough (respects (fun tr => forall x, In x (omap output_requested tr) ->
                                            In x (omap tasks_listed tr))
                (fun _ : W => True) (sample4.execute_sample start g s)) as R
        by exact (proj2 (R w Logic.I)).
      pose proof (additive_omap_incl output_requested tasks_listed) as Hadd.
      unfold sample4.execute_sample.
      apply (respects_bind _ _ Hadd).
      * unfold sample4.setup. respects_go Hadd. all: incl_leaf.
      * intros l. apply (respects_try_finally _ _ Hadd).
        { apply (respects_try_except _ _ Hadd).
          - intros w0 _. split; [exact Logic.I | apply sample4_workflow_output].
          - intros e. unfold sample4.on_batch_error.
            destruct e as [| | |[[[?|]]|]| | | | | | | |]; cbn [values];
              respects_go Hadd. all: incl_leaf. }
        unfold sample4.cleanup. respects_go Hadd. all: incl_leaf.
    + enough (respects (fun tr => forall j, In j (omap tasks_of_job tr) ->
                                            In j (omap job_materialized tr))
                (fun _ : W => True) (sample4.execute_sample start g s)) as R
        by exact (proj2 (R w Logic.I)).
      pose proof (additive_omap_incl tasks_of_job job_materialized) as Hadd.
      unfold sample4.execute_sample.
      apply (respects_bind _ _ Hadd).
      * unfold sample4.setup. respects_go Hadd. all: incl_leaf.
      * intros l. apply (respects_try_finally _ _ Hadd).
        { apply (respects_try_except _ _ Hadd).
          - intros w0 _. split; [exact Logic.I | apply sample4_workflow_output].
          - intros e. unfold sample4.on_batch_error.
            destruct e as [| | |[[[?|]]|]| | | | | | | |]; cbn [values];
              respects_go Hadd. all: incl_leaf. }
        unfold sample4.cleanup. respects_go Hadd. all: incl_leaf.
Qed.

End DataFlow.

(** * What the direct-mode sample submits *)

Section Submitted.
Context {W : Type} `{Service W} `{Helpers}.
Import batchmodels.

(** X12.  The pool [create_pool] submits has the id, size and node count
    it was given, the image and node agent the image lookup of the same
    run returned, and a start task that runs [python simple_task.py] on
    the file fetched from the signed URL the upload of the same run
    returned.  The task [submit_job_and_add_task] adds is [MyPythonTask]
    under the job id it was given, running the same command on the file
    fetched from the signed URL of its own upload. *)
Theorem direct_mode_parameters :
  (forall bc cl p sz n (w : W),
      let tr := trace_of (sample2.create_pool bc cl p sz n w) in
      forall pool, In pool (omap pool_submitted tr) ->
        exists image sas_url,
          In image (omap image_selected tr)
          /\ In sas_url (omap sas_returned tr)
          /\ pool = {|
               PoolAddParameter.id := p;
               PoolAddParameter.virtual_machine_configuration := {|
                 VirtualMachineConfiguration.image_reference := image.2;
                 VirtualMachineConfiguration.node_agent_sku_id := image.1 |};
               PoolAddParameter.vm_size := sz;
               PoolAddParameter.target_dedicated_nodes := n;
               PoolAddParameter.start_task := {|
                 StartTask.command_line := "python simple_task.py";
                 StartTask.resource_files := [ {|
                   ResourceFile.file_path := "simple_task.py";
                   ResourceFile.http_url := sas_url |} ];
                 StartTask.wait_for_success := None;
                 StartTask.user_identity := None |} |})
  /\ (forall bc cl j p (w : W),
      let tr := trace_of (sample2.submit_job_and_add_task bc cl j p w) in
      forall x, In x (omap task_submitted tr) ->
        exists sas_url,
          In sas_url (omap sas_returned tr)
          /\ x = (j, {|
               TaskAddParameter.id := "MyPythonTask";
               TaskAddParameter.command_line := "python simple_task.py";
               TaskAddParameter.resource_files := [ {|
                 ResourceFile.file_path := "simple_task.py";
                 ResourceFile.http_url := sas_url |} ] |})).
Proof.
  split.
  - intros bc cl p sz n w. cbv zeta.
    unfold sample2.create_pool, bind, try_except, invoke, utcnow, pure.
    cbv zeta. answer_all.
    all: unfold trace_of; cbn [fst snd app]; cbn.
    all: intros pool Hp; first [ contradiction | destruct Hp as [<-|[]] ].
    all: eexists _, _; split; [left; reflexivity | split; [|reflexivity]].
    all: first [ left; reflexivity | right; left; reflexivity ].
  - intros bc cl j p w. cbv zeta.
    unfold sample2.submit_job_and_add_task, bind, try_except, invoke, utcnow, pure.
    cbv zeta. answer_all.
    all: unfold trace_of; cbn [fst snd app]; cbn.
    all: intros x Hx; first [ contradiction | destruct Hx as [<-|[]] ].
    all: eexists; split; [|reflexivity].
    all: first [ left; reflexivity | right; left; reflexivity ].
Qed.

End Submitted.

Lemma direct_mode_parameters_witness :
  exists sas_url,
    In sas_url (omap sas_returned
                  (trace_of (@sample2.submit_job_and_add_task _
                               (Sim.service Sim.no_faults)
                               (BatchServiceClient.new
                                  {| SharedKeyCredentials.account_name := "acct";
                                     SharedKeyCredentials.key := "k1" |}
                                  "https://acct.region.batch.azure.com")
                               {| BlobServiceClient.account_url :=
                                    "https://perssto.blob.core.windows.net";
                                  BlobServiceClient.credential := "k2" |}
                               "job-1" "pool-1" Sim.initial)))
    /\ sas_url = "https://perssto.blob.core.windows.net/poolsandresourcefiles/simple_task.py?sig".
Proof.
  destruct (proj2 (@direct_mode_parameters _ (Sim.service Sim.no_faults))
              (BatchServiceClient.new
                 {| SharedKeyCredentials.account_name := "acct";
                    SharedKeyCredentials.key := "k1" |}
                 "https://acct.region.batch.azure.com")
              {| BlobServiceClient.account_url :=
                   "https://perssto.blob.core.windows.net";
                 BlobServiceClient.credential := "k2" |}
              "job-1" "pool-1" Sim.initial
              ("job-1", {|
                 batchmodels.TaskAddParameter.id := "MyPythonTask";
                 batchmodels.TaskAddParameter.command_line := "python simple_task.py";
                 batchmodels.TaskAddParameter.resource_files := [ {|
                   batchmodels.ResourceFile.file_path := "simple_task.py";
                   batchmodels.ResourceFile.http_url :=
                     "https://perssto.blob.core.windows.net/poolsandresourcefiles/simple_task.py?sig" |} ] |}))
    as (sas_url & Hin & Heq).
  - vm_compute. left. reflexivity.
  - exists sas_url. split; [exact Hin|]. now injection Heq.
Defined.

(** * Errors of the cleanup *)

Section Masking.
Context {W : Type} `{Service W} `{Helpers}.

(** X13.  An error of the [finally] block is the outcome of
    [execute_sample], whatever the [try] body did: it replaces the error
    of a body that failed, and it makes a run fail whose body returned. *)
Theorem cleanup_error_masks :
  (forall global_config sample_config (w : W) l w1 t1 e,
      sample2.setup global_config sample_config w = (Ok l, w1, t1) ->
      result_of (sample2.cleanup l (world_of (sample2.workflow l w1))) = Raise e ->
      result_of (sample2.execute_sample global_config sample_config w) = Raise e)
  /\ (forall start_time global_config sample_config (w : W) l w1 t1 e,
      sample4.setup global_config sample_config w = (Ok l, w1, t1) ->
      let body :=
        try_except (sample4.workflow start_time l) is_BatchErrorException
          sample4.on_batch_error w1 in
      result_of (sample4.cleanup l (world_of body)) = Raise e ->
      result_of (sample4.execute_sample start_time global_config sample_config w)
      = Raise e).
Proof.
  split.
  - intros g s w l w1 t1 e E R.
    unfold sample2.execute_sample. rewrite (bind_ok _ _ _ _ _ _ E), try_finally_run.
    unfold result_of in *. cbn [fst snd] in *. now rewrite R.
  - intros start g s w l w1 t1 e E. cbv zeta. intros R.
    unfold sample4.execute_sample. rewrite (bind_ok _ _ _ _ _ _ E), try_finally_run.
    unfold result_of in *. cbn [fst snd] in *. now rewrite R.
Qed.

(** When the workflow of the scheduled-mode sample raises, a call of its
    trace raised. *)
Lemma sample4_workflow_raised start (l : sample4.locals) (w : W) e :
  result_of (sample4.workflow start l w) = Raise e ->
  has_raised (fun _ _ => true) (trace_of (sample4.workflow start l w)) = true.
Proof.
  unfold sample4.workflow, sample4.create_job_schedule,
    bind, invoke, utcnow, print, pure.
  cbv zeta. answer_all.
  all: unfold result_of, trace_of; cbn [fst snd app].
  all: intros Hr; first [discriminate Hr | cbn; rewrite ?orb_true_r; reflexivity].
Qed.

Lemma operations_prints {A} (f : A -> list printable) (xs : list A) :
  operations (map (fun x => EPrint (f x)) xs) = [].
Proof. induction xs as [|x xs IH]; [reflexivity | exact IH]. Qed.

Lemma has_raised_app p t1 t2 :
  has_raised p (t1 ++ t2) = has_raised p t1 || has_raised p t2.
Proof. apply existsb_app. Qed.

(** X14.  A run of the scheduled-mode [execute_sample] that returns has
    performed the name generation, a prefix of the seven operations of
    the body and the deletions its two flags ask for, in that order; the
    prefix is the whole body unless some call raised (a batch error,
    caught by the handler). *)
Theorem sample4_success_operations start_time global_config sample_config (w : W) :
  let run := sample4.execute_sample start_time global_config sample_config w in
  result_of run = Ok tt ->
  exists n schedule container,
    ConfigParser.getboolean sample_config "DEFAULT" "shoulddeletejobschedule"
      = Ok schedule
    /\ ConfigParser.getboolean sample_config "DEFAULT" "shoulddeletecontainer"
      = Ok container
    /\ operations (trace_of run)
       = OpGenerateName :: take n sample4_operations
         ++ sample4_cleanup_operations schedule container
    /\ (has_raised (fun _ _ => true) (trace_of run) = false -> n = 7%nat).
Proof.
  cbv zeta. unfold sample4.execute_sample.
  destruct (sample4.setup global_config sample_config w) as [[[l|e] w1] t1] eqn:E.
  2: { rewrite (bind_raise _ _ _ _ _ _ E). intros [=]. }
  rewrite (bind_ok _ _ _ _ _ _ E), try_finally_run.
  pose proof (sample4_setup_inv _ _ _ _ _ _ E) as (Fc & Fs & _ & _ & Ht).
  destruct (sample4_workflow_in_order start_time l w1) as (n & Hn & Hfull).
  pose proof (sample4_workflow_raised start_time l w1) as Hraised.
  set (body := try_except (sample4.workflow start_time l) is_BatchErrorException
                 sample4.on_batch_error w1).
  pose proof (sample4_cleanup_operations_ok l (world_of body)) as Hc.
  assert (operations (trace_of body)
          = operations (trace_of (sample4.workflow start_time l w1))
          /\ (has_raised (fun _ _ => true) (trace_of body) = false ->
              result_of (sample4.workflow start_time l w1) = Ok tt)) as [Hb Hok].
  { subst body.
    destruct (sample4.workflow start_time l w1) as [[[[]|e] w2] t2] eqn:Ew.
    - rewrite (try_except_ok _ _ _ _ _ _ _ Ew). now split.
    - specialize (Hraised e eq_refl). cbn [trace_of snd] in Hraised.
      destruct (is_BatchErrorException e) eqn:B.
      + rewrite (try_except_caught _ _ _ _ _ _ _ Ew B).
        unfold result_of, world_of, trace_of. cbn [fst snd]. split.
        * rewrite operations_app.
          destruct e as [| | |[[[details|]]|]| | | | | | | |]; try discriminate.
          -- rewrite on_batch_error_prints. cbn [fst snd].
             now rewrite operations_prints, app_nil_r.
          -- cbn. now rewrite app_nil_r.
          -- cbn. now rewrite app_nil_r.
        * rewrite has_raised_app, Hraised. discriminate.
      + rewrite (try_except_uncaught _ _ _ _ _ _ _ Ew B). split; [reflexivity|].
        cbn [trace_of snd]. rewrite Hraised. discriminate. }
  subst body. unfold result_of, world_of, trace_of in *. cbn [fst snd] in *.
  match goal with
  | |- match ?r with Ok _ => _ | Raise _ => _ end = _ -> _ =>
      destruct r as [[]|e] eqn:Rc; [|intros [=]]
  end.
  intros Rb.
  exists n, (sample4.should_delete_job_schedule l), (sample4.should_delete_container l).
  split; [assumption|]. split; [assumption|]. split.
  - rewrite !operations_app, Hb, Hn, (Hc eq_refl), Ht. reflexivity.
  - intros Hnone. apply Hfull, Hok.
    rewrite Ht in Hnone. rewrite !has_raised_app in Hnone.
    apply orb_false_elim in Hnone as [_ Hnone].
    now apply orb_false_elim in Hnone as [Hnone _].
Qed.

End Masking.

Lemma cleanup_error_masks_witness :
  result_of (@sample2.execute_sample _ (Sim.service Sim.faults_job_add)
               (Sim.global_config "https://configured.example")
               (Sim.sample2_config "true" "true" "true") Sim.initial)
  = Raise Sim.not_found.
Proof.
  eapply (proj1 (@cleanup_error_masks _ (Sim.service Sim.faults_job_add) Sim.helpers)).
  - vm_compute. reflexivity.
  - vm_compute. reflexivity.
Defined.

Lemma sample4_success_operations_witness :
  exists n,
    operations (trace_of (@sample4.execute_sample _ (Sim.service Sim.faults_wait_for_job)
                            Sim.helpers 0
                            (Sim.global_config "https://configured.example")
                            (Sim.sample4_config "true" "true")
                            (Sim.with_container "jobscheduler" 0)))
    = OpGenerateName :: take n sample4_operations
      ++ [OpScheduleDelete; OpDeleteContainer].
Proof.
  destruct (@sample4_success_operations _ (Sim.service Sim.faults_wait_for_job)
              Sim.helpers 0
              (Sim.global_config "https://configured.example")
              (Sim.sample4_config "true" "true")
              (Sim.with_container "jobscheduler" 0))
    as (n & sch & c & Fs & Fc & Ho & _).
  - vm_compute. reflexivity.
  - exists n. rewrite Ho.
    assert (sch = true) as -> by (vm_compute in Fs; congruence).
    assert (c = true) as -> by (vm_compute in Fc; congruence).
    reflexivity.
Defined.
